(** * katichai: the embedding index, similarity search and Go extractor

    A shallow embedding of
    - [internal/embeddings]: the generator ([GenerateForAnalysis],
      [SaveIndex], [LoadIndex]), the three embedding providers and the
      similarity search / duplicate detector;
    - [internal/analysis/parser_go.go]: [extractFunction] and
      [calculateComplexity];
    - [internal/cmd/context.go]: the embedding stage of [runContextBuild].

    Go values are modelled as follows.  [int] is a 64-bit two's-complement
    integer, carried as a [Z] and wrapped by [int_wrap] where the source
    does arithmetic on it.  [float32] and [float64] are IEEE-754 binary32
    and binary64 values, carried as [spec_float] and computed with the
    operations of [SpecFloat].  A Go [string] is a sequence of bytes, as
    is a Rocq [string].  A [(T, error)] result is a [result T]; a run-time
    panic is [None].  The network and the file system are an explicit
    [World] passed through every effectful function; what the program
    prints on the terminal is left out.  Floating-point expressions are
    evaluated operation by operation, without fused multiply-add. *)

From Stdlib Require Import ZArith List String Ascii Bool Lia.
From Stdlib Require Import Permutation Sorted.
From Stdlib Require Import Floats.SpecFloat.
From stdpp Require Import base option list sorting strings gmap.

Local Open Scope Z_scope.

(** ** Go's [int] *)

Module GoInt.

Definition int_min : Z := - 2 ^ 63.
Definition int_max : Z := 2 ^ 63 - 1.

(** The value an [int] computation leaves after overflow. *)
Definition int_wrap (z : Z) : Z := (z + 2 ^ 63) mod 2 ^ 64 - 2 ^ 63.

Definition int_add (a b : Z) : Z := int_wrap (a + b).
Definition int_sub (a b : Z) : Z := int_wrap (a - b).

(** [len(x)] of a slice or string. *)
Definition len {A} (l : list A) : Z := Z.of_nat (length l).

End GoInt.
Export GoInt.

(** ** Go's [float32] and [float64] *)

Module GoFloat.

Definition float32 : Type := spec_float.
Definition float64 : Type := spec_float.

Definition prec32 : Z := 24.
Definition emax32 : Z := 128.
Definition prec64 : Z := 53.
Definition emax64 : Z := 1024.

(** The literal [0] at either type. *)
Definition fzero : spec_float := S754_zero false.

(** [float64(x)] for [x : float32]: exact, the mantissa renormalised to
    53 bits. *)
Definition float64_of_float32 (x : float32) : float64 :=
  match x with
  | S754_finite s m e => binary_round prec64 emax64 s m e
  | _ => x
  end.

(** [float32(x)] for [x : float64]: round to nearest, ties to even. *)
Definition float32_of_float64 (x : float64) : float32 :=
  match x with
  | S754_finite s m e => binary_round prec32 emax32 s m e
  | _ => x
  end.

Definition f64_add : float64 -> float64 -> float64 := SFadd prec64 emax64.
Definition f64_mul : float64 -> float64 -> float64 := SFmul prec64 emax64.
Definition f64_div : float64 -> float64 -> float64 := SFdiv prec64 emax64.
(** [math.Sqrt]. *)
Definition math_Sqrt : float64 -> float64 := SFsqrt prec64 emax64.

(** [x == y], [x > y] and [x >= y]; all three are false on a NaN. *)
Definition f_eq (x y : spec_float) : bool := SFeqb x y.
Definition f_gt (x y : spec_float) : bool := SFltb y x.
Definition f_ge (x y : spec_float) : bool := SFleb y x.

Definition is_nan (x : spec_float) : bool :=
  match x with S754_nan => true | _ => false end.

Definition is_zero (x : spec_float) : bool :=
  match x with S754_zero _ => true | _ => false end.

(** The [float32] nearest to the rational [m * 2^e]. *)
Definition f32_lit (m e : Z) : float32 := binary_normalize prec32 emax32 m e false.

Definition f32_one : float32 := f32_lit 1 0.
(** The constant [0.85] converted to [float32]: [0x3f59999a]. *)
Definition f32_0_85 : float32 := S754_finite false 14260634 (-24).

End GoFloat.
Export GoFloat.

(** ** [fmt] verbs *)

Module Fmt.

Definition digit_char (d : Z) : ascii :=
  ascii_of_nat (Z.to_nat (48 + d)).

(** Decimal digits of a non-negative number, most significant first.
    [fuel] bounds the number of digits. *)
Fixpoint digits_fuel (fuel : nat) (n : Z) (acc : string) : string :=
  match fuel with
  | O => acc
  | S fuel' =>
      let acc' := String (digit_char (n mod 10)) acc in
      if n / 10 =? 0 then acc' else digits_fuel fuel' (n / 10) acc'
  end.

(** [%d] of an [int]. *)
Definition fmt_d (n : Z) : string :=
  if n <? 0
  then String "-"%char (digits_fuel 20 (- n) EmptyString)
  else digits_fuel 20 n EmptyString.

Definition hex_char (d : Z) : ascii :=
  if d <? 10 then ascii_of_nat (Z.to_nat (48 + d))
  else ascii_of_nat (Z.to_nat (87 + d)).

(** [%x] of a byte slice: two lower-case hex digits per byte. *)
Fixpoint fmt_x (bs : list Z) : string :=
  match bs with
  | [] => EmptyString
  | b :: bs' => String (hex_char (b / 16)) (String (hex_char (b mod 16)) (fmt_x bs'))
  end.

Fixpoint join_space (ss : list string) : string :=
  match ss with
  | [] => EmptyString
  | [s] => s
  | s :: ss' => s +:+ " " +:+ join_space ss'
  end.

(** [%v] of a [[]string]: the elements between brackets, separated by
    one space. *)
Definition fmt_v_strings (ss : list string) : string :=
  "[" +:+ join_space ss +:+ "]".

Definition bytes_of_string (s : string) : list Z :=
  map (fun c => Z.of_nat (nat_of_ascii c)) (list_ascii_of_string s).

End Fmt.
Export Fmt.

(** ** [crypto/sha256]

    [Sum256] as specified by FIPS 180-4, on bytes carried as [Z]. *)

Module Sha256.

Definition w32 (x : Z) : Z := x mod 2 ^ 32.
Definition add32 (a b : Z) : Z := w32 (a + b).
Definition rotr (n x : Z) : Z :=
  Z.lor (Z.shiftr x n) (w32 (Z.shiftl x (32 - n))).
Definition xor3 (a b c : Z) : Z := Z.lxor (Z.lxor a b) c.

Definition Ch (x y z : Z) : Z :=
  Z.lxor (Z.land x y) (Z.land (Z.lxor x 0xffffffff) z).
Definition Maj (x y z : Z) : Z :=
  xor3 (Z.land x y) (Z.land x z) (Z.land y z).
Definition Sigma0 (x : Z) : Z := xor3 (rotr 2 x) (rotr 13 x) (rotr 22 x).
Definition Sigma1 (x : Z) : Z := xor3 (rotr 6 x) (rotr 11 x) (rotr 25 x).
Definition sigma0 (x : Z) : Z := xor3 (rotr 7 x) (rotr 18 x) (Z.shiftr x 3).
Definition sigma1 (x : Z) : Z := xor3 (rotr 17 x) (rotr 19 x) (Z.shiftr x 10).

(** The round constants are the first 32 bits of the fractional parts
    of the cube roots of the first 64 primes, and the initial hash value
    those of the square roots of the first 8 primes. *)
Definition is_prime (n : Z) : bool :=
  (2 <=? n) && forallb (fun d => negb (n mod d =? 0))
                       (map Z.of_nat (seq 2 (Z.to_nat n - 2))).

Definition first_primes (count : nat) : list Z :=
  firstn count (List.filter is_prime (map Z.of_nat (seq 2 310))).

(** The integer cube root of [N], found bit by bit from bit [bit - 1]
    down. *)
Fixpoint cube_root_bits (bit : nat) (N r : Z) : Z :=
  match bit with
  | O => r
  | S bit' =>
      let c := r + 2 ^ Z.of_nat bit' in
      cube_root_bits bit' N (if c * c * c <=? N then c else r)
  end.

Definition frac_cube_root (p : Z) : Z := w32 (cube_root_bits 40 (p * 2 ^ 96) 0).
Definition frac_square_root (p : Z) : Z := w32 (Z.sqrt (p * 2 ^ 64)).

Definition K : list Z := Eval vm_compute in map frac_cube_root (first_primes 64).
Definition H_init : list Z := Eval vm_compute in map frac_square_root (first_primes 8).

(** Big-endian bytes of a number, [n] of them. *)
Fixpoint be_bytes (n : nat) (x : Z) : list Z :=
  match n with
  | O => []
  | S n' => (Z.shiftr x (8 * Z.of_nat n')) mod 256 :: be_bytes n' x
  end.

Definition be_word (bs : list Z) : Z :=
  fold_left (fun acc b => acc * 256 + b) bs 0.

(** The message followed by [0x80], zero bytes up to 56 modulo 64, and
    its length in bits as a 64-bit big-endian number. *)
Definition pad (msg : list Z) : list Z :=
  let n := len msg in
  msg ++ [0x80] ++ repeat 0 (Z.to_nat ((55 - n) mod 64)) ++ be_bytes 8 (8 * n).

Fixpoint chunks (fuel : nat) (k : nat) (l : list Z) : list (list Z) :=
  match fuel with
  | O => []
  | S fuel' =>
      match l with
      | [] => []
      | _ => firstn k l :: chunks fuel' k (skipn k l)
      end
  end.

(** The message schedule, most recent word first; [n] more words are
    added to the ones already in [ws]. *)
Fixpoint schedule (n : nat) (ws : list Z) : list Z :=
  match n with
  | O => ws
  | S n' =>
      let w := add32 (add32 (sigma1 (nth 1 ws 0)) (nth 6 ws 0))
                     (add32 (sigma0 (nth 14 ws 0)) (nth 15 ws 0)) in
      schedule n' (w :: ws)
  end.

Record regs : Type := Regs { ra : Z; rb : Z; rc : Z; rd : Z; re : Z; rf : Z; rg : Z; rh : Z }.

Definition round (r : regs) (kw : Z * Z) : regs :=
  let t1 := add32 (add32 (add32 (rh r) (Sigma1 (re r))) (Ch (re r) (rf r) (rg r)))
                  (add32 (fst kw) (snd kw)) in
  let t2 := add32 (Sigma0 (ra r)) (Maj (ra r) (rb r) (rc r)) in
  Regs (add32 t1 t2) (ra r) (rb r) (rc r) (add32 (rd r) t1) (re r) (rf r) (rg r).

Definition regs_of (h : list Z) : regs :=
  Regs (nth 0 h 0) (nth 1 h 0) (nth 2 h 0) (nth 3 h 0)
       (nth 4 h 0) (nth 5 h 0) (nth 6 h 0) (nth 7 h 0).

Definition list_of (r : regs) : list Z :=
  [ra r; rb r; rc r; rd r; re r; rf r; rg r; rh r].

Definition compress (h : list Z) (block : list Z) : list Z :=
  let w16 := map be_word (chunks 16 4 block) in
  let w := rev (schedule 48 (rev w16)) in
  let r := fold_left round (combine K w) (regs_of h) in
  map (fun ab => add32 (fst ab) (snd ab)) (combine h (list_of r)).

Definition Sum256 (msg : list Z) : list Z :=
  let p := pad msg in
  let h := fold_left compress (chunks (length p) 64 p) H_init in
  flat_map (be_bytes 4) h.

End Sha256.

(** ** Errors and results *)

(** A Go [error]: a message, possibly wrapping a cause ([%w]). *)
Inductive error : Type :=
| NewError (msg : string)
| Wrap (msg : string) (cause : error).

(** A Go [(T, error)] pair: the value when the error is [nil]. *)
Inductive result (T : Type) : Type :=
| Ok (v : T)
| Err (e : error).
Arguments Ok {T} v.
Arguments Err {T} e.

Definition is_ok {T} (r : result T) : bool :=
  match r with Ok _ => true | Err _ => false end.

(** ** [internal/analysis]: the Go extractor *)

Module Analysis.

(** [token.Token], as far as [calculateComplexity] tells operators
    apart. *)
Inductive Token : Type :=
| LAND                       (* && *)
| LOR                        (* || *)
| OtherToken (name : string).

(** The dynamic type of an [ast.Node]. *)
Inductive NodeKind : Type :=
| IfStmt
| ForStmt
| RangeStmt
| CaseClause
| CommClause
| BinaryExpr (Op : Token)
| OtherNode (name : string).

(** A syntax tree as [ast.Walk] sees it: a node and its non-nil
    children, in the order they are visited. *)
#[local] Unset Elimination Schemes.
Inductive Node : Type :=
| MkNode (kind : NodeKind) (children : list Node).
#[local] Set Elimination Schemes.

(** [ast.Inspect(node, f)]: depth-first; [f] is called on the node, and
    when it returns true on each child in turn and then on [nil].  The
    closure's captured variables are the state [S]. *)
Fixpoint Inspect {S : Type} (f : option Node -> S -> bool * S) (n : Node) (s : S) : S :=
  match n with
  | MkNode _ cs =>
      let '(descend, s1) := f (Some n) s in
      if descend
      then snd (f None
                  ((fix walk (cs : list Node) (s : S) : S :=
                      match cs with
                      | [] => s
                      | c :: cs' => walk cs' (Inspect f c s)
                      end) cs s1))
      else s1
  end.

(** A field of a parameter list: [a, b int] has the names [a] and [b]. *)
Record Field : Type := { Names : list string }.

(** [*ast.FuncDecl], with the positions [fset.Position] resolves. *)
Record FuncDecl : Type := {
  DeclName : string;             (* funcDecl.Name.Name *)
  DeclIsExported : bool;         (* funcDecl.Name.IsExported() *)
  DeclDoc : option string;       (* funcDecl.Doc.Text(), when Doc is not nil *)
  DeclParams : option (list Field);  (* funcDecl.Type.Params, when not nil *)
  PosLine : Z;                   (* fset.Position(funcDecl.Pos()).Line *)
  EndPosLine : Z;                (* fset.Position(funcDecl.End()).Line *)
  DeclChildren : list Node       (* doc, receiver, name, type and body subtrees *)
}.

(** The declaration as the root node handed to [ast.Inspect]. *)
Definition FuncDecl_node (fd : FuncDecl) : Node :=
  MkNode (OtherNode "FuncDecl") (DeclChildren fd).

Record FunctionInfo : Type := {
  Name : string;
  StartLine : Z;
  EndLine : Z;
  LOC : Z;
  Complexity : Z;
  Parameters : list string;
  ReturnType : string;
  IsExported : bool;
  Comments : string
}.

(** The closure of [calculateComplexity]: the type switch on [n]. *)
Definition complexity_visit (n : option Node) (complexity : Z) : bool * Z :=
  match n with
  | Some (MkNode IfStmt _) => (true, int_add complexity 1)
  | Some (MkNode ForStmt _) => (true, int_add complexity 1)
  | Some (MkNode RangeStmt _) => (true, int_add complexity 1)
  | Some (MkNode CaseClause _) => (true, int_add complexity 1)
  | Some (MkNode CommClause _) => (true, int_add complexity 1)
  | Some (MkNode (BinaryExpr LAND) _) => (true, int_add complexity 1)
  | Some (MkNode (BinaryExpr LOR) _) => (true, int_add complexity 1)
  | _ => (true, complexity)
  end.

Definition calculateComplexity (funcDecl : FuncDecl) : Z :=
  Inspect complexity_visit (FuncDecl_node funcDecl) 1.

Definition extractFunction (funcDecl : FuncDecl) : FunctionInfo :=
  {| Name := DeclName funcDecl;
     StartLine := PosLine funcDecl;
     EndLine := EndPosLine funcDecl;
     LOC := int_add (int_sub (EndPosLine funcDecl) (PosLine funcDecl)) 1;
     Complexity := calculateComplexity funcDecl;
     Parameters :=
       match DeclParams funcDecl with
       | Some fields => flat_map Names fields
       | None => []
       end;
     ReturnType := EmptyString;
     IsExported := DeclIsExported funcDecl;
     Comments :=
       match DeclDoc funcDecl with
       | Some text => text
       | None => EmptyString
       end |}.

(** [FileAnalysis], with the fields the embedding generator reads. *)
Record FileAnalysis : Type := {
  FilePath : string;
  Language : string;
  Functions : list FunctionInfo
}.

(** [AnalysisResult.Files] is a Go map; a [range] over it visits the
    keys in an unspecified order.  The list holds its entries in the
    order the loop of [GenerateForAnalysis] visits them. *)
Record AnalysisResult : Type := {
  Files : list (string * FileAnalysis)
}.

(** The spec's counting of decision points: each conditional branch,
    loop construct, switch/case (or select) arm and short-circuit
    operator counts one. *)
Definition is_decision_point (k : NodeKind) : bool :=
  match k with
  | IfStmt => true
  | ForStmt | RangeStmt => true
  | CaseClause | CommClause => true
  | BinaryExpr LAND | BinaryExpr LOR => true
  | _ => false
  end.

Fixpoint decision_points (n : Node) : Z :=
  match n with
  | MkNode k cs =>
      (if is_decision_point k then 1 else 0)
      + (fix sum (cs : list Node) : Z :=
           match cs with
           | [] => 0
           | c :: cs' => decision_points c + sum cs'
           end) cs
  end.

End Analysis.

(** ** The outside world: HTTP servers and the file system *)

Module Env.

Inductive Request : Type :=
| PostOllamaEmbeddings (url model prompt : string)
| GetOllamaTags (url : string)
| PostOpenAIEmbeddings (apiKey model input : string).

(** A response body: its text, and what [json.Decoder] makes of it
    when decoding into the Ollama and the OpenAI response structs
    ([Embedding], and the [Embedding] of each element of [Data]). *)
Record Body : Type := {
  body_text : string;
  decode_ollama : result (list float32);
  decode_openai : result (list (list float32))
}.

Inductive Reply : Type :=
| TransportError (e : error)       (* the client returned an error; a timeout is one *)
| Response (StatusCode : Z) (body : Body).

(** What [os.WriteFile] does: it opens the file truncating it, writes,
    and closes. *)
Inductive WriteOutcome : Type :=
| WriteCompletes
| OpenFails (e : error)                       (* nothing was touched *)
| WriteFailsAfter (n : nat) (e : error)       (* truncated, then [n] bytes written *)
| CloseFails (e : error).                     (* all bytes written *)

Record World : Type := {
  http : list Request -> Request -> Reply;    (* the servers' answer, given the requests so far *)
  sent : list Request;                        (* the requests made so far, oldest first *)
  disk : gmap string string;                  (* regular files by path *)
  mkdir_error : string -> option error;       (* the error of os.MkdirAll on a directory *)
  write_outcome : string -> string -> WriteOutcome
}.

Definition with_sent (w : World) (s : list Request) : World :=
  {| http := http w; sent := s; disk := disk w;
     mkdir_error := mkdir_error w; write_outcome := write_outcome w |}.

Definition with_disk (w : World) (d : gmap string string) : World :=
  {| http := http w; sent := sent w; disk := d;
     mkdir_error := mkdir_error w; write_outcome := write_outcome w |}.

(** One round trip of the HTTP client. *)
Definition http_do (req : Request) (w : World) : Reply * World :=
  (http w (sent w) req, with_sent w (sent w ++ [req])).

Definition os_MkdirAll (dir : string) (w : World) : option error * World :=
  (mkdir_error w dir, w).

Definition os_WriteFile (name data : string) (w : World) : option error * World :=
  match write_outcome w name data with
  | WriteCompletes => (None, with_disk w (<[name := data]> (disk w)))
  | OpenFails e => (Some e, w)
  | WriteFailsAfter n e =>
      (Some e, with_disk w (<[name := String.substring 0 n data]> (disk w)))
  | CloseFails e => (Some e, with_disk w (<[name := data]> (disk w)))
  end.

Definition os_ReadFile (name : string) (w : World) : result string :=
  match disk w !! name with
  | Some data => Ok data
  | None => Err (NewError ("open " +:+ name +:+ ": no such file or directory"))
  end.

(** [strings.Join]. *)
Fixpoint strings_Join (elems : list string) (sep : string) : string :=
  match elems with
  | [] => EmptyString
  | [e] => e
  | e :: rest => e +:+ sep +:+ strings_Join rest sep
  end.

(** The elements of a path: what stands between its separators, the
    empty ones included. *)
Fixpoint path_elements (p : string) : list string :=
  match p with
  | EmptyString => [EmptyString]
  | String c p' =>
      if Ascii.eqb c "/" then EmptyString :: path_elements p'
      else match path_elements p' with
           | e :: es => String c e :: es
           | [] => [String c EmptyString]
           end
  end.

Definition is_rooted (p : string) : bool :=
  match p with
  | String c _ => Ascii.eqb c "/"
  | EmptyString => false
  end.

(** One round of the loop of [filepath.Clean].  [out] holds the elements
    written so far, the last one first.  An empty element and [.] are
    skipped; [..] removes the last element written, is dropped at the
    root, and is written where there is nothing to remove in a path that
    is not rooted (the elements written are then all [..]); any other
    element is written. *)
Definition clean_step (rooted : bool) (out : list string) (e : string)
    : list string :=
  if String.eqb e EmptyString || String.eqb e "." then out
  else if String.eqb e ".." then
    match out with
    | [] => if rooted then [] else [".."]
    | o :: out' => if String.eqb o ".." then ".." :: out else out'
    end
  else e :: out.

(** [filepath.Clean] with [/] as the separator and no volume name. *)
Definition filepath_Clean (p : string) : string :=
  if String.eqb p EmptyString then "."
  else
    let rooted := is_rooted p in
    let out := fold_left (clean_step rooted) (path_elements p) [] in
    let body := strings_Join (rev out) "/" in
    if rooted then "/" +:+ body
    else if String.eqb body EmptyString then "." else body.

(** The part of a path before its last separator, if it has one. *)
Fixpoint dir_prefix (p : string) : option string :=
  match p with
  | EmptyString => None
  | String c p' =>
      match dir_prefix p' with
      | Some d => Some (String c d)
      | None => if Ascii.eqb c "/" then Some EmptyString else None
      end
  end.

(** [filepath.Dir]: the path up to and including its last separator,
    cleaned. *)
Definition filepath_Dir (p : string) : string :=
  match dir_prefix p with
  | None => filepath_Clean EmptyString
  | Some d => filepath_Clean (d +:+ "/")
  end.

(** [filepath.Join]: the elements from the first non-empty one on,
    joined by the separator and cleaned; the empty string when every
    element is empty. *)
Fixpoint filepath_Join (elems : list string) : string :=
  match elems with
  | [] => EmptyString
  | e :: rest =>
      if String.eqb e EmptyString then filepath_Join rest
      else filepath_Clean (strings_Join elems "/")
  end.

End Env.
Export Env.

(** ** [internal/embeddings] *)

Module Embeddings.

(** *** The index *)

Record CodeEmbedding : Type := {
  ID : string;
  FilePath : string;
  FuncName : string;
  StartLine : Z;
  EndLine : Z;
  Code : string;
  Embedding : list float32;
  Language : string
}.

Record EmbeddingIndex : Type := {
  Embeddings : list CodeEmbedding;
  Dimension : Z;
  Provider : string;
  Version : string
}.

(** [encoding/json] at the type [EmbeddingIndex]: [MarshalIndent] and
    [Unmarshal].  The library is not part of the repository; the code
    is verified for every codec. *)
Class Json : Type := {
  json_MarshalIndent : EmbeddingIndex -> result string;
  json_Unmarshal : string -> result EmbeddingIndex
}.

(** *** Providers *)

(** The interface [EmbeddingProvider].  The receivers are pointers: a
    call returns the provider as it has left it. *)
Class EmbeddingProvider (P : Type) : Type := {
  GenerateEmbedding : P -> string -> World -> result (list float32) * P * World;
  GetDimension : P -> Z;
  GetName : P -> string
}.

Record OllamaProvider : Type := {
  baseURL : string;
  ollama_model : string
}.

Definition NewOllamaProvider (url model : string) : OllamaProvider :=
  {| baseURL := if String.eqb url "" then "http://localhost:11434" else url;
     ollama_model := if String.eqb model "" then "nomic-embed-text" else model |}.

Definition Ollama_GenerateEmbedding (p : OllamaProvider) (text : string) (w : World)
  : result (list float32) * World :=
  let url := baseURL p +:+ "/api/embeddings" in
  let '(reply, w1) := http_do (PostOllamaEmbeddings url (ollama_model p) text) w in
  match reply with
  | TransportError e => (Err (Wrap "ollama request failed" e), w1)
  | Response status body =>
      if negb (status =? 200)
      then (Err (NewError ("ollama returned status " +:+ fmt_d status +:+ ": "
                             +:+ body_text body)), w1)
      else
        match decode_ollama body with
        | Err e => (Err (Wrap "failed to decode response" e), w1)
        | Ok embedding =>
            if len embedding =? 0
            then (Err (NewError "ollama returned empty embedding"), w1)
            else (Ok embedding, w1)
        end
  end.

Definition Ollama_GetDimension (p : OllamaProvider) : Z := 768.
Definition Ollama_GetName (p : OllamaProvider) : string := "Ollama".

Definition Ollama_IsAvailable (p : OllamaProvider) (w : World) : bool * World :=
  let url := baseURL p +:+ "/api/tags" in
  let '(reply, w1) := http_do (GetOllamaTags url) w in
  match reply with
  | TransportError _ => (false, w1)
  | Response status _ => (status =? 200, w1)
  end.

Record OpenAIProvider : Type := {
  apiKey : string;
  openai_model : string
}.

Definition NewOpenAIProvider (key model : string) : OpenAIProvider :=
  {| apiKey := key;
     openai_model := if String.eqb model "" then "text-embedding-3-small" else model |}.

Definition OpenAI_GenerateEmbedding (p : OpenAIProvider) (text : string) (w : World)
  : result (list float32) * World :=
  let '(reply, w1) := http_do (PostOpenAIEmbeddings (apiKey p) (openai_model p) text) w in
  match reply with
  | TransportError e => (Err (Wrap "openai request failed" e), w1)
  | Response status body =>
      if negb (status =? 200)
      then (Err (NewError ("openai returned status " +:+ fmt_d status +:+ ": "
                             +:+ body_text body)), w1)
      else
        match decode_openai body with
        | Err e => (Err (Wrap "failed to decode response" e), w1)
        | Ok [] => (Err (NewError "openai returned empty embedding"), w1)
        | Ok (embedding :: _) =>
            if len embedding =? 0
            then (Err (NewError "openai returned empty embedding"), w1)
            else (Ok embedding, w1)
        end
  end.

Definition OpenAI_GetDimension (p : OpenAIProvider) : Z := 1536.
Definition OpenAI_GetName (p : OpenAIProvider) : string := "OpenAI".

(** [openai] is [None] when the pointer is nil. *)
Record HybridProvider : Type := {
  ollama : OllamaProvider;
  openai : option OpenAIProvider;
  useOllama : bool
}.

Definition set_useOllama (p : HybridProvider) (b : bool) : HybridProvider :=
  {| ollama := ollama p; openai := openai p; useOllama := b |}.

Definition NewHybridProvider (ollamaURL ollamaModel openaiKey openaiModel : string)
    (w : World) : HybridProvider * World :=
  let o := NewOllamaProvider ollamaURL ollamaModel in
  let oa := if negb (String.eqb openaiKey "")
            then Some (NewOpenAIProvider openaiKey openaiModel) else None in
  let '(available, w1) := Ollama_IsAvailable o w in
  ({| ollama := o; openai := oa; useOllama := available |}, w1).

Definition err_no_provider : error :=
  NewError "no embedding provider available (Ollama not running, OpenAI key not configured)".

(** The tail of [HybridProvider.GenerateEmbedding]: fall back to
    OpenAI. *)
Definition Hybrid_fallback (p : HybridProvider) (text : string) (w : World)
  : result (list float32) * HybridProvider * World :=
  match openai p with
  | Some oa => let '(r, w1) := OpenAI_GenerateEmbedding oa text w in (r, p, w1)
  | None => (Err err_no_provider, p, w)
  end.

Definition Hybrid_GenerateEmbedding (p : HybridProvider) (text : string) (w : World)
  : result (list float32) * HybridProvider * World :=
  if useOllama p
  then
    let '(r, w1) := Ollama_GenerateEmbedding (ollama p) text w in
    match r with
    | Ok embedding => (Ok embedding, p, w1)
    | Err _ => Hybrid_fallback (set_useOllama p false) text w1
    end
  else Hybrid_fallback p text w.

Definition Hybrid_GetDimension (p : HybridProvider) : Z :=
  if useOllama p then Ollama_GetDimension (ollama p)
  else match openai p with
       | Some oa => OpenAI_GetDimension oa
       | None => 768
       end.

Definition Hybrid_GetName (p : HybridProvider) : string :=
  if useOllama p then Ollama_GetName (ollama p)
  else match openai p with
       | Some oa => OpenAI_GetName oa
       | None => "None"
       end.

Definition Hybrid_GetActiveProvider (p : HybridProvider) : string :=
  if useOllama p then "Ollama (local)"
  else match openai p with
       | Some _ => "OpenAI (API)"
       | None => "None"
       end.

#[export] Instance Ollama_provider : EmbeddingProvider OllamaProvider := {
  GenerateEmbedding p text w :=
    let '(r, w1) := Ollama_GenerateEmbedding p text w in (r, p, w1);
  GetDimension := Ollama_GetDimension;
  GetName := Ollama_GetName
}.

#[export] Instance OpenAI_provider : EmbeddingProvider OpenAIProvider := {
  GenerateEmbedding p text w :=
    let '(r, w1) := OpenAI_GenerateEmbedding p text w in (r, p, w1);
  GetDimension := OpenAI_GetDimension;
  GetName := OpenAI_GetName
}.

#[export] Instance Hybrid_provider : EmbeddingProvider HybridProvider := {
  GenerateEmbedding := Hybrid_GenerateEmbedding;
  GetDimension := Hybrid_GetDimension;
  GetName := Hybrid_GetName
}.

(** *** The generator *)

Record Generator (P : Type) : Type := {
  provider : P;
  rootPath : string
}.
Arguments provider {P} g.
Arguments rootPath {P} g.

Definition NewGenerator {P} (p : P) (root : string) : Generator P :=
  {| provider := p; rootPath := root |}.

Definition with_provider {P} (g : Generator P) (p : P) : Generator P :=
  {| provider := p; rootPath := rootPath g |}.

Definition createCodeSnippet (fn : Analysis.FunctionInfo) (language : string) : string :=
  let snippet := "// Language: " +:+ language +:+ String "010" "" in
  let snippet := snippet +:+ "// Function: " +:+ Analysis.Name fn +:+ String "010" "" in
  let snippet :=
    if len (Analysis.Parameters fn) >? 0
    then snippet +:+ "// Parameters: " +:+ fmt_v_strings (Analysis.Parameters fn)
                 +:+ String "010" ""
    else snippet in
  let snippet :=
    if negb (String.eqb (Analysis.ReturnType fn) "")
    then snippet +:+ "// Returns: " +:+ Analysis.ReturnType fn +:+ String "010" ""
    else snippet in
  let snippet :=
    if negb (String.eqb (Analysis.Comments fn) "")
    then snippet +:+ "// Comments: " +:+ Analysis.Comments fn +:+ String "010" ""
    else snippet in
  let snippet := snippet +:+ "// Complexity: " +:+ fmt_d (Analysis.Complexity fn)
                         +:+ String "010" "" in
  snippet +:+ "// Lines: " +:+ fmt_d (Analysis.LOC fn) +:+ String "010" "".

Definition generateID (filePath funcName : string) (startLine : Z) : string :=
  let data := filePath +:+ ":" +:+ funcName +:+ ":" +:+ fmt_d startLine in
  let hash := Sha256.Sum256 (bytes_of_string data) in
  fmt_x (firstn 8 hash).

(** The loops of [GenerateForAnalysis] carry the embeddings appended so
    far, the provider and the world. *)
Definition embed_function {P} `{EmbeddingProvider P}
    (filePath language : string)
    (st : list CodeEmbedding * P * World) (fn : Analysis.FunctionInfo)
  : list CodeEmbedding * P * World :=
  let '(embs, p, w) := st in
  let codeSnippet := createCodeSnippet fn language in
  let '(r, p1, w1) := GenerateEmbedding p codeSnippet w in
  match r with
  | Err _ => (embs, p1, w1)                     (* warning printed; continue *)
  | Ok embedding =>
      let codeEmb :=
        {| ID := generateID filePath (Analysis.Name fn) (Analysis.StartLine fn);
           FilePath := filePath;
           FuncName := Analysis.Name fn;
           StartLine := Analysis.StartLine fn;
           EndLine := Analysis.EndLine fn;
           Code := codeSnippet;
           Embedding := embedding;
           Language := language |} in
      (embs ++ [codeEmb], p1, w1)
  end.

Definition embed_file {P} `{EmbeddingProvider P}
    (st : list CodeEmbedding * P * World) (entry : string * Analysis.FileAnalysis)
  : list CodeEmbedding * P * World :=
  let '(filePath, fileAnalysis) := entry in
  fold_left (embed_function filePath (Analysis.Language fileAnalysis))
            (Analysis.Functions fileAnalysis) st.

Definition GenerateForAnalysis {P} `{EmbeddingProvider P}
    (g : Generator P) (analysisResult : Analysis.AnalysisResult) (w : World)
  : result EmbeddingIndex * Generator P * World :=
  let dimension := GetDimension (provider g) in
  let name := GetName (provider g) in
  let '(embs, p1, w1) :=
    fold_left embed_file (Analysis.Files analysisResult) ([], provider g, w) in
  (Ok {| Embeddings := embs; Dimension := dimension; Provider := name; Version := "1.0" |},
   with_provider g p1, w1).

Definition SaveIndex {P} `{Json} (g : Generator P) (index : EmbeddingIndex)
    (outputPath : string) (w : World) : option error * World :=
  let dir := filepath_Dir outputPath in
  match os_MkdirAll dir w with
  | (Some e, w1) => (Some (Wrap "failed to create directory" e), w1)
  | (None, w1) =>
      match json_MarshalIndent index with
      | Err e => (Some (Wrap "failed to marshal index" e), w1)
      | Ok data =>
          match os_WriteFile outputPath data w1 with
          | (Some e, w2) => (Some (Wrap "failed to write index" e), w2)
          | (None, w2) => (None, w2)
          end
      end
  end.

Definition LoadIndex `{Json} (indexPath : string) (w : World) : result EmbeddingIndex :=
  match os_ReadFile indexPath w with
  | Err e => Err (Wrap "failed to read index" e)
  | Ok data =>
      match json_Unmarshal data with
      | Err e => Err (Wrap "failed to unmarshal index" e)
      | Ok index => Ok index
      end
  end.

(** *** [sort.Slice]

    The standard library's sort is not part of the repository.  Its
    documented contract: the slice is reordered in place (so the result
    is a permutation of the input), it ends sorted when [less] is a
    strict weak ordering of its elements, and the sort is not guaranteed
    to be stable. *)

Definition weak_order_on {A} (less : A -> A -> bool) (l : list A) : Prop :=
  (forall x y, In x l -> In y l -> less x y = true -> less y x = false) /\
  (forall x y z, In x l -> In y l -> In z l ->
     less x z = true -> less x y = true \/ less y z = true).

(** No element is [less] than an earlier one. *)
Definition sorted_by {A} (less : A -> A -> bool) (l : list A) : Prop :=
  StronglySorted (fun a b => less b a = false) l.

Class SliceSorter : Type := {
  sort_Slice : forall {A}, (A -> A -> bool) -> list A -> list A;
  sort_Slice_perm : forall A (less : A -> A -> bool) l,
    Permutation (sort_Slice less l) l;
  sort_Slice_sorted : forall A (less : A -> A -> bool) l,
    weak_order_on less l -> sorted_by less (sort_Slice less l)
}.

(** [insertionSortLessFunc], the algorithm [sort.Slice] runs on a slice
    of at most 12 elements: each element in turn is swapped towards the
    front while it is [less] than its predecessor.  [sink] moves [x] into
    the part already sorted, held in reverse. *)
Fixpoint sink {A} (less : A -> A -> bool) (x : A) (before : list A) : list A :=
  match before with
  | [] => [x]
  | y :: before' => if less x y then y :: sink less x before' else x :: before
  end.

Definition insertionSort {A} (less : A -> A -> bool) (l : list A) : list A :=
  rev (fold_left (fun before x => sink less x before) l []).

(** *** Similarity search *)

(** A [SimilarityResult] embeds the [CodeEmbedding] it scores. *)
Record SimilarityResult : Type := {
  Entry : CodeEmbedding;
  Similarity : float32
}.

Record SimilaritySearch : Type := {
  index : EmbeddingIndex
}.

Definition NewSimilaritySearch (idx : EmbeddingIndex) : SimilaritySearch :=
  {| index := idx |}.

(** One turn of the loop of [cosineSimilarity] on [a[i]] and [b[i]]. *)
Definition cosine_step (acc : float64 * float64 * float64) (ab : float32 * float32)
  : float64 * float64 * float64 :=
  let '(dotProduct, normA, normB) := acc in
  let x := float64_of_float32 (fst ab) in
  let y := float64_of_float32 (snd ab) in
  (f64_add dotProduct (f64_mul x y),
   f64_add normA (f64_mul x x),
   f64_add normB (f64_mul y y)).

Definition cosineSimilarity (a b : list float32) : float32 :=
  if negb (len a =? len b) then fzero
  else
    let '(dotProduct, normA, normB) :=
      fold_left cosine_step (combine a b) (fzero, fzero, fzero) in
    if f_eq normA fzero || f_eq normB fzero then fzero
    else float32_of_float64
           (f64_div dotProduct (f64_mul (math_Sqrt normA) (math_Sqrt normB))).

Definition score (queryEmbedding : list float32) (codeEmb : CodeEmbedding)
  : SimilarityResult :=
  {| Entry := codeEmb;
     Similarity := cosineSimilarity queryEmbedding (Embedding codeEmb) |}.

(** The comparison handed to [sort.Slice]. *)
Definition by_similarity_desc (ri rj : SimilarityResult) : bool :=
  f_gt (Similarity ri) (Similarity rj).

(** [s[:k]] on a slice of length and capacity [len s]; out of range
    panics. *)
Definition slice_to {A} (s : list A) (k : Z) : option (list A) :=
  if (k <? 0) || (k >? len s) then None else Some (firstn (Z.to_nat k) s).

Definition Search `{SliceSorter} (s : SimilaritySearch) (queryEmbedding : list float32)
    (topK : Z) : option (list SimilarityResult) :=
  if len (Embeddings (index s)) =? 0 then Some []
  else
    let results := map (score queryEmbedding) (Embeddings (index s)) in
    let results := sort_Slice by_similarity_desc results in
    let topK := if topK >? len results then len results else topK in
    slice_to results topK.

(** The body of the loop of [FindDuplicates]. *)
Definition keep_duplicate (threshold : float32) (excludeID : string)
    (r : SimilarityResult) : bool :=
  if String.eqb (ID (Entry r)) excludeID then false
  else f_ge (Similarity r) threshold.

Definition FindDuplicates `{SliceSorter} (s : SimilaritySearch)
    (queryEmbedding : list float32) (threshold : float32) (excludeID : string)
  : option (list SimilarityResult) :=
  match Search s queryEmbedding (len (Embeddings (index s))) with
  | None => None
  | Some results => Some (List.filter (keep_duplicate threshold excludeID) results)
  end.

(** *** Duplicate detection *)

Record DuplicateDetector (P : Type) : Type := {
  search : SimilaritySearch;
  dd_provider : P;
  threshold : float32
}.
Arguments search {P} d.
Arguments dd_provider {P} d.
Arguments threshold {P} d.

Definition NewDuplicateDetector {P} (idx : EmbeddingIndex) (p : P) (th : float32)
  : DuplicateDetector P :=
  {| search := NewSimilaritySearch idx;
     dd_provider := p;
     threshold := if f_eq th fzero then f32_0_85 else th |}.

Definition with_dd_provider {P} (d : DuplicateDetector P) (p : P) : DuplicateDetector P :=
  {| search := search d; dd_provider := p; threshold := threshold d |}.

(** The filter of [DetectDuplicates]: drop the same file and function. *)
Definition other_function (filePath funcName : string) (dup : SimilarityResult) : bool :=
  negb (String.eqb (FilePath (Entry dup)) filePath)
  || negb (String.eqb (FuncName (Entry dup)) funcName).

Definition DetectDuplicates {P} `{EmbeddingProvider P} `{SliceSorter}
    (d : DuplicateDetector P) (code filePath funcName : string) (w : World)
  : option (result (list SimilarityResult)) * DuplicateDetector P * World :=
  let '(r, p1, w1) := GenerateEmbedding (dd_provider d) code w in
  let d1 := with_dd_provider d p1 in
  match r with
  | Err e => (Some (Err (Wrap "failed to generate embedding" e)), d1, w1)
  | Ok embedding =>
      match FindDuplicates (search d) embedding (threshold d) "" with
      | None => (None, d1, w1)
      | Some duplicates =>
          (Some (Ok (List.filter (other_function filePath funcName) duplicates)), d1, w1)
      end
  end.

(** *** Searching by code, and naming a score *)

Definition SearchByCode {P} `{EmbeddingProvider P} `{SliceSorter}
    (s : SimilaritySearch) (provider : P) (code : string) (topK : Z) (w : World)
  : option (result (list SimilarityResult)) * P * World :=
  let '(r, p1, w1) := GenerateEmbedding provider code w in
  match r with
  | Err e => (Some (Err (Wrap "failed to generate query embedding" e)), p1, w1)
  | Ok queryEmbedding =>
      match Search s queryEmbedding topK with
      | None => (None, p1, w1)
      | Some results => (Some (Ok results), p1, w1)
      end
  end.

(** The constants [0.95], [0.75] and [0.60] converted to [float32]:
    [0x3f733333], [0x3f400000] and [0x3f19999a]. *)
Definition f32_0_95 : float32 := S754_finite false 15938355 (-24).
Definition f32_0_75 : float32 := S754_finite false 12582912 (-24).
Definition f32_0_60 : float32 := S754_finite false 10066330 (-24).

Definition GetSimilarityLevel (similarity : float32) : string :=
  if f_ge similarity f32_0_95 then "Nearly Identical"
  else if f_ge similarity f32_0_85 then "Very Similar"
  else if f_ge similarity f32_0_75 then "Similar"
  else if f_ge similarity f32_0_60 then "Somewhat Similar"
  else "Different".

End Embeddings.

(** ** [internal/cmd]: the embedding stage of [runContextBuild] *)

Module Cmd.

Import Embeddings.

(** Lines 191 to 228 of [runContextBuild]: create the hybrid provider
    with the configured API key, generate the index for the analysis
    result and save it under the repository root.  [forceRebuild] and
    [incremental] are the package variables set by the [--force] and
    [--incremental] flags.  A failure to save is printed, not returned. *)
Definition runContextBuild_embeddings `{Json}
    (forceRebuild incremental : bool)
    (repoRoot : string) (analysisResult : Analysis.AnalysisResult)
    (cfgAPIKey : string) (w : World) : World :=
  let '(provider, w1) :=
    NewHybridProvider "http://localhost:11434" "nomic-embed-text"
                      cfgAPIKey "text-embedding-3-small" w in
  let generator := NewGenerator provider repoRoot in
  match GenerateForAnalysis generator analysisResult w1 with
  | (Err _, _, w2) => w2
  | (Ok embeddingIndex, generator1, w2) =>
      let embeddingPath := filepath_Join [repoRoot; ".katich"; "embeddings.json"] in
      snd (SaveIndex generator1 embeddingIndex embeddingPath w2)
  end.

End Cmd.

Export Embeddings.

(** ** [strings] and [unicode/utf8] *)

Module Strings.

Definition byte_of (c : ascii) : Z := Z.of_nat (nat_of_ascii c).
Definition ascii_of_byte (b : Z) : ascii := ascii_of_nat (Z.to_nat b).

Definition string_of_bytes (bs : list Z) : string :=
  string_of_list_ascii (map ascii_of_byte bs).

Definition is_upper (c : ascii) : bool := (65 <=? byte_of c) && (byte_of c <=? 90).
Definition is_lower (c : ascii) : bool := (97 <=? byte_of c) && (byte_of c <=? 122).

Definition lower_byte (c : ascii) : ascii :=
  if is_upper c then ascii_of_byte (byte_of c + 32) else c.
Definition upper_byte (c : ascii) : ascii :=
  if is_lower c then ascii_of_byte (byte_of c - 32) else c.

Fixpoint map_bytes (f : ascii -> ascii) (s : string) : string :=
  match s with
  | EmptyString => EmptyString
  | String c s' => String (f c) (map_bytes f s')
  end.

(** No byte of the string is [utf8.RuneSelf] or above. *)
Fixpoint is_ascii (s : string) : bool :=
  match s with
  | EmptyString => true
  | String c s' => (byte_of c <? 128) && is_ascii s'
  end.

(** The case mapping of [unicode] on a string that is not all ASCII:
    [strings.Map(unicode.ToLower, s)] and [strings.Map(unicode.ToUpper,
    s)].  The tables of [unicode] are not part of the repository. *)
Class Unicode : Type := {
  Map_unicode_ToLower : string -> string;
  Map_unicode_ToUpper : string -> string
}.

(** [strings.ToLower] and [strings.ToUpper]: an all-ASCII string is
    mapped byte by byte, any other through [unicode]. *)
Definition ToLower `{Unicode} (s : string) : string :=
  if is_ascii s then map_bytes lower_byte s else Map_unicode_ToLower s.

Definition ToUpper `{Unicode} (s : string) : string :=
  if is_ascii s then map_bytes upper_byte s else Map_unicode_ToUpper s.

(** [strings.Contains]: [substr] occurs in [s], as bytes. *)
Fixpoint Contains (s substr : string) : bool :=
  if String.prefix substr s then true
  else match s with
       | EmptyString => false
       | String _ s' => Contains s' substr
       end.

Definition HasPrefix (s pre : string) : bool := String.prefix pre s.

End Strings.

Module Utf8.

Definition RuneError : Z := 65533.

Definition between (lo hi b : Z) : bool := (lo <=? b) && (b <=? hi).

(** [utf8.DecodeRune]: the first rune of a byte sequence and its width.
    A byte that starts no well-formed encoding decodes as [RuneError]
    with width 1. *)
Definition DecodeRune (bs : list Z) : Z * nat :=
  match bs with
  | [] => (RuneError, 0%nat)
  | b0 :: rest =>
      if b0 <? 128 then (b0, 1%nat)
      else if between 194 223 b0 then
        match rest with
        | b1 :: _ =>
            if between 128 191 b1
            then (Z.land b0 31 * 64 + Z.land b1 63, 2%nat)
            else (RuneError, 1%nat)
        | _ => (RuneError, 1%nat)
        end
      else if between 224 239 b0 then
        let lo := if b0 =? 224 then 160 else 128 in
        let hi := if b0 =? 237 then 159 else 191 in
        match rest with
        | b1 :: b2 :: _ =>
            if between lo hi b1 && between 128 191 b2
            then (Z.land b0 15 * 4096 + Z.land b1 63 * 64 + Z.land b2 63, 3%nat)
            else (RuneError, 1%nat)
        | _ => (RuneError, 1%nat)
        end
      else if between 240 244 b0 then
        let lo := if b0 =? 240 then 144 else 128 in
        let hi := if b0 =? 244 then 143 else 191 in
        match rest with
        | b1 :: b2 :: b3 :: _ =>
            if between lo hi b1 && between 128 191 b2 && between 128 191 b3
            then (Z.land b0 7 * 262144 + Z.land b1 63 * 4096
                  + Z.land b2 63 * 64 + Z.land b3 63, 4%nat)
            else (RuneError, 1%nat)
        | _ => (RuneError, 1%nat)
        end
      else (RuneError, 1%nat)
  end.

(** [utf8.AppendRune] on an empty buffer: the encoding of a rune; a
    surrogate or a value out of range is encoded as [RuneError]. *)
Definition EncodeRune (r : Z) : list Z :=
  if between 0 127 r then [r]
  else if between 128 2047 r then [192 + r / 64; 128 + r mod 64]
  else if between 2048 55295 r || between 57344 65535 r
  then [224 + r / 4096; 128 + (r / 64) mod 64; 128 + r mod 64]
  else if between 65536 1114111 r
  then [240 + r / 262144; 128 + (r / 4096) mod 64; 128 + (r / 64) mod 64; 128 + r mod 64]
  else [239; 191; 189].

(** The runes a [for range] over a string yields: decoding restarts one
    byte further after an ill-formed byte.  [fuel] bounds the number of
    runes by the number of bytes. *)
Fixpoint runes (fuel : nat) (bs : list Z) : list Z :=
  match fuel with
  | O => []
  | S fuel' =>
      match bs with
      | [] => []
      | _ => let '(r, width) := DecodeRune bs in r :: runes fuel' (skipn width bs)
      end
  end.

Definition range_string (s : string) : list Z :=
  runes (String.length s) (bytes_of_string s).

(** [string(r)] of a rune. *)
Definition string_of_rune (r : Z) : string := Strings.string_of_bytes (EncodeRune r).

End Utf8.

(** ** [internal/analysis]: metrics of a source text *)

Module Metrics.

Record CodeMetrics : Type := {
  LinesOfCode : Z;
  LinesOfComments : Z;
  BlankLines : Z;
  CyclomaticComplexity : Z;
  FunctionCount : Z;
  ClassCount : Z;
  ImportCount : Z;
  MaxFunctionLength : Z;
  AvgFunctionLength : float64
}.

(** [CodeMetrics{}]. *)
Definition zero_metrics : CodeMetrics :=
  {| LinesOfCode := 0; LinesOfComments := 0; BlankLines := 0;
     CyclomaticComplexity := 0; FunctionCount := 0; ClassCount := 0;
     ImportCount := 0; MaxFunctionLength := 0; AvgFunctionLength := fzero |}.

Definition isWhitespace (r : Z) : bool :=
  (r =? 32) || (r =? 9) || (r =? 13) || (r =? 10).

(** [rune(s[i])] when [i < len(s)]. *)
Definition rune_at (s : string) (i : nat) : option Z :=
  option_map Strings.byte_of (String.get i s).

(** The first loop of [trimWhitespace]: [start] moves right over
    white space. *)
Fixpoint trim_leading (fuel : nat) (s : string) (start : nat) : nat :=
  match fuel with
  | O => start
  | S fuel' =>
      match rune_at s start with
      | Some r => if isWhitespace r then trim_leading fuel' s (S start) else start
      | None => start
      end
  end.

(** The second loop: [end] moves left over white space, down to
    [start]. *)
Fixpoint trim_trailing (fuel : nat) (s : string) (start end_ : nat) : nat :=
  match fuel with
  | O => end_
  | S fuel' =>
      if (start <? end_)%nat
      then match rune_at s (end_ - 1) with
           | Some r => if isWhitespace r then trim_trailing fuel' s start (end_ - 1) else end_
           | None => end_
           end
      else end_
  end.

Definition trimWhitespace (s : string) : string :=
  let start := trim_leading (String.length s) s 0 in
  let end_ := trim_trailing (String.length s) s start (String.length s) in
  String.substring start (end_ - start) s.

Definition isComment (line : string) : bool :=
  match line with
  | String c0 (String c1 _) =>
      (Ascii.eqb c0 "/" && Ascii.eqb c1 "/")
      || Ascii.eqb c0 "#"
      || (Ascii.eqb c0 "/" && Ascii.eqb c1 "*")
  | _ => false
  end.

(** The body of the loop of [splitLines]: the lines so far and the
    current line. *)
Definition splitLines_step (st : list string * string) (ch : Z) : list string * string :=
  let '(lines, current) := st in
  if ch =? 10 then (lines ++ [current], EmptyString)
  else (lines, current +:+ Utf8.string_of_rune ch).

Definition splitLines (content : string) : list string :=
  let '(lines, current) :=
    fold_left splitLines_step (Utf8.range_string content) ([], EmptyString) in
  if negb (String.eqb current "") then lines ++ [current] else lines.

(** The body of the loop of [CalculateBasicMetrics]. *)
Definition count_line (metrics : CodeMetrics) (line : string) : CodeMetrics :=
  let trimmed := trimWhitespace line in
  if String.eqb trimmed ""
  then {| LinesOfCode := LinesOfCode metrics;
          LinesOfComments := LinesOfComments metrics;
          BlankLines := int_add (BlankLines metrics) 1;
          CyclomaticComplexity := CyclomaticComplexity metrics;
          FunctionCount := FunctionCount metrics;
          ClassCount := ClassCount metrics;
          ImportCount := ImportCount metrics;
          MaxFunctionLength := MaxFunctionLength metrics;
          AvgFunctionLength := AvgFunctionLength metrics |}
  else if isComment trimmed
  then {| LinesOfCode := LinesOfCode metrics;
          LinesOfComments := int_add (LinesOfComments metrics) 1;
          BlankLines := BlankLines metrics;
          CyclomaticComplexity := CyclomaticComplexity metrics;
          FunctionCount := FunctionCount metrics;
          ClassCount := ClassCount metrics;
          ImportCount := ImportCount metrics;
          MaxFunctionLength := MaxFunctionLength metrics;
          AvgFunctionLength := AvgFunctionLength metrics |}
  else {| LinesOfCode := int_add (LinesOfCode metrics) 1;
          LinesOfComments := LinesOfComments metrics;
          BlankLines := BlankLines metrics;
          CyclomaticComplexity := CyclomaticComplexity metrics;
          FunctionCount := FunctionCount metrics;
          ClassCount := ClassCount metrics;
          ImportCount := ImportCount metrics;
          MaxFunctionLength := MaxFunctionLength metrics;
          AvgFunctionLength := AvgFunctionLength metrics |}.

Definition CalculateBasicMetrics (content : string) : CodeMetrics :=
  fold_left count_line (splitLines content) zero_metrics.

End Metrics.

Module Sorting.

(** The body of the inner loop of [getTopByComplexity] and
    [getTopByLength]: [functions[j]] and [functions[j+1]] are exchanged
    when the first is [less] than the second. *)
Definition swap_adjacent_if {A} (less : A -> A -> bool) (functions : list A) (j : nat)
  : list A :=
  match functions !! j, functions !! S j with
  | Some a, Some b =>
      if less a b then <[j := b]> (<[S j := a]> functions) else functions
  | _, _ => functions
  end.

(** [for j := 0; j < len(functions)-i-1; j++]. *)
Definition bubble_pass {A} (less : A -> A -> bool) (functions : list A) (i : nat) : list A :=
  fold_left (swap_adjacent_if less) (seq 0 (length functions - i - 1)) functions.

(** [for i := 0; i < len(functions)-1; i++]. *)
Definition bubble_sort {A} (less : A -> A -> bool) (functions : list A) : list A :=
  fold_left (bubble_pass less) (seq 0 (length functions - 1)) functions.

End Sorting.


(** ** [internal/analysis]: the report of a file *)

Module Report.

Record FieldInfo : Type := {
  FieldName : string;
  FieldType : string
}.

Record ClassInfo : Type := {
  ClassName : string;
  ClassStartLine : Z;
  ClassEndLine : Z;
  Methods : list Analysis.FunctionInfo;
  Fields : list FieldInfo;
  ClassIsExported : bool;
  ClassComments : string
}.

Record ImportInfo : Type := {
  Path : string;
  Alias : string
}.

(** [IssueType] and [Severity] are string types. *)
Definition IssueTypeComplexity : string := "complexity".
Definition IssueTypeFunctionLength : string := "function_length".
Definition IssueTypeNaming : string := "naming".
Definition SeverityInfo : string := "info".
Definition SeverityWarning : string := "warning".

Record Issue : Type := {
  Type_ : string;
  Severity : string;
  Line : Z;
  Column : Z;
  Message : string;
  Suggestion : string
}.

(** [FileAnalysis] with all its fields. *)
Record FileAnalysis : Type := {
  FilePath : string;
  Language : string;
  Metrics : Metrics.CodeMetrics;
  Functions : list Analysis.FunctionInfo;
  Classes : list ClassInfo;
  Imports : list ImportInfo;
  Issues : list Issue
}.

Definition with_Metrics (a : FileAnalysis) (m : Metrics.CodeMetrics) : FileAnalysis :=
  {| FilePath := FilePath a; Language := Language a; Metrics := m;
     Functions := Functions a; Classes := Classes a; Imports := Imports a;
     Issues := Issues a |}.

Definition with_Functions (a : FileAnalysis) (fs : list Analysis.FunctionInfo)
  : FileAnalysis :=
  {| FilePath := FilePath a; Language := Language a; Metrics := Metrics a;
     Functions := fs; Classes := Classes a; Imports := Imports a;
     Issues := Issues a |}.

Definition with_Classes (a : FileAnalysis) (cs : list ClassInfo) : FileAnalysis :=
  {| FilePath := FilePath a; Language := Language a; Metrics := Metrics a;
     Functions := Functions a; Classes := cs; Imports := Imports a;
     Issues := Issues a |}.

Definition with_Imports (a : FileAnalysis) (imps : list ImportInfo) : FileAnalysis :=
  {| FilePath := FilePath a; Language := Language a; Metrics := Metrics a;
     Functions := Functions a; Classes := Classes a; Imports := imps;
     Issues := Issues a |}.

Definition with_Issues (a : FileAnalysis) (issues : list Issue) : FileAnalysis :=
  {| FilePath := FilePath a; Language := Language a; Metrics := Metrics a;
     Functions := Functions a; Classes := Classes a; Imports := Imports a;
     Issues := issues |}.

(** The part of a report that the embedding generator reads. *)
Definition generator_view (a : FileAnalysis) : Analysis.FileAnalysis :=
  {| Analysis.FilePath := FilePath a; Analysis.Language := Language a;
     Analysis.Functions := Functions a |}.

End Report.

(** ** [internal/analysis/parser_go.go]: [ParseFile] *)

Module GoParser.

Import Report.

(** [*ast.ImportSpec]: [Path.Value], and [Name.Name] when [Name] is not
    nil. *)
Record ImportSpec : Type := {
  ImportPathValue : string;
  ImportName : option string
}.

(** A field of a struct type: its names, and what
    [fmt.Sprintf("%v", field.Type)] prints for its type. *)
Record StructField : Type := {
  FieldNames : list string;
  FieldTypeText : string
}.

(** A [*ast.TypeSpec] whose [Type] is a [*ast.StructType], with the
    positions [fset.Position] resolves for the struct type. *)
Record StructSpec : Type := {
  SpecName : string;
  SpecIsExported : bool;
  StructPosLine : Z;
  StructEndLine : Z;
  StructFields : option (list StructField)
}.

(** A node of the file as the closure handed to [ast.Inspect] tells
    nodes apart. *)
Inductive FileNode : Type :=
| FuncDeclNode (funcDecl : Analysis.FuncDecl)
| StructTypeSpec (spec : StructSpec)
| OtherFileNode.

(** [*ast.File]: its imports, and its nodes in the order [ast.Inspect]
    visits them (the closure always returns true, so every node is
    visited). *)
Record File : Type := {
  FileImports : list ImportSpec;
  FileNodes : list FileNode
}.

(** [parser.ParseFile] of [go/parser], which is not part of the
    repository: from the path and the content to the syntax tree. *)
Class GoSyntax : Type := {
  parser_ParseFile : string -> string -> result File
}.

Definition extractStruct (spec : StructSpec) : ClassInfo :=
  {| ClassName := SpecName spec;
     ClassStartLine := StructPosLine spec;
     ClassEndLine := StructEndLine spec;
     Methods := [];
     Fields :=
       match StructFields spec with
       | Some fields =>
           flat_map (fun field =>
                       map (fun name => {| FieldName := name;
                                           FieldType := FieldTypeText field |})
                           (FieldNames field))
                    fields
       | None => []
       end;
     ClassIsExported := SpecIsExported spec;
     ClassComments := EmptyString |}.

(** [float64(n)] of an [int]: the nearest [float64]. *)
Definition float64_of_int (n : Z) : float64 := binary_normalize prec64 emax64 n 0 false.

(** The first loop of [calculateMetrics]: the longest function so far
    and the sum of the lengths. *)
Definition longest_and_total (st : Z * Z) (fn : Analysis.FunctionInfo) : Z * Z :=
  let '(maxLength, totalLOC) := st in
  ((if Analysis.LOC fn >? maxLength then Analysis.LOC fn else maxLength),
   int_add totalLOC (Analysis.LOC fn)).

Definition calculateMetrics (content : string) (analysis : FileAnalysis)
  : Metrics.CodeMetrics :=
  let metrics := Metrics.CalculateBasicMetrics content in
  let functionCount := len (Functions analysis) in
  let '(maxLength, avgLength) :=
    if len (Functions analysis) >? 0
    then
      let '(maxLength, totalLOC) :=
        fold_left longest_and_total (Functions analysis)
                  (Metrics.MaxFunctionLength metrics, 0) in
      (maxLength,
       f64_div (float64_of_int totalLOC) (float64_of_int (len (Functions analysis))))
    else (Metrics.MaxFunctionLength metrics, Metrics.AvgFunctionLength metrics) in
  let totalComplexity :=
    fold_left (fun total fn => int_add total (Analysis.Complexity fn))
              (Functions analysis) 0 in
  {| Metrics.LinesOfCode := Metrics.LinesOfCode metrics;
     Metrics.LinesOfComments := Metrics.LinesOfComments metrics;
     Metrics.BlankLines := Metrics.BlankLines metrics;
     Metrics.CyclomaticComplexity := totalComplexity;
     Metrics.FunctionCount := functionCount;
     Metrics.ClassCount := len (Classes analysis);
     Metrics.ImportCount := len (Imports analysis);
     Metrics.MaxFunctionLength := maxLength;
     Metrics.AvgFunctionLength := avgLength |}.

Definition complexity_issue (funcInfo : Analysis.FunctionInfo) : Issue :=
  {| Type_ := IssueTypeComplexity;
     Severity := SeverityWarning;
     Line := Analysis.StartLine funcInfo;
     Column := 0;
     Message := "Function '" +:+ Analysis.Name funcInfo +:+ "' has high complexity: "
                +:+ fmt_d (Analysis.Complexity funcInfo);
     Suggestion := "Consider breaking down this function into smaller functions" |}.

Definition length_issue (funcInfo : Analysis.FunctionInfo) : Issue :=
  {| Type_ := IssueTypeFunctionLength;
     Severity := SeverityWarning;
     Line := Analysis.StartLine funcInfo;
     Column := 0;
     Message := "Function '" +:+ Analysis.Name funcInfo +:+ "' is too long: "
                +:+ fmt_d (Analysis.LOC funcInfo) +:+ " lines";
     Suggestion := "Consider refactoring into smaller functions" |}.

(** The closure handed to [ast.Inspect], on one node. *)
Definition visit (analysis : FileAnalysis) (n : FileNode) : FileAnalysis :=
  match n with
  | FuncDeclNode node =>
      let funcInfo := Analysis.extractFunction node in
      let analysis := with_Functions analysis (Functions analysis ++ [funcInfo]) in
      let analysis :=
        if Analysis.Complexity funcInfo >? 10
        then with_Issues analysis (Issues analysis ++ [complexity_issue funcInfo])
        else analysis in
      if Analysis.LOC funcInfo >? 50
      then with_Issues analysis (Issues analysis ++ [length_issue funcInfo])
      else analysis
  | StructTypeSpec spec =>
      with_Classes analysis (Classes analysis ++ [extractStruct spec])
  | OtherFileNode => analysis
  end.

Definition add_import (analysis : FileAnalysis) (imp : ImportSpec) : FileAnalysis :=
  let importInfo :=
    {| Path := ImportPathValue imp;
       Alias := match ImportName imp with Some name => name | None => EmptyString end |} in
  with_Imports analysis (Imports analysis ++ [importInfo]).

(** [ParseFile] once the file is read and parsed. *)
Definition analyse (filePath content : string) (file : File) : FileAnalysis :=
  let analysis :=
    {| FilePath := filePath; Language := "Go"; Metrics := Metrics.zero_metrics;
       Functions := []; Classes := []; Imports := []; Issues := [] |} in
  let analysis := fold_left add_import (FileImports file) analysis in
  let analysis := fold_left visit (FileNodes file) analysis in
  with_Metrics analysis (calculateMetrics content analysis).

Definition ParseFile `{GoSyntax} (filePath : string) (w : World) : result FileAnalysis :=
  match os_ReadFile filePath w with
  | Err e => Err (Wrap "failed to read file" e)
  | Ok content =>
      match parser_ParseFile filePath content with
      | Err e => Err (Wrap "failed to parse Go file" e)
      | Ok file => Ok (analyse filePath content file)
      end
  end.

End GoParser.

(** ** [internal/analysis]: the detectors *)

Module Detectors.

Import Report.

Record AICodePattern : Type := {
  File : string;
  StartLine : Z;
  EndLine : Z;
  Pattern : string;
  Confidence : float64;
  Indicators : list string
}.

Definition genericNames : list string :=
  [ "Manager"; "Helper"; "Util"; "Processor";
    "Handler"; "Service"; "Controller"; "Provider";
    "Factory"; "Builder"; "Wrapper"; "Adapter" ]%string.

Definition isGenericName `{Strings.Unicode} (name : string) : bool :=
  let nameLower := Strings.ToLower name in
  existsb (fun generic => Strings.Contains nameLower (Strings.ToLower generic))
          genericNames.

(** The constants [0.2], [0.3] and [0.5] as [float64]:
    [0x3FC999999999999A], [0x3FD3333333333333] and [0x3FE0000000000000]. *)
Definition f64_0_2 : float64 := S754_finite false 0x1999999999999A (-55).
Definition f64_0_3 : float64 := S754_finite false 0x13333333333333 (-54).
Definition f64_0_5 : float64 := S754_finite false 0x10000000000000 (-53).

(** One of the four checks: the indicator is appended and the
    confidence raised when the check holds. *)
Definition indicate (check : bool) (indicator : string) (weight : float64)
    (st : list string * float64) : list string * float64 :=
  if check then (st.1 ++ [indicator], f64_add st.2 weight) else st.

(** The body of the loop of [DetectAIPatterns]. *)
Definition detect_in_function `{Strings.Unicode} (analysis : FileAnalysis)
    (patterns : list AICodePattern) (fn : Analysis.FunctionInfo) : list AICodePattern :=
  let st := ([], fzero) in
  let st := indicate (isGenericName (Analysis.Name fn)) "Generic function name" f64_0_2 st in
  let st := indicate (Analysis.LOC fn >? 100) "Excessively long function" f64_0_3 st in
  let st := indicate (Analysis.Complexity fn >? 20) "Very high complexity" f64_0_3 st in
  let st := indicate (len (Analysis.Parameters fn) >? 5) "Too many parameters" f64_0_2 st in
  if f_gt st.2 f64_0_5
  then patterns ++ [ {| File := FilePath analysis;
                        StartLine := Analysis.StartLine fn;
                        EndLine := Analysis.EndLine fn;
                        Pattern := "Potentially AI-generated boilerplate";
                        Confidence := st.2;
                        Indicators := st.1 |} ]
  else patterns.

Definition DetectAIPatterns `{Strings.Unicode} (analysis : FileAnalysis)
  : list AICodePattern :=
  fold_left (detect_in_function analysis) (Functions analysis) [].

Definition hasInvalidNaming `{Strings.Unicode} (name : string) : bool :=
  if Z.of_nat (String.length name) <? 2 then true
  else if (Z.of_nat (String.length name) >? 1) && String.eqb (Strings.ToUpper name) name
       then true
       else false.

Definition naming_issue (fn : Analysis.FunctionInfo) : Issue :=
  {| Type_ := IssueTypeNaming;
     Severity := SeverityInfo;
     Line := Analysis.StartLine fn;
     Column := 0;
     Message := "Function '" +:+ Analysis.Name fn +:+ "' may not follow naming conventions";
     Suggestion := EmptyString |}.

Definition CheckStyle `{Strings.Unicode} (analysis : FileAnalysis) : list Issue :=
  fold_left (fun issues fn =>
               if hasInvalidNaming (Analysis.Name fn)
               then issues ++ [naming_issue fn]
               else issues)
            (Functions analysis) [].

End Detectors.

(** ** [internal/analysis/analyzer.go]: the repository analyzer *)

Module Analyzer.

Import Report.

Record IssuesSummary : Type := {
  TotalIssues : Z;
  ByType : gmap string Z;
  BySeverity : gmap string Z
}.

Record AnalysisResult : Type := {
  Files : gmap string FileAnalysis;
  TotalMetrics : Metrics.CodeMetrics;
  Summary : IssuesSummary;
  TopComplexity : list Analysis.FunctionInfo;
  LongestFuncs : list Analysis.FunctionInfo
}.

Definition aggregateMetrics (total file : Metrics.CodeMetrics) : Metrics.CodeMetrics :=
  {| Metrics.LinesOfCode := int_add (Metrics.LinesOfCode total) (Metrics.LinesOfCode file);
     Metrics.LinesOfComments :=
       int_add (Metrics.LinesOfComments total) (Metrics.LinesOfComments file);
     Metrics.BlankLines := int_add (Metrics.BlankLines total) (Metrics.BlankLines file);
     Metrics.CyclomaticComplexity :=
       int_add (Metrics.CyclomaticComplexity total) (Metrics.CyclomaticComplexity file);
     Metrics.FunctionCount :=
       int_add (Metrics.FunctionCount total) (Metrics.FunctionCount file);
     Metrics.ClassCount := int_add (Metrics.ClassCount total) (Metrics.ClassCount file);
     Metrics.ImportCount := int_add (Metrics.ImportCount total) (Metrics.ImportCount file);
     Metrics.MaxFunctionLength :=
       if Metrics.MaxFunctionLength file >? Metrics.MaxFunctionLength total
       then Metrics.MaxFunctionLength file
       else Metrics.MaxFunctionLength total;
     Metrics.AvgFunctionLength := Metrics.AvgFunctionLength total |}.

(** [m[k]++] on a map of counters. *)
Definition increment (m : gmap string Z) (k : string) : gmap string Z :=
  <[k := int_add (default 0 (m !! k)) 1]> m.

Definition collect_issue (summary : IssuesSummary) (issue : Issue) : IssuesSummary :=
  {| TotalIssues := int_add (TotalIssues summary) 1;
     ByType := increment (ByType summary) (Type_ issue);
     BySeverity := increment (BySeverity summary) (Severity issue) |}.

(** The callback of [filepath.Walk] from the point where a source file
    has been analysed without error: [relPath] is the path relative to
    the root. *)
Definition collect_file (result : AnalysisResult) (entry : string * FileAnalysis)
  : AnalysisResult :=
  let '(relPath, analysis) := entry in
  {| Files := <[relPath := analysis]> (Files result);
     TotalMetrics := aggregateMetrics (TotalMetrics result) (Metrics analysis);
     Summary := fold_left collect_issue (Issues analysis) (Summary result);
     TopComplexity := TopComplexity result ++ Functions analysis;
     LongestFuncs := LongestFuncs result ++ Functions analysis |}.

Definition getTopByComplexity (functions : list Analysis.FunctionInfo) (n : Z)
  : option (list Analysis.FunctionInfo) :=
  let functions :=
    Sorting.bubble_sort (fun a b => Analysis.Complexity a <? Analysis.Complexity b)
                        functions in
  if len functions >? n then slice_to functions n else Some functions.

Definition getTopByLength (functions : list Analysis.FunctionInfo) (n : Z)
  : option (list Analysis.FunctionInfo) :=
  let functions :=
    Sorting.bubble_sort (fun a b => Analysis.LOC a <? Analysis.LOC b) functions in
  if len functions >? n then slice_to functions n else Some functions.

Definition empty_result : AnalysisResult :=
  {| Files := ∅;
     TotalMetrics := Metrics.zero_metrics;
     Summary := {| TotalIssues := 0; ByType := ∅; BySeverity := ∅ |};
     TopComplexity := [];
     LongestFuncs := [] |}.

(** [AnalyzeRepository] when the walk ends without error: [analysed]
    holds the source files that were analysed without error, in the
    order of the walk, each with its path relative to the root.  A
    panic is [None]. *)
Definition AnalyzeRepository_of (analysed : list (string * FileAnalysis))
  : option AnalysisResult :=
  let result := fold_left collect_file analysed empty_result in
  match getTopByComplexity (TopComplexity result) 10,
        getTopByLength (LongestFuncs result) 10 with
  | Some top, Some longest =>
      Some {| Files := Files result;
              TotalMetrics := TotalMetrics result;
              Summary := Summary result;
              TopComplexity := top;
              LongestFuncs := longest |}
  | _, _ => None
  end.

End Analyzer.

(** * Definitions for the statements *)

(** Apart from NaN, [<] on floats is the lexicographic order of a class,
    an exponent and a mantissa. *)
Definition float_rank (x : spec_float) : Z * Z * Z :=
  match x with
  | S754_nan => (0, 0, 0)
  | S754_zero _ => (0, 0, 0)
  | S754_infinity true => (-2, 0, 0)
  | S754_infinity false => (2, 0, 0)
  | S754_finite true m e => (-1, - e, - Z.pos m)
  | S754_finite false m e => (1, e, Z.pos m)
  end.

Definition rank_lt (a b : Z * Z * Z) : Prop :=
  a.1.1 < b.1.1
  \/ (a.1.1 = b.1.1 /\ (a.1.2 < b.1.2 \/ (a.1.2 = b.1.2 /\ a.2 < b.2))).

(** The children loop of [Inspect] and the sum of [decision_points],
    named. *)
Definition walk_children (cs : list Analysis.Node) (c : Z) : Z :=
  fold_left (fun s n => Analysis.Inspect Analysis.complexity_visit n s) cs c.

Definition children_points (cs : list Analysis.Node) : Z :=
  fold_right (fun n acc => Analysis.decision_points n + acc) 0 cs.

(** The part already sorted, read backwards: nothing is [less] than an
    element that follows it there. *)
Definition sorted_backwards {A} (less : A -> A -> bool) (before : list A) : Prop :=
  StronglySorted (fun a b => less a b = false) before.

(** The slice [Search] cuts its answer from. *)
Definition ranking `{SliceSorter} (s : SimilaritySearch) (q : list float32) : list SimilarityResult :=
  sort_Slice by_similarity_desc (map (score q) (Embeddings (index s))).

Definition no_nan_score (q : list float32) (e : CodeEmbedding) : Prop :=
  is_nan (cosineSimilarity q (Embedding e)) = false.

(** The world after one more request. *)
Definition after (req : Request) (w : World) : World :=
  with_sent w (sent w ++ [req]).

Definition ollama_request (p : OllamaProvider) (text : string) : Request :=
  PostOllamaEmbeddings (baseURL p +:+ "/api/embeddings") (ollama_model p) text.

Definition openai_request (p : OpenAIProvider) (text : string) : Request :=
  PostOpenAIEmbeddings (apiKey p) (openai_model p) text.

Definition request_backend (req : Request) : string :=
  match req with
  | PostOllamaEmbeddings _ _ _ | GetOllamaTags _ => "Ollama"
  | PostOpenAIEmbeddings _ _ _ => "OpenAI"
  end.

(** What the specification asks of a Hybrid provider once Local is
    marked unusable: use Remote when it is configured, and fail with the
    provider-unavailable error when it is not; Local is not tried. *)
Definition remote_only_call (remote : option OpenAIProvider) (text : string) (w : World)
  : result (list float32) * World :=
  match remote with
  | Some oa => OpenAI_GenerateEmbedding oa text w
  | None => (Err err_no_provider, w)
  end.

Fixpoint remote_only_calls (remote : option OpenAIProvider) (texts : list string)
    (w : World) : list (result (list float32)) * World :=
  match texts with
  | [] => ([], w)
  | text :: texts' =>
      let '(r, w1) := remote_only_call remote text w in
      let '(rs, w2) := remote_only_calls remote texts' w1 in
      (r :: rs, w2)
  end.

(** A session: [GenerateEmbedding] called on one provider for each text
    in turn. *)
Fixpoint Hybrid_calls (p : HybridProvider) (texts : list string) (w : World)
  : list (result (list float32)) * HybridProvider * World :=
  match texts with
  | [] => ([], p, w)
  | text :: texts' =>
      let '(r, p1, w1) := Hybrid_GenerateEmbedding p text w in
      let '(rs, p2, w2) := Hybrid_calls p1 texts' w1 in
      (r :: rs, p2, w2)
  end.

Definition is_openai_request (req : Request) : Prop :=
  request_backend req = "OpenAI"%string.

(** Every vector a backend answers with (status 200, non-empty) has the
    dimension its provider declares: 768 for Ollama, 1536 for OpenAI. *)
Definition declared_dimensions (serve : list Request -> Request -> Reply) : Prop :=
  forall hist req body, serve hist req = Response 200 body ->
    match req with
    | PostOllamaEmbeddings _ _ _ =>
        forall v, decode_ollama body = Ok v -> v <> [] -> len v = 768
    | PostOpenAIEmbeddings _ _ _ =>
        forall v rest, decode_openai body = Ok (v :: rest) -> v <> [] -> len v = 1536
    | GetOllamaTags _ => True
    end.

(** What holds of the embeddings appended, the provider and the world at
    every point of a build started with [p0] in [w0]. *)
Definition build_invariant (p0 : HybridProvider) (w0 : World)
    (st : list CodeEmbedding * HybridProvider * World) : Prop :=
  let '(embs, p, w) := st in
  ollama p = ollama p0 /\ openai p = openai p0 /\ http w = http w0
  /\ (useOllama p0 = false -> useOllama p = false)
  /\ (useOllama p = useOllama p0 ->
      (exists new, sent w = sent w0 ++ new
                   /\ Forall (fun req => request_backend req = Hybrid_GetName p0) new)
      /\ (declared_dimensions (http w0) ->
          Forall (fun e => len (Embedding e) = Hybrid_GetDimension p0) embs)).

(** ** Cosine similarity by the formula *)

(** Neither infinite nor NaN. *)
Definition is_finite (x : spec_float) : bool :=
  match x with
  | S754_zero _ | S754_finite _ _ _ => true
  | S754_infinity _ | S754_nan => false
  end.

(** The dot product of two vectors, accumulated in [float64] from the
    first pair on, and the squared norm and the norm it gives. *)
Definition dot_step (acc : float64) (xy : float32 * float32) : float64 :=
  f64_add acc (f64_mul (float64_of_float32 (fst xy)) (float64_of_float32 (snd xy))).

Definition dot (a b : list float32) : float64 :=
  fold_left dot_step (combine a b) fzero.

Definition squared_norm (a : list float32) : float64 := dot a a.

Definition norm (a : list float32) : float64 := math_Sqrt (squared_norm a).

(** The [float32] values next to [1.0]: [1 - 2^-24] and [1 + 2^-23]. *)
Definition f32_below_one : float32 := S754_finite false (2 ^ 24 - 1) (-24).
Definition f32_above_one : float32 := S754_finite false (2 ^ 23 + 1) (-23).

(** Within one unit in the last place of [1.0]. *)
Definition within_epsilon_of_one (x : float32) : bool :=
  f_ge x f32_below_one && f_ge f32_above_one x.

(** A positive normal [float64] whose exponent lies between [lo] and
    [hi]. *)
Definition normal64 (lo hi : Z) (x : float64) : Prop :=
  exists (m : positive) (e : Z),
    x = S754_finite false m e /\ 2 ^ 52 <= Zpos m < 2 ^ 53 /\ lo <= e <= hi.

(** ** Concrete inputs *)

Module Runs.

Import Embeddings.

(** A world with an empty disk in which every file operation succeeds
    and the servers answer by [serve]. *)
Definition world_of (serve : list Request -> Request -> Reply) : World :=
  {| http := serve; sent := []; disk := ∅;
     mkdir_error := fun _ => None;
     write_outcome := fun _ _ => WriteCompletes |}.

(** The body [{"embedding": v}] of an Ollama answer, and the body
    [{"data": [{"embedding": v}]}] of an OpenAI answer. *)
Definition ollama_body (v : list float32) : Body :=
  {| body_text := "{embedding}"; decode_ollama := Ok v; decode_openai := Ok [] |}.
Definition openai_body (v : list float32) : Body :=
  {| body_text := "{data}"; decode_ollama := Ok []; decode_openai := Ok [v] |}.

Definition v10 : list float32 := [f32_one; fzero].
Definition v01 : list float32 := [fzero; f32_one].

(** An Ollama server that is up and embeds every prompt as [1, 0]. *)
Definition ollama_up (hist : list Request) (req : Request) : Reply :=
  match req with
  | PostOllamaEmbeddings _ _ _ => Response 200 (ollama_body v10)
  | GetOllamaTags _ => Response 200 (ollama_body [])
  | PostOpenAIEmbeddings _ _ _ => TransportError (NewError "no route to host")
  end.

Definition unit_at (name : string) (first last : Z) : Analysis.FunctionInfo :=
  {| Analysis.Name := name; Analysis.StartLine := first; Analysis.EndLine := last;
     Analysis.LOC := last - first + 1; Analysis.Complexity := 1;
     Analysis.Parameters := []; Analysis.ReturnType := "";
     Analysis.IsExported := false; Analysis.Comments := "" |}.

(** A Go file with two [init] functions, at lines 3 and 10. *)
Definition two_inits : Analysis.AnalysisResult :=
  {| Analysis.Files :=
       [("a.go"%string,
         {| Analysis.FilePath := "a.go"; Analysis.Language := "Go";
            Analysis.Functions := [unit_at "init" 3 5; unit_at "init" 10 12] |})] |}.

Definition local_provider : OllamaProvider := NewOllamaProvider "" "".

Definition two_inits_index : EmbeddingIndex :=
  match GenerateForAnalysis (NewGenerator local_provider "/repo") two_inits
                            (world_of ollama_up) with
  | (Ok idx, _, _) => idx
  | (Err _, _, _) => {| Embeddings := []; Dimension := 0; Provider := ""; Version := "" |}
  end.

Definition two_inits_detector : DuplicateDetector OllamaProvider :=
  NewDuplicateDetector two_inits_index local_provider fzero.

Definition entry (id : string) (v : list float32) : CodeEmbedding :=
  {| ID := id; FilePath := id +:+ ".go"; FuncName := id; StartLine := 1; EndLine := 2;
     Code := ""; Embedding := v; Language := "Go" |}.

Definition index_of (es : list CodeEmbedding) : SimilaritySearch :=
  NewSimilaritySearch
    {| Embeddings := es; Dimension := 2; Provider := "Ollama"; Version := "1.0" |}.

Definition ids (rs : option (list SimilarityResult)) : option (list string) :=
  option_map (map (fun r => ID (Entry r))) rs.

Definition scores (rs : option (list SimilarityResult)) : option (list float32) :=
  option_map (map Similarity) rs.

(** [func f(a, b bool) { if a && b { } ; for { } }] on lines 10 to 20. *)
Definition sample_decl : Analysis.FuncDecl :=
  let leaf name := Analysis.MkNode (Analysis.OtherNode name) [] in
  {| Analysis.DeclName := "f";
     Analysis.DeclIsExported := false;
     Analysis.DeclDoc := None;
     Analysis.DeclParams := Some [ {| Analysis.Names := ["a"; "b"]%string |} ];
     Analysis.PosLine := 10;
     Analysis.EndPosLine := 20;
     Analysis.DeclChildren :=
       [ leaf "Ident"; leaf "FuncType";
         Analysis.MkNode (Analysis.OtherNode "BlockStmt")
           [ Analysis.MkNode Analysis.IfStmt
               [ Analysis.MkNode (Analysis.BinaryExpr Analysis.LAND)
                   [leaf "Ident"; leaf "Ident"];
                 leaf "BlockStmt" ];
             Analysis.MkNode Analysis.ForStmt [ leaf "BlockStmt" ] ] ] |}.

(** A file with two functions, [f] and [g]. *)
Definition two_units : Analysis.AnalysisResult :=
  {| Analysis.Files :=
       [("a.go"%string,
         {| Analysis.FilePath := "a.go"; Analysis.Language := "Go";
            Analysis.Functions := [unit_at "f" 1 3; unit_at "g" 5 9] |})] |}.

Definition count_ollama_posts (hist : list Request) : nat :=
  length (List.filter (fun req => match req with
                                  | PostOllamaEmbeddings _ _ _ => true
                                  | _ => false
                                  end) hist).

(** Ollama answers its first embedding request with 768 numbers and
    is unreachable afterwards; OpenAI answers with 1536 numbers. *)
Definition ollama_goes_down (hist : list Request) (req : Request) : Reply :=
  match req with
  | GetOllamaTags _ => Response 200 (ollama_body [])
  | PostOllamaEmbeddings _ _ _ =>
      match count_ollama_posts hist with
      | O => Response 200 (ollama_body (repeat f32_one 768))
      | S _ => TransportError (NewError "connection refused")
      end
  | PostOpenAIEmbeddings _ _ _ => Response 200 (openai_body (repeat f32_one 1536))
  end.

(** The hybrid provider as [runContextBuild] creates it, with an API
    key configured. *)
Definition hybrid_start : HybridProvider * World :=
  NewHybridProvider "http://localhost:11434" "nomic-embed-text" "sk-test"
                    "text-embedding-3-small" (world_of ollama_goes_down).

Definition failover_build : result EmbeddingIndex * Generator HybridProvider * World :=
  GenerateForAnalysis (NewGenerator hybrid_start.1 "/repo") two_units hybrid_start.2.

(** A codec for runs: an index is written as a line of text, and the
    documents of [docs] are the ones that decode. *)
Definition render (idx : EmbeddingIndex) : string :=
  "{version: " +:+ Version idx +:+ ", provider: " +:+ Provider idx
    +:+ ", entries: " +:+ fmt_d (len (Embeddings idx)) +:+ "}".

Definition table_codec (docs : list (string * EmbeddingIndex)) : Json :=
  {| json_MarshalIndent idx := Ok (render idx);
     json_Unmarshal data :=
       match find (fun d => String.eqb d.1 data) docs with
       | Some d => Ok d.2
       | None => Err (NewError "unexpected end of JSON input")
       end |}.

Definition index_path : string := "/repo/.katich/embeddings.json".

Definition empty_index (version : string) : EmbeddingIndex :=
  {| Embeddings := []; Dimension := 768; Provider := "Ollama"; Version := version |}.


(** A disk that holds a document of format version 2.0. *)
Definition disk_with_v2 : World :=
  {| http := ollama_up; sent := [];
     disk := {[ index_path := render (empty_index "2.0") ]};
     mkdir_error := fun _ => None;
     write_outcome := fun _ _ => WriteCompletes |}.

(** One unchanged file, whose function was embedded as [1, 0] in the
    index on disk, and an Ollama server that now embeds it as [0, 1]. *)
Definition one_file : Analysis.AnalysisResult :=
  {| Analysis.Files :=
       [("a.go"%string,
         {| Analysis.FilePath := "a.go"; Analysis.Language := "Go";
            Analysis.Functions := [unit_at "f" 1 3] |})] |}.

Definition baseline_index : EmbeddingIndex :=
  match GenerateForAnalysis (NewGenerator local_provider "/repo") one_file
                            (world_of ollama_up) with
  | (Ok idx, _, _) => idx
  | (Err _, _, _) => empty_index ""
  end.

Definition ollama_drifted (hist : list Request) (req : Request) : Reply :=
  match req with
  | PostOllamaEmbeddings _ _ _ => Response 200 (ollama_body v01)
  | GetOllamaTags _ => Response 200 (ollama_body [])
  | PostOpenAIEmbeddings _ _ _ => TransportError (NewError "no route to host")
  end.

Definition rebuild_world : World :=
  {| http := ollama_drifted; sent := [];
     disk := {[ index_path := render baseline_index ]};
     mkdir_error := fun _ => None;
     write_outcome := fun _ _ => WriteCompletes |}.

(** A hybrid provider with Local marked usable, a Local server that is
    down and a Remote that answers. *)
Definition ollama_down (hist : list Request) (req : Request) : Reply :=
  match req with
  | PostOpenAIEmbeddings _ _ _ => Response 200 (openai_body v01)
  | _ => TransportError (NewError "connection refused")
  end.

Definition hybrid_both : HybridProvider :=
  {| ollama := NewOllamaProvider "" "";
     openai := Some (NewOpenAIProvider "sk-test" "");
     useOllama := true |}.

End Runs.

(** * Definitions for the further properties *)

(** The two norms exchanged: the state of the loop of [cosineSimilarity]
    when its arguments are. *)
Definition swap_norms (st : float64 * float64 * float64) : float64 * float64 * float64 :=
  (st.1.1, st.2, st.1.2).

(** The functions of an analysis result in the order the loops of
    [GenerateForAnalysis] visit them, each with the path and the
    language of its file. *)
Definition analysed_units (a : Analysis.AnalysisResult)
  : list (string * string * Analysis.FunctionInfo) :=
  flat_map (fun entry => map (fun fn => (entry.1, Analysis.Language entry.2, fn))
                             (Analysis.Functions entry.2))
           (Analysis.Files a).

(** The entry of the unit [u] when its vector is [v]. *)
Definition entry_of_unit (u : string * string * Analysis.FunctionInfo)
    (v : list float32) : CodeEmbedding :=
  {| ID := generateID u.1.1 (Analysis.Name u.2) (Analysis.StartLine u.2);
     FilePath := u.1.1;
     FuncName := Analysis.Name u.2;
     StartLine := Analysis.StartLine u.2;
     EndLine := Analysis.EndLine u.2;
     Code := createCodeSnippet u.2 u.1.2;
     Embedding := v;
     Language := u.1.2 |}.

(** One turn of the inner loop of [GenerateForAnalysis], on a unit. *)
Definition embed_unit {P} `{EmbeddingProvider P}
    (st : list CodeEmbedding * P * World) (u : string * string * Analysis.FunctionInfo)
  : list CodeEmbedding * P * World :=
  embed_function u.1.1 u.1.2 st u.2.

(** The prompt of a unit. *)
Definition unit_prompt (u : string * string * Analysis.FunctionInfo) : string :=
  createCodeSnippet u.2 u.1.2.

(** The calls of a build: [GenerateEmbedding] on each prompt in turn,
    every call on the provider and the world the call before it left.
    The results are in the order of the calls. *)
Fixpoint provider_calls {P} `{EmbeddingProvider P} (prompts : list string)
    (p : P) (w : World) : list (result (list float32)) * P * World :=
  match prompts with
  | [] => ([], p, w)
  | prompt :: rest =>
      let '(r, p1, w1) := GenerateEmbedding p prompt w in
      let '(rs, p2, w2) := provider_calls rest p1 w1 in
      (r :: rs, p2, w2)
  end.

(** The entries for the units whose call returned a vector, each with
    the vector returned for it; a unit whose call failed has none. *)
Fixpoint answered_entries (units : list (string * string * Analysis.FunctionInfo))
    (results : list (result (list float32))) : list CodeEmbedding :=
  match units, results with
  | u :: units', Ok v :: results' => entry_of_unit u v :: answered_entries units' results'
  | _ :: units', Err _ :: results' => answered_entries units' results'
  | _, _ => []
  end.

Definition is_lower_hex (c : ascii) : bool :=
  let n := Z.of_nat (nat_of_ascii c) in
  ((48 <=? n) && (n <=? 57)) || ((97 <=? n) && (n <=? 102)).

(** The index a build leaves when no backend is available. *)
Definition index_without_backend : EmbeddingIndex :=
  {| Embeddings := []; Dimension := 768; Provider := "None"; Version := "1.0" |}.

Definition ollama_tags_request : Request :=
  GetOllamaTags "http://localhost:11434/api/tags".

(** A byte that [isWhitespace] accepts, a string of such bytes. *)
Definition blank_byte (c : ascii) : bool := Metrics.isWhitespace (Strings.byte_of c).
Definition all_blank (s : string) : bool := forallb blank_byte (list_ascii_of_string s).

Definition blank_at (l : list ascii) (i : nat) : bool :=
  match l !! i with Some c => blank_byte c | None => false end.

(** The number of line feeds among the bytes of a text. *)
Definition newlines (bs : list Z) : Z := len (List.filter (Z.eqb 10) bs).

(** The text is not empty and its last byte is not a line feed. *)
Definition open_last_line (bs : list Z) : bool :=
  match last bs with
  | Some b => negb (b =? 10)
  | None => false
  end.

(** One pass of the bubble sort over the first [m + 1] elements, by
    recursion on the list. *)
Fixpoint bubble {A} (less : A -> A -> bool) (m : nat) (l : list A) : list A :=
  match m, l with
  | S m', a :: b :: rest =>
      if less a b then b :: bubble less m' (a :: rest) else a :: bubble less m' (b :: rest)
  | _, _ => l
  end.

(** The issues and the functions of the analysed files, in the order of
    the walk. *)
Definition all_issues (analysed : list (string * Report.FileAnalysis)) : list Report.Issue :=
  flat_map (fun entry => Report.Issues entry.2) analysed.

Definition all_functions (analysed : list (string * Report.FileAnalysis))
  : list Analysis.FunctionInfo :=
  flat_map (fun entry => Report.Functions entry.2) analysed.

(** A counter of a map of counters: absent until the first
    increment. *)
Definition counter (count : Z) : option Z :=
  if count =? 0 then None else Some count.

Definition issues_of_type (ty : string) (issues : list Report.Issue) : Z :=
  len (List.filter (fun issue => String.eqb (Report.Type_ issue) ty) issues).

Definition issues_of_severity (severity : string) (issues : list Report.Issue) : Z :=
  len (List.filter (fun issue => String.eqb (Report.Severity issue) severity) issues).

(** The function declarations and the struct types among the nodes of a
    file, in the order of the visit. *)
Definition func_decls (nodes : list GoParser.FileNode) : list Analysis.FuncDecl :=
  flat_map (fun n => match n with GoParser.FuncDeclNode fd => [fd] | _ => [] end) nodes.

Definition struct_specs (nodes : list GoParser.FileNode) : list GoParser.StructSpec :=
  flat_map (fun n => match n with GoParser.StructTypeSpec spec => [spec] | _ => [] end) nodes.

(** The issues [ParseFile] raises about a function. *)
Definition function_issues (fn : Analysis.FunctionInfo) : list Report.Issue :=
  (if Analysis.Complexity fn >? 10 then [GoParser.complexity_issue fn] else [])
  ++ (if Analysis.LOC fn >? 50 then [GoParser.length_issue fn] else []).

(** A declaration whose line numbers are valid and whose decision
    points fit an [int]. *)
Definition countable_decl (fd : Analysis.FuncDecl) : Prop :=
  1 + Analysis.decision_points (Analysis.FuncDecl_node fd) <= int_max
  /\ 0 <= Analysis.PosLine fd <= int_max
  /\ 0 <= Analysis.EndPosLine fd < int_max.

(** The issues the specification of the extractor asks for: a function
    with ten decision points or more is too complex, a function that
    ends fifty lines or more after its first line is too long. *)
Definition expected_issues (fd : Analysis.FuncDecl) : list Report.Issue :=
  (if 10 <=? Analysis.decision_points (Analysis.FuncDecl_node fd)
   then [GoParser.complexity_issue (Analysis.extractFunction fd)] else [])
  ++ (if 50 <=? Analysis.EndPosLine fd - Analysis.PosLine fd
      then [GoParser.length_issue (Analysis.extractFunction fd)] else []).

Fixpoint sumZ (l : list Z) : Z :=
  match l with
  | [] => 0
  | x :: l' => x + sumZ l'
  end.

(** The four indicators of [DetectAIPatterns] on a function, and the
    functions it reports: long and complex ones, and the ones with three
    indicators or more. *)
Definition ai_indicators `{Strings.Unicode} (fn : Analysis.FunctionInfo) : list bool :=
  [ Detectors.isGenericName (Analysis.Name fn);
    Analysis.LOC fn >? 100;
    Analysis.Complexity fn >? 20;
    len (Analysis.Parameters fn) >? 5 ].

Definition suspicious `{Strings.Unicode} (fn : Analysis.FunctionInfo) : bool :=
  ((Analysis.LOC fn >? 100) && (Analysis.Complexity fn >? 20))
  || (3 <=? len (List.filter id (ai_indicators fn))).

Fixpoint has_lower (s : string) : bool :=
  match s with
  | EmptyString => false
  | String c s' => Strings.is_lower c || has_lower s'
  end.

(** A name of fewer than two bytes, or without a lower-case letter. *)
Definition short_or_capitals (name : string) : bool :=
  (Z.of_nat (String.length name) <? 2) || negb (has_lower name).

(** The levels of [GetSimilarityLevel], from the weakest. *)
Definition level_rank (level : string) : Z :=
  if String.eqb level "Nearly Identical" then 4
  else if String.eqb level "Very Similar" then 3
  else if String.eqb level "Similar" then 2
  else if String.eqb level "Somewhat Similar" then 1
  else 0.

(** ** More concrete inputs *)

Module MoreRuns.

(** Nothing listens on the Ollama port and no route leads to OpenAI. *)
Definition no_backend (hist : list Request) (req : Request) : Reply :=
  TransportError (NewError "connection refused").

(** The disk holds the index of an earlier build; no backend is up. *)
Definition offline_world : World :=
  {| http := no_backend; sent := [];
     disk := {[ Runs.index_path := Runs.render Runs.baseline_index ]};
     mkdir_error := fun _ => None;
     write_outcome := fun _ _ => WriteCompletes |}.

Definition hybrid_local_only : HybridProvider :=
  {| ollama := NewOllamaProvider "" ""; openai := None; useOllama := true |}.

(** A function of 60 lines with ten [if] statements. *)
Definition long_decl : Analysis.FuncDecl :=
  {| Analysis.DeclName := "Process";
     Analysis.DeclIsExported := true;
     Analysis.DeclDoc := None;
     Analysis.DeclParams := None;
     Analysis.PosLine := 30;
     Analysis.EndPosLine := 89;
     Analysis.DeclChildren :=
       [ Analysis.MkNode (Analysis.OtherNode "BlockStmt")
           (repeat (Analysis.MkNode Analysis.IfStmt []) 10) ] |}.

(** A Go file with an import, the function [f] of lines 10 to 20, a
    struct type and the function [Process]. *)
Definition main_go : GoParser.File :=
  {| GoParser.FileImports :=
       [ {| GoParser.ImportPathValue := "fmt"; GoParser.ImportName := None |} ];
     GoParser.FileNodes :=
       [ GoParser.OtherFileNode;
         GoParser.FuncDeclNode Runs.sample_decl;
         GoParser.StructTypeSpec
           {| GoParser.SpecName := "T"; GoParser.SpecIsExported := true;
              GoParser.StructPosLine := 22; GoParser.StructEndLine := 25;
              GoParser.StructFields :=
                Some [ {| GoParser.FieldNames := ["a"; "b"]%string;
                          GoParser.FieldTypeText := "int" |} ] |};
         GoParser.FuncDeclNode long_decl ] |}.

(** A parser that knows one text. *)
Definition one_text_parser : GoParser.GoSyntax :=
  {| GoParser.parser_ParseFile _ content :=
       if String.eqb content "package main"
       then Ok main_go
       else Err (NewError "expected 'package'") |}.

Definition source_world : World :=
  {| http := no_backend; sent := [];
     disk := {[ "main.go"%string := "package main"%string ]};
     mkdir_error := fun _ => None;
     write_outcome := fun _ _ => WriteCompletes |}.

(** The report of [main.go]. *)
Definition main_go_report : Report.FileAnalysis :=
  GoParser.analyse "main.go" "package main" main_go.

(** Case mapping for runs: byte by byte, as on ASCII. *)
Definition bytewise_case : Strings.Unicode :=
  {| Strings.Map_unicode_ToLower := Strings.map_bytes Strings.lower_byte;
     Strings.Map_unicode_ToUpper := Strings.map_bytes Strings.upper_byte |}.

(** Functions named [ID], [F], [Id] and [parse]. *)
Definition named (name : string) : Analysis.FunctionInfo := Runs.unit_at name 1 2.

Definition four_names : Report.FileAnalysis :=
  {| Report.FilePath := "n.go"; Report.Language := "Go";
     Report.Metrics := Metrics.zero_metrics;
     Report.Functions := [named "ID"; named "F"; named "Id"; named "parse"];
     Report.Classes := []; Report.Imports := []; Report.Issues := [] |}.

End MoreRuns.

(** * Properties *)


(** ** Arithmetic on [int] *)

Lemma int_wrap_in_range (z : Z) :
  int_min <= z <= int_max -> int_wrap z = z.
Proof.
  unfold int_wrap, int_min, int_max. intros Hz.
  rewrite Z.mod_small by lia. lia.
Qed.

Lemma int_add_exact (a b : Z) :
  int_min <= a + b <= int_max -> int_add a b = a + b.
Proof. apply int_wrap_in_range. Qed.

Lemma int_sub_exact (a b : Z) :
  int_min <= a - b <= int_max -> int_sub a b = a - b.
Proof. apply int_wrap_in_range. Qed.

Lemma len_nonneg {A} (l : list A) : 0 <= len l.
Proof. unfold len. lia. Qed.

(** ** The extractor *)

Section Extractor.

Import Analysis.

(** Induction on a syntax tree, with the hypothesis on every child. *)
Lemma Node_forall_ind (P : Node -> Prop) :
  (forall k cs, Forall P cs -> P (MkNode k cs)) -> forall n, P n.
Proof.
  intros step. fix IH 1. intros [k cs]. apply step.
  induction cs as [|c cs IHcs]; constructor; [apply IH | exact IHcs].
Qed.

Lemma decision_points_unfold k cs :
  decision_points (MkNode k cs)
  = (if is_decision_point k then 1 else 0) + children_points cs.
Proof.
  reflexivity.
Qed.

Lemma Inspect_complexity_unfold k cs c :
  Inspect complexity_visit (MkNode k cs) c
  = walk_children cs (snd (complexity_visit (Some (MkNode k cs)) c)).
Proof.
  assert (Hwalk : forall cs s,
    (fix walk (cs : list Node) (s : Z) {struct cs} : Z :=
       match cs with
       | [] => s
       | c :: cs' => walk cs' (Inspect complexity_visit c s)
       end) cs s = walk_children cs s).
  { clear. induction cs as [|c cs IH]; intros s; simpl; [reflexivity | apply IH]. }
  cbn [Inspect].
  destruct (complexity_visit (Some (MkNode k cs)) c) as [descend s1] eqn:Hv.
  assert (descend = true) as ->.
  { destruct k as [| | | | | [| |?] |?]; simpl in Hv; congruence. }
  rewrite Hwalk. reflexivity.
Qed.

Lemma complexity_visit_counts k cs c :
  snd (complexity_visit (Some (MkNode k cs)) c)
  = if is_decision_point k then int_add c 1 else c.
Proof. destruct k as [| | | | | [| |?] |?]; reflexivity. Qed.

Lemma decision_points_nonneg n : 0 <= decision_points n.
Proof.
  induction n as [k cs IH] using Node_forall_ind.
  rewrite decision_points_unfold.
  assert (0 <= children_points cs).
  { induction IH as [|c cs Hc _ IHcs]; simpl; lia. }
  destruct (is_decision_point k); lia.
Qed.

Lemma children_points_nonneg cs : 0 <= children_points cs.
Proof.
  induction cs as [|c cs IH]; simpl; [lia|].
  pose proof (decision_points_nonneg c). lia.
Qed.

(** The counter that [ast.Inspect] threads through the tree ends at its
    start plus the number of decision points, as long as that fits an
    [int]. *)
Lemma Inspect_counts_decision_points n :
  forall c, 0 <= c -> c + decision_points n <= int_max ->
    Inspect complexity_visit n c = c + decision_points n.
Proof.
  induction n as [k cs IH] using Node_forall_ind.
  intros c Hc Hmax.
  rewrite Inspect_complexity_unfold, complexity_visit_counts.
  rewrite decision_points_unfold in *.
  pose proof (children_points_nonneg cs) as Hcs.
  set (c1 := if is_decision_point k then int_add c 1 else c).
  assert (Hc1 : c1 = c + (if is_decision_point k then 1 else 0)).
  { subst c1. destruct (is_decision_point k); [|lia].
    apply int_add_exact. unfold int_min, int_max in *. lia. }
  assert (Hwalk : forall s, 0 <= s -> s + children_points cs <= int_max ->
            walk_children cs s = s + children_points cs).
  { clear Hc1 Hmax Hcs c1. induction IH as [|n cs Hn _ IHcs]; intros s Hs Hle.
    - simpl. lia.
    - simpl in *. pose proof (decision_points_nonneg n).
      pose proof (children_points_nonneg cs).
      unfold walk_children in IHcs.
      rewrite Hn by lia. rewrite IHcs by lia. lia. }
  rewrite Hwalk; destruct (is_decision_point k); lia.
Qed.

End Extractor.


(** ** The order of floating-point comparison *)

Lemma SFcompare_rank (x y : spec_float) :
  is_nan x = false -> is_nan y = false ->
  exists c, SFcompare x y = Some c /\
    match c with
    | Lt => rank_lt (float_rank x) (float_rank y)
    | Eq => float_rank x = float_rank y
    | Gt => rank_lt (float_rank y) (float_rank x)
    end.
Proof.
  intros Hx Hy.
  destruct x as [sx|sx| |sx mx ex], y as [sy|sy| |sy my ey]; try discriminate;
    try (destruct sx); try (destruct sy);
    try (eexists; split; [reflexivity|];
         first [reflexivity | unfold rank_lt; simpl; lia]).
  - unfold SFcompare. rewrite Pos.compare_cont_spec. simpl.
    eexists; split; [reflexivity|].
    destruct (Z.compare_spec ex ey), (Pos.compare_spec mx my);
      unfold rank_lt; simpl; try lia; subst; reflexivity.
  - unfold SFcompare. rewrite Pos.compare_cont_spec. simpl.
    eexists; split; [reflexivity|].
    destruct (Z.compare_spec ex ey), (Pos.compare_spec mx my);
      unfold rank_lt; simpl; try lia; subst; reflexivity.
Qed.

Lemma rank_lt_irrefl a : ~ rank_lt a a.
Proof. unfold rank_lt. lia. Qed.

Lemma rank_lt_asym a b : rank_lt a b -> ~ rank_lt b a.
Proof. unfold rank_lt. lia. Qed.

Lemma rank_lt_cotrans a b c : rank_lt a c -> rank_lt a b \/ rank_lt b c.
Proof. unfold rank_lt. lia. Qed.

Lemma SFltb_rank (x y : spec_float) :
  is_nan x = false -> is_nan y = false ->
  (SFltb x y = true <-> rank_lt (float_rank x) (float_rank y)).
Proof.
  intros Hx Hy. destruct (SFcompare_rank x y Hx Hy) as (c & Hc & Hr).
  unfold SFltb. rewrite Hc. destruct c.
  - rewrite Hr. split; [discriminate | intros H; now apply rank_lt_irrefl in H].
  - tauto.
  - split; [discriminate | intros H; now apply rank_lt_asym in H].
Qed.

Lemma SFleb_rank (x y : spec_float) :
  is_nan x = false -> is_nan y = false ->
  (SFleb x y = true <-> ~ rank_lt (float_rank y) (float_rank x)).
Proof.
  intros Hx Hy. destruct (SFcompare_rank x y Hx Hy) as (c & Hc & Hr).
  unfold SFleb. rewrite Hc. destruct c.
  - rewrite Hr. split; [intros _; apply rank_lt_irrefl | reflexivity].
  - split; [intros _; now apply rank_lt_asym | reflexivity].
  - split; [discriminate | tauto].
Qed.

(** On floats that are not NaN, [x >= y] holds exactly when [y > x]
    does not. *)
Lemma f_ge_not_gt (x y : spec_float) :
  is_nan x = false -> is_nan y = false ->
  f_ge x y = true <-> f_gt y x = false.
Proof.
  intros Hx Hy. unfold f_ge, f_gt.
  rewrite (SFleb_rank y x Hy Hx).
  rewrite <- (SFltb_rank x y Hx Hy).
  destruct (SFltb x y); split; congruence.
Qed.

(** ** Insertion sort meets the contract of [sort.Slice] *)

Section InsertionSort.

Import Embeddings.

Context {A : Type} (less : A -> A -> bool).

Lemma sink_perm x before : Permutation (sink less x before) (x :: before).
Proof.
  induction before as [|y before IH]; simpl; [reflexivity|].
  destruct (less x y); [|reflexivity].
  rewrite IH. apply perm_swap.
Qed.

Lemma insertion_fold_perm l acc :
  Permutation (fold_left (fun before x => sink less x before) l acc) (l ++ acc).
Proof.
  revert acc. induction l as [|x l IH]; intros acc; simpl; [reflexivity|].
  rewrite IH, sink_perm. symmetry. apply Permutation_middle.
Qed.

Lemma insertionSort_perm l : Permutation (insertionSort less l) l.
Proof.
  unfold insertionSort. rewrite <- Permutation_rev, insertion_fold_perm.
  now rewrite app_nil_r.
Qed.

Lemma sink_sorted (L : list A) x before :
  weak_order_on less L -> In x L -> (forall y, In y before -> In y L) ->
  sorted_backwards less before -> sorted_backwards less (sink less x before).
Proof.
  intros [Hasym Hcotrans] Hx Hin Hs.
  induction before as [|y before IH]; simpl.
  - repeat constructor.
  - apply StronglySorted_inv in Hs as [Hs Hy].
    destruct (less x y) eqn:Hxy.
    + constructor.
      * apply IH; [intros z Hz; apply Hin; now right | exact Hs].
      * apply List.Forall_forall. intros z Hz.
        apply (Permutation_in _ (sink_perm x before)) in Hz as [<-|Hz].
        -- apply Hasym; [exact Hx | apply Hin; now left | exact Hxy].
        -- rewrite List.Forall_forall in Hy. now apply Hy.
    + constructor; [now constructor|].
      constructor; [exact Hxy|].
      apply List.Forall_forall. intros z Hz.
      rewrite List.Forall_forall in Hy. specialize (Hy z Hz).
      destruct (less x z) eqn:Hxz; [|reflexivity].
      destruct (Hcotrans x y z Hx (Hin y (or_introl eq_refl))
                  (Hin z (or_intror Hz)) Hxz) as [H|H]; congruence.
Qed.

Lemma insertion_fold_sorted (L : list A) l acc :
  weak_order_on less L -> (forall y, In y (l ++ acc) -> In y L) ->
  sorted_backwards less acc ->
  sorted_backwards less (fold_left (fun before x => sink less x before) l acc).
Proof.
  intros Hwo. revert acc. induction l as [|x l IH]; intros acc Hin Hs; simpl; [exact Hs|].
  apply IH.
  - intros y Hy. apply Hin. apply in_app_or in Hy as [Hy|Hy].
    + simpl. right. apply in_or_app. now left.
    + apply (Permutation_in _ (sink_perm x acc)) in Hy as [<-|Hy].
      * now left.
      * simpl. right. apply in_or_app. now right.
  - apply (sink_sorted L); try assumption.
    + apply Hin. now left.
    + intros y Hy. apply Hin. simpl. right. apply in_or_app. now right.
Qed.

Lemma sorted_backwards_rev before :
  sorted_backwards less before -> sorted_by less (rev before).
Proof.
  unfold sorted_backwards, sorted_by.
  induction 1 as [|a l Hl IH Ha]; simpl; [constructor|].
  apply StronglySorted_app. split_and!.
  - intros b c Hb Hc. apply list_elem_of_In in Hb, Hc.
    destruct Hc as [<-|[]]. apply in_rev in Hb.
    rewrite List.Forall_forall in Ha. now apply Ha.
  - exact IH.
  - repeat constructor.
Qed.

Lemma insertionSort_sorted l :
  weak_order_on less l -> sorted_by less (insertionSort less l).
Proof.
  intros Hwo. unfold insertionSort. apply sorted_backwards_rev.
  apply (insertion_fold_sorted l); [exact Hwo | | constructor].
  intros y Hy. now rewrite app_nil_r in Hy.
Qed.

End InsertionSort.

(** [sort.Slice] as it runs on a short slice. *)
#[export] Instance insertion_SliceSorter : Embeddings.SliceSorter := {
  sort_Slice := @Embeddings.insertionSort;
  sort_Slice_perm := @insertionSort_perm;
  sort_Slice_sorted := @insertionSort_sorted
}.

(** ** Hashing and cosine similarity on samples *)

Example Sum256_abc :
  fmt_x (Sha256.Sum256 (bytes_of_string "abc"))
  = "ba7816bf8f01cfea414140de5dae2223b00361a396177a9cb410ff61f20015ad"%string.
Proof. vm_compute. reflexivity. Qed.

Example generateID_sample :
  generateID "a.go" "init" 3 = "1a90a162bf1b4e24"%string.
Proof. vm_compute. reflexivity. Qed.

(** The norm accumulated over a vector of zeros is [+0]. *)
Lemma cosine_step_zero_left d nb sx y :
  (cosine_step (d, fzero, nb) (S754_zero sx, y)).1.2 = fzero.
Proof. destruct sx; reflexivity. Qed.

Lemma cosine_step_zero_right d na x sy :
  (cosine_step (d, na, fzero) (x, S754_zero sy)).2 = fzero.
Proof. destruct sy; reflexivity. Qed.

Lemma cosine_fold_zero_left (a b : list float32) d nb :
  Forall (fun x => is_zero x = true) a ->
  (fold_left cosine_step (combine a b) (d, fzero, nb)).1.2 = fzero.
Proof.
  revert b d nb. induction a as [|x a IH]; intros b d nb Hz; [reflexivity|].
  destruct b as [|y b]; [reflexivity|].
  apply Forall_cons_1 in Hz as [Hx Hz].
  destruct x as [sx| | |]; try discriminate.
  cbn [combine fold_left]. set (st := cosine_step _ _).
  assert (Hstep : st.1.2 = fzero) by apply cosine_step_zero_left.
  clearbody st. destruct st as [[d' na'] nb'].
  simpl in Hstep. subst na'. now apply IH.
Qed.

Lemma cosine_fold_zero_right (a b : list float32) d na :
  Forall (fun y => is_zero y = true) b ->
  (fold_left cosine_step (combine a b) (d, na, fzero)).2 = fzero.
Proof.
  revert a d na. induction b as [|y b IH]; intros a d na Hz.
  - now destruct a.
  - destruct a as [|x a]; [reflexivity|].
    apply Forall_cons_1 in Hz as [Hy Hz].
    destruct y as [sy| | |]; try discriminate.
    cbn [combine fold_left]. set (st := cosine_step _ _).
    assert (Hstep : st.2 = fzero) by apply cosine_step_zero_right.
    clearbody st. destruct st as [[d' na'] nb'].
    simpl in Hstep. subst nb'. now apply IH.
Qed.

(** The similarity is [0] as soon as one of the vectors is all zeros. *)
Lemma cosineSimilarity_zero_vector (a b : list float32) :
  Forall (fun x => is_zero x = true) a \/ Forall (fun y => is_zero y = true) b ->
  cosineSimilarity a b = fzero.
Proof.
  intros Hz. unfold cosineSimilarity.
  destruct (negb (len a =? len b)); [reflexivity|].
  set (st := fold_left cosine_step (combine a b) _).
  assert (Hn : st.1.2 = fzero \/ st.2 = fzero).
  { destruct Hz as [Hz|Hz]; [left | right].
    - now apply cosine_fold_zero_left.
    - now apply cosine_fold_zero_right. }
  clearbody st. destruct st as [[dot na] nb]. simpl in Hn.
  destruct Hn as [-> | ->]; [reflexivity|].
  destruct (f_eq na fzero); reflexivity.
Qed.

(** A few values: a vector against itself gives 1.0 on these samples,
    orthogonal vectors give 0.0, and an infinite component gives NaN. *)
Example cosineSimilarity_samples :
  cosineSimilarity [f32_lit 3 0; f32_lit 4 0] [f32_lit 3 0; f32_lit 4 0] = f32_one
  /\ cosineSimilarity [f32_lit 1 (-3); f32_lit 7 0; f32_lit 5 2]
                      [f32_lit 1 (-3); f32_lit 7 0; f32_lit 5 2] = f32_one
  /\ cosineSimilarity [f32_one; fzero] [fzero; f32_one] = fzero
  /\ cosineSimilarity [S754_infinity false] [S754_infinity false] = S754_nan.
Proof. vm_compute. auto. Qed.

(** ** Rounding in [SpecFloat] *)

Lemma digits2_pos_log2 (m : positive) :
  Zpos (digits2_pos m) = Z.log2 (Zpos m) + 1.
Proof.
  assert (Hs : forall p, digits2_pos p = Pos.size p).
  { induction p; simpl; congruence. }
  destruct m as [p|p|]; simpl; rewrite ?Hs; lia.
Qed.

Lemma digits2_pos_bounds (m : positive) :
  2 ^ (Zpos (digits2_pos m) - 1) <= Zpos m < 2 ^ Zpos (digits2_pos m).
Proof.
  rewrite digits2_pos_log2.
  replace (Z.log2 (Zpos m) + 1 - 1) with (Z.log2 (Zpos m)) by lia.
  apply (Z.log2_spec (Zpos m)). lia.
Qed.

Lemma digits2_pos_unique (m : positive) (d : Z) :
  2 ^ (d - 1) <= Zpos m < 2 ^ d -> Zpos (digits2_pos m) = d.
Proof.
  intros H. rewrite digits2_pos_log2.
  assert (0 <= d - 1).
  { destruct (Z.le_gt_cases 0 (d - 1)); [assumption|].
    assert (d <= 0) by lia.
    destruct (Z.eq_dec d 0) as [->|]; [simpl in H; lia|].
    rewrite (Z.pow_neg_r 2 d) in H by lia. lia. }
  rewrite (Z.log2_unique (Zpos m) (d - 1)); [lia|lia|].
  now replace (Z.succ (d - 1)) with d by lia.
Qed.

Lemma iter_pos_nat {A} (f : A -> A) (p : positive) : forall x,
  SpecFloat.iter_pos f p x = Nat.iter (Pos.to_nat p) f x.
Proof.
  induction p as [p IH|p IH|]; intros x.
  - change (SpecFloat.iter_pos f p~1 x)
      with (SpecFloat.iter_pos f p (SpecFloat.iter_pos f p (f x))).
    rewrite !IH. rewrite Pos2Nat.inj_xI.
    replace (S (2 * Pos.to_nat p))%nat with (Pos.to_nat p + (Pos.to_nat p + 1))%nat by lia.
    rewrite !Nat.iter_add. reflexivity.
  - change (SpecFloat.iter_pos f p~0 x)
      with (SpecFloat.iter_pos f p (SpecFloat.iter_pos f p x)).
    rewrite !IH. rewrite Pos2Nat.inj_xO.
    replace (2 * Pos.to_nat p)%nat with (Pos.to_nat p + Pos.to_nat p)%nat by lia.
    rewrite Nat.iter_add. reflexivity.
  - reflexivity.
Qed.

Lemma shr_1_m mrs : 0 <= shr_m mrs -> shr_m (shr_1 mrs) = shr_m mrs / 2.
Proof.
  destruct mrs as [m r s]. cbn [shr_m]. intros Hm.
  destruct m as [|[p|p|]|p]; cbn [shr_1 shr_m]; try lia;
    try (Z.div_mod_to_equations; lia).
Qed.

Lemma shr_1_r mrs : 0 <= shr_m mrs -> shr_r (shr_1 mrs) = Z.odd (shr_m mrs).
Proof.
  destruct mrs as [m r s]. simpl. intros Hm.
  destruct m as [|[p|p|]|p]; simpl; try reflexivity; lia.
Qed.

Lemma shr_iter_m (n : nat) mrs :
  0 <= shr_m mrs -> shr_m (Nat.iter n shr_1 mrs) = shr_m mrs / 2 ^ Z.of_nat n.
Proof.
  intros Hm. induction n as [|n IH].
  - simpl. now rewrite Z.div_1_r.
  - rewrite Nat.iter_succ. rewrite shr_1_m; rewrite IH.
    + rewrite Nat2Z.inj_succ, Z.pow_succ_r by lia.
      rewrite Z.div_div by lia. f_equal. lia.
    + apply Z.div_pos; lia.
Qed.

Lemma shr_iter_r (n : nat) mrs :
  0 <= shr_m mrs ->
  shr_r (Nat.iter (S n) shr_1 mrs) = Z.odd (shr_m mrs / 2 ^ Z.of_nat n).
Proof.
  intros Hm. rewrite Nat.iter_succ. rewrite shr_1_r; rewrite shr_iter_m by assumption.
  - reflexivity.
  - apply Z.div_pos; lia.
Qed.

Lemma pow2_div_bounds (m d k : Z) :
  0 <= k -> k < d -> 2 ^ (d - 1) <= m < 2 ^ d ->
  2 ^ (d - 1 - k) <= m / 2 ^ k < 2 ^ (d - k).
Proof.
  intros Hk Hd [Hlo Hhi].
  assert (Hp : 0 < 2 ^ k) by (apply Z.pow_pos_nonneg; lia).
  replace (2 ^ (d - 1)) with (2 ^ (d - 1 - k) * 2 ^ k) in Hlo
    by (rewrite <- Z.pow_add_r by lia; f_equal; lia).
  replace (2 ^ d) with (2 ^ (d - k) * 2 ^ k) in Hhi
    by (rewrite <- Z.pow_add_r by lia; f_equal; lia).
  split.
  - apply Z.div_le_lower_bound; lia.
  - apply Z.div_lt_upper_bound; lia.
Qed.

Lemma log2_bounds (m : Z) :
  0 < m -> 2 ^ (Z.log2 m + 1 - 1) <= m < 2 ^ (Z.log2 m + 1).
Proof.
  intros Hm. replace (Z.log2 m + 1 - 1) with (Z.log2 m) by lia.
  apply (Z.log2_spec m Hm).
Qed.

Lemma log2_digits (m d : Z) :
  0 < d -> 2 ^ (d - 1) <= m < 2 ^ d -> Z.log2 m + 1 = d.
Proof.
  intros Hd H. rewrite (Z.log2_unique m (d - 1)); [lia|lia|].
  now replace (Z.succ (d - 1)) with d by lia.
Qed.

Lemma Zdigits2_log2 (m : Z) : 0 < m -> Zdigits2 m = Z.log2 m + 1.
Proof.
  destruct m as [|p|p]; try lia. intros _. apply digits2_pos_log2.
Qed.

Lemma shr_fexp_53 (m e : Z) (l : location) :
  0 < m -> 53 <= Z.log2 m + 1 -> -1074 <= e ->
  shr_fexp 53 1024 m e l
  = (Nat.iter (Z.to_nat (Z.log2 m + 1 - 53)) shr_1 (shr_record_of_loc m l),
     e + (Z.log2 m + 1 - 53)).
Proof.
  intros Hm Hd He. unfold shr_fexp. rewrite Zdigits2_log2 by assumption.
  set (d := Z.log2 m + 1) in *.
  unfold fexp, emin. change (3 - 1024 - 53) with (-1074).
  rewrite Z.max_l by lia.
  replace (d + e - 53 - e) with (d - 53) by lia.
  unfold shr. destruct (d - 53) as [|p|p] eqn:Hk; try lia.
  - simpl. f_equal. lia.
  - rewrite iter_pos_nat. reflexivity.
Qed.

Lemma round_nearest_even_cases (m : Z) (l : location) :
  round_nearest_even m l = m \/ round_nearest_even m l = m + 1.
Proof.
  destruct l as [|[| |]]; simpl; auto. destruct (Z.even m); auto.
Qed.

Lemma loc_of_shr_record_of_loc (m : Z) (l : location) :
  loc_of_shr_record (shr_record_of_loc m l) = l.
Proof. now destruct l as [|[| |]]. Qed.

Lemma round_nearest_even_low (mrs : shr_record) :
  shr_r mrs = false ->
  round_nearest_even (shr_m mrs) (loc_of_shr_record mrs) = shr_m mrs.
Proof. destruct mrs as [m r s]. simpl. intros ->. now destruct s. Qed.

Lemma binary_round_aux_53 (sx : bool) (mx : positive) (ex : Z) (lx : location) :
  let k := Z.log2 (Zpos mx) + 1 - 53 in
  0 <= k -> -1074 <= ex -> ex + k <= 970 ->
  exists (m : positive) (e R : Z),
    binary_round_aux 53 1024 sx (Zpos mx) ex lx = S754_finite sx m e
    /\ 2 ^ 52 <= Zpos m < 2 ^ 53
    /\ (R = Zpos mx / 2 ^ k \/ R = Zpos mx / 2 ^ k + 1)
    /\ (0 < k -> Z.odd (Zpos mx / 2 ^ (k - 1)) = false -> R = Zpos mx / 2 ^ k)
    /\ (lx = loc_Exact -> k = 0 -> R = Zpos mx)
    /\ ((e = ex + k /\ Zpos m = R) \/ (e = ex + k + 1 /\ R = 2 ^ 53 /\ Zpos m = 2 ^ 52)).
Proof.
  intros k Hk Hex Hhi.
  assert (Hm : 0 < Zpos mx) by lia.
  pose proof (log2_bounds (Zpos mx) Hm) as Hb.
  unfold binary_round_aux. rewrite shr_fexp_53 by (fold k; lia).
  fold k. set (rec1 := Nat.iter (Z.to_nat k) shr_1 (shr_record_of_loc (Zpos mx) lx)).
  assert (Hm1 : shr_m rec1 = Zpos mx / 2 ^ k).
  { unfold rec1. rewrite shr_iter_m.
    - rewrite Z2Nat.id by lia. now destruct lx as [|[| |]].
    - now destruct lx as [|[| |]]. }
  assert (Hb1 : 2 ^ 52 <= shr_m rec1 < 2 ^ 53).
  { rewrite Hm1.
    pose proof (pow2_div_bounds (Zpos mx) (Z.log2 (Zpos mx) + 1) k) as H.
    replace (Z.log2 (Zpos mx) + 1 - 1 - k) with 52 in H by (unfold k; lia).
    replace (Z.log2 (Zpos mx) + 1 - k) with 53 in H by (unfold k; lia).
    apply H; [lia|unfold k; lia|exact Hb]. }
  set (R := round_nearest_even (shr_m rec1) (loc_of_shr_record rec1)).
  assert (HR : R = Zpos mx / 2 ^ k \/ R = Zpos mx / 2 ^ k + 1).
  { rewrite <- Hm1. apply round_nearest_even_cases. }
  assert (Hlow : 0 < k -> Z.odd (Zpos mx / 2 ^ (k - 1)) = false -> R = Zpos mx / 2 ^ k).
  { intros Hk0 Hodd. rewrite <- Hm1. apply round_nearest_even_low.
    unfold rec1. replace (Z.to_nat k) with (S (Z.to_nat (k - 1))) by lia.
    rewrite shr_iter_r.
    - rewrite Z2Nat.id by lia.
      replace (shr_m (shr_record_of_loc (Zpos mx) lx)) with (Zpos mx)
        by now destruct lx as [|[| |]].
      exact Hodd.
    - now destruct lx as [|[| |]]. }
  assert (Hex0 : lx = loc_Exact -> k = 0 -> R = Zpos mx).
  { intros -> Hk0. unfold R, rec1. rewrite Hk0. reflexivity. }
  assert (HRb : 2 ^ 52 <= R <= 2 ^ 53) by lia.
  destruct (Z.eq_dec R (2 ^ 53)) as [HR53|HR53].
  - rewrite HR53. rewrite shr_fexp_53; [|reflexivity|vm_compute; discriminate|lia].
    change (Z.log2 (2 ^ 53) + 1 - 53) with 1.
    change (Nat.iter (Z.to_nat 1) shr_1 (shr_record_of_loc (2 ^ 53) loc_Exact))
      with {| shr_m := 2 ^ 52; shr_r := false; shr_s := false |}.
    cbn [shr_m]. change (2 ^ 52) with (Zpos (Z.to_pos (2 ^ 52))) at 1.
    cbv iota beta.
    replace (ex + k + 1 <=? 1024 - 53) with true by (symmetry; apply Z.leb_le; lia).
    exists (Z.to_pos (2 ^ 52)), (ex + k + 1), R.
    split; [reflexivity|]. split; [vm_compute; split; [discriminate|reflexivity]|].
    split; [exact HR|]. split; [exact Hlow|]. split; [exact Hex0|].
    right. split; [reflexivity|]. split; [exact HR53|reflexivity].
  - assert (HRlt : 2 ^ 52 <= R < 2 ^ 53) by lia.
    assert (Hd : Z.log2 R + 1 = 53) by (apply log2_digits; [lia|exact HRlt]).
    rewrite shr_fexp_53; [|lia|lia|lia].
    rewrite Hd. change (53 - 53) with 0. change (Nat.iter (Z.to_nat 0) shr_1 ?x) with x.
    cbn [shr_record_of_loc shr_m]. rewrite Z.add_0_r.
    destruct R as [|p|p] eqn:HRp; try lia.
    replace (ex + k <=? 1024 - 53) with true by (symmetry; apply Z.leb_le; lia).
    exists p, (ex + k), (Zpos p).
    split; [reflexivity|]. split; [exact HRlt|].
    split; [exact HR|]. split; [exact Hlow|]. split; [exact Hex0|].
    left. split; reflexivity.
Qed.

Lemma iter_xO_pow2 (m d : positive) :
  Zpos (Pos.iter xO m d) = Zpos m * 2 ^ Zpos d.
Proof.
  induction d as [|d IH] using Pos.peano_ind.
  - simpl. lia.
  - rewrite Pos.iter_succ, Pos2Z.inj_xO, IH, Pos2Z.inj_succ, Z.pow_succ_r by lia. lia.
Qed.

Lemma shl_align_le (mx : positive) (ex ex' : Z) :
  ex' <= ex ->
  exists m', shl_align mx ex ex' = (m', ex') /\ Zpos m' = Zpos mx * 2 ^ (ex - ex').
Proof.
  intros Hle. unfold shl_align. destruct (ex' - ex) as [|p|p] eqn:Hd; try lia.
  - exists mx. replace ex' with ex by lia. rewrite Z.sub_diag. split; [reflexivity|lia].
  - exists (Pos.iter xO mx p). split; [reflexivity|].
    rewrite iter_xO_pow2. f_equal. f_equal. lia.
Qed.

Lemma shl_align_ge (mx : positive) (ex ex' : Z) :
  ex <= ex' -> shl_align mx ex ex' = (mx, ex).
Proof.
  intros Hle. unfold shl_align. destruct (ex' - ex) as [|p|p] eqn:Hd; try lia; reflexivity.
Qed.

Lemma fexp_53 (z : Z) : -1021 <= z -> fexp 53 1024 z = z - 53.
Proof. intros H. unfold fexp, emin. lia. Qed.

(** [float64(x)] of a finite [float32]. *)
Lemma float64_of_float32_finite (s : bool) (m : positive) (e : Z) :
  valid_binary prec32 emax32 (S754_finite s m e) = true ->
  exists m' e',
    float64_of_float32 (S754_finite s m e) = S754_finite s m' e'
    /\ 2 ^ 52 <= Zpos m' < 2 ^ 53 /\ -201 <= e' <= 75.
Proof.
  unfold valid_binary, bounded, canonical_mantissa, fexp, emin, prec32, emax32.
  intros Hv. apply andb_true_iff in Hv as [Hc He].
  apply Z.eqb_eq in Hc. apply Z.leb_le in He.
  pose proof (digits2_pos_bounds m) as Hb.
  set (d := Zpos (digits2_pos m)) in *.
  assert (Hd : 1 <= d <= 24 /\ -149 <= e) by lia.
  unfold float64_of_float32, binary_round, prec64, emax64. fold d.
  rewrite fexp_53 by lia.
  destruct (shl_align_le m e (d + e - 53)) as (mz & -> & Hmz); [lia|].
  replace (e - (d + e - 53)) with (53 - d) in Hmz by lia.
  assert (Hmzb : 2 ^ 52 <= Zpos mz < 2 ^ 53).
  { rewrite Hmz. replace (2 ^ 52) with (2 ^ (d - 1) * 2 ^ (53 - d))
      by (rewrite <- Z.pow_add_r by lia; f_equal; lia).
    replace (2 ^ 53) with (2 ^ d * 2 ^ (53 - d))
      by (rewrite <- Z.pow_add_r by lia; f_equal; lia).
    assert (0 < 2 ^ (53 - d)) by (apply Z.pow_pos_nonneg; lia). nia. }
  assert (Hlog : Z.log2 (Zpos mz) + 1 = 53) by (apply log2_digits; [lia|exact Hmzb]).
  destruct (binary_round_aux_53 s mz (d + e - 53) loc_Exact)
    as (m' & e' & R & Hres & Hm' & HR & _ & Hex & Hcase); rewrite ?Hlog; try lia.
  exists m', e'. split; [exact Hres|]. split; [exact Hm'|].
  rewrite Hlog in Hex, Hcase. specialize (Hex eq_refl eq_refl). lia.
Qed.

(** The square of a normal number, away from the ends of the exponent
    range. *)
Lemma SFmul_self_normal (s : bool) (mx : positive) (ex : Z) :
  2 ^ 52 <= Zpos mx < 2 ^ 53 -> -537 <= ex <= 458 ->
  exists (m : positive) (e R k : Z),
    SFmul 53 1024 (S754_finite s mx ex) (S754_finite s mx ex) = S754_finite false m e
    /\ 2 ^ 52 <= Zpos m < 2 ^ 53
    /\ (k = 52 \/ k = 53)
    /\ 2 ^ (k + 52) <= Zpos mx * Zpos mx < 2 ^ (k + 53)
    /\ (R = Zpos mx * Zpos mx / 2 ^ k \/ R = Zpos mx * Zpos mx / 2 ^ k + 1)
    /\ ((e = 2 * ex + k /\ Zpos m = R) \/ (e = 2 * ex + k + 1 /\ R = 2 ^ 53 /\ Zpos m = 2 ^ 52)).
Proof.
  intros Hm He. cbn [SFmul]. rewrite xorb_nilpotent.
  assert (Hsq : 2 ^ 104 <= Zpos (mx * mx) < 2 ^ 106).
  { rewrite Pos2Z.inj_mul. change (2 ^ 104) with (2 ^ 52 * 2 ^ 52).
    change (2 ^ 106) with (2 ^ 53 * 2 ^ 53). nia. }
  assert (Hk : exists k, (k = 52 \/ k = 53) /\ 2 ^ (k + 52) <= Zpos (mx * mx) < 2 ^ (k + 53)).
  { destruct (Z.lt_ge_cases (Zpos (mx * mx)) (2 ^ 105)).
    - exists 52. split; [now left|]. change (2 ^ (52 + 52)) with (2 ^ 104).
      change (2 ^ (52 + 53)) with (2 ^ 105). lia.
    - exists 53. split; [now right|]. change (2 ^ (53 + 52)) with (2 ^ 105).
      change (2 ^ (53 + 53)) with (2 ^ 106). lia. }
  destruct Hk as (k & Hk & Hkb).
  assert (Hlog : Z.log2 (Zpos (mx * mx)) + 1 = k + 53).
  { apply log2_digits; [lia|]. now replace (k + 53 - 1) with (k + 52) by lia. }
  destruct (binary_round_aux_53 false (mx * mx) (ex + ex) loc_Exact)
    as (m & e & R & Hres & Hmb & HR & _ & _ & Hcase); rewrite ?Hlog; try lia.
  rewrite Hlog in HR, Hcase. replace (k + 53 - 53) with k in HR, Hcase by lia.
  rewrite Pos2Z.inj_mul in HR, Hkb.
  exists m, e, R, k. repeat split; try assumption; try lia.
Qed.

(** The square root of a normal number. *)
Lemma SFsqrt_normal (mx : positive) (ex : Z) :
  2 ^ 52 <= Zpos mx < 2 ^ 53 -> -1000 <= ex <= 900 ->
  exists (m : positive) (e R a h q : Z),
    SFsqrt 53 1024 (S754_finite false mx ex) = S754_finite false m e
    /\ 2 ^ 52 <= Zpos m < 2 ^ 53
    /\ (a = 0 \/ a = 1) /\ ex = 2 * h + a
    /\ q * q <= Zpos mx * 2 ^ (52 + a) < (q + 1) * (q + 1)
    /\ 2 ^ 52 <= q < 2 ^ 53
    /\ (R = q \/ R = q + 1)
    /\ ((e = h - 26 /\ Zpos m = R) \/ (e = h - 25 /\ R = 2 ^ 53 /\ Zpos m = 2 ^ 52)).
Proof.
  intros Hm He. cbn [SFsqrt]. unfold SFsqrt_core_binary.
  rewrite Zdigits2_log2 by lia.
  assert (Hlog : Z.log2 (Zpos mx) + 1 = 53) by (apply log2_digits; [lia|exact Hm]).
  rewrite Hlog. rewrite !Z.div2_div.
  set (h := ex / 2). set (a := ex mod 2).
  assert (Ha : (a = 0 \/ a = 1) /\ ex = 2 * h + a).
  { unfold a, h. pose proof (Z.mod_pos_bound ex 2). pose proof (Z.div_mod ex 2). lia. }
  destruct Ha as [Ha Hex].
  replace ((53 + ex + 1) / 2) with (h + 27)
    by (apply (Z.div_unique _ _ _ a); lia).
  rewrite fexp_53 by lia.
  rewrite Z.min_l by lia.
  replace (ex - 2 * (h + 27 - 53)) with (52 + a) by lia.
  assert (Hs : 52 + a = 52 \/ 52 + a = 53) by lia.
  replace (match 52 + a with
           | 0 => Zpos mx
           | Zpos _ => Z.shiftl (Zpos mx) (52 + a)
           | Zneg _ => 0
           end) with (Zpos mx * 2 ^ (52 + a))
    by (rewrite Z.shiftl_mul_pow2 by lia; destruct Hs as [-> | ->]; reflexivity).
  set (m' := Zpos mx * 2 ^ (52 + a)).
  assert (Hm' : 2 ^ 104 <= m' < 2 ^ 106).
  { unfold m'. destruct Ha as [-> | ->].
    - change (2 ^ (52 + 0)) with (2 ^ 52). change (2 ^ 104) with (2 ^ 52 * 2 ^ 52).
      change (2 ^ 106) with (2 ^ 54 * 2 ^ 52). lia.
    - change (2 ^ (52 + 1)) with (2 ^ 53). change (2 ^ 104) with (2 ^ 51 * 2 ^ 53).
      change (2 ^ 106) with (2 ^ 53 * 2 ^ 53). lia. }
  pose proof (Z.sqrtrem_spec m' ltac:(lia)) as Hspec.
  destruct (Z.sqrtrem m') as [q r]. destruct Hspec as [Hq Hr].
  assert (Hqb : 2 ^ 52 <= q < 2 ^ 53).
  { change (2 ^ 104) with (2 ^ 52 * 2 ^ 52) in Hm'.
    change (2 ^ 106) with (2 ^ 53 * 2 ^ 53) in Hm'.
    assert (0 <= q) by nia. split; nia. }
  assert (Hqlog : Z.log2 q + 1 = 53) by (apply log2_digits; [lia|exact Hqb]).
  destruct q as [|qp|qp]; try lia.
  destruct (binary_round_aux_53 false qp (h + 27 - 53)
              (if r =? 0 then loc_Exact else loc_Inexact (if r <=? Zpos qp then Lt else Gt)))
    as (m & e & R & Hres & Hmb & HR & _ & _ & Hcase); rewrite ?Hqlog; try lia.
  rewrite Hqlog in HR, Hcase. change (53 - 53) with 0 in HR, Hcase.
  rewrite Z.pow_0_r, Z.div_1_r in HR.
  exists m, e, R, a, h, (Zpos qp).
  split; [exact Hres|]. split; [exact Hmb|]. split; [exact Ha|]. split; [exact Hex|].
  split; [fold m'; lia|]. split; [exact Hqb|]. split; [exact HR|].
  destruct Hcase as [[-> ->]|(-> & -> & ->)]; [left|right]; repeat split; lia.
Qed.

(** The quotient of two positive normal numbers. *)
Lemma SFdiv_normal (m1 m2 : positive) (e1 e2 : Z) :
  2 ^ 52 <= Zpos m1 < 2 ^ 53 -> 2 ^ 52 <= Zpos m2 < 2 ^ 53 ->
  -450 <= e1 <= 450 -> -450 <= e2 <= 450 ->
  exists (m : positive) (e Q R k : Z),
    SFdiv 53 1024 (S754_finite false m1 e1) (S754_finite false m2 e2) = S754_finite false m e
    /\ 2 ^ 52 <= Zpos m < 2 ^ 53
    /\ (k = 0 \/ k = 1)
    /\ 2 ^ (52 + k) <= Q < 2 ^ (53 + k)
    /\ Q * Zpos m2 <= Zpos m1 * 2 ^ 53 < (Q + 1) * Zpos m2
    /\ (R = Q / 2 ^ k \/ R = Q / 2 ^ k + 1)
    /\ ((e = e1 - e2 - 53 + k /\ Zpos m = R)
        \/ (e = e1 - e2 - 53 + k + 1 /\ R = 2 ^ 53 /\ Zpos m = 2 ^ 52)).
Proof.
  intros Hm1 Hm2 He1 He2. cbn [SFdiv xorb]. unfold SFdiv_core_binary.
  rewrite !Zdigits2_log2 by lia.
  rewrite (log2_digits (Zpos m1) 53), (log2_digits (Zpos m2) 53) by (try exact Hm1; try exact Hm2; lia).
  replace (53 + e1 - (53 + e2)) with (e1 - e2) by lia.
  rewrite fexp_53 by lia. rewrite Z.min_l by lia.
  replace (e1 - e2 - (e1 - e2 - 53)) with 53 by lia.
  cbv iota. rewrite Z.shiftl_mul_pow2 by lia.
  pose proof (Z_div_mod (Zpos m1 * 2 ^ 53) (Zpos m2) ltac:(lia)) as Hdm.
  destruct (Z.div_eucl (Zpos m1 * 2 ^ 53) (Zpos m2)) as [Q r]. destruct Hdm as [HQ Hr].
  assert (HQb : 2 ^ 52 <= Q < 2 ^ 54).
  { change (2 ^ 54) with (2 * 2 ^ 53). split; nia. }
  assert (Hk : exists k, (k = 0 \/ k = 1) /\ 2 ^ (52 + k) <= Q < 2 ^ (53 + k)).
  { destruct (Z.lt_ge_cases Q (2 ^ 53)).
    - exists 0. split; [now left|]. change (2 ^ (52 + 0)) with (2 ^ 52).
      change (2 ^ (53 + 0)) with (2 ^ 53). lia.
    - exists 1. split; [now right|]. change (2 ^ (52 + 1)) with (2 ^ 53).
      change (2 ^ (53 + 1)) with (2 ^ 54). lia. }
  destruct Hk as (k & Hk & Hkb).
  assert (Hlog : Z.log2 Q + 1 = k + 53).
  { apply log2_digits; [lia|].
    replace (k + 53 - 1) with (52 + k) by lia. now replace (k + 53) with (53 + k) by lia. }
  destruct Q as [|Qp|Qp]; try lia.
  destruct (binary_round_aux_53 false Qp (e1 - e2 - 53) (new_location (Zpos m2) r))
    as (m & e & R & Hres & Hmb & HR & _ & _ & Hcase); rewrite ?Hlog; try lia.
  rewrite Hlog in HR, Hcase. replace (k + 53 - 53) with k in HR, Hcase by lia.
  exists m, e, (Zpos Qp), R, k.
  split; [exact Hres|]. split; [exact Hmb|]. split; [exact Hk|]. split; [exact Hkb|].
  split; [nia|]. split; [exact HR|]. exact Hcase.
Qed.

(** The sum of two positive normal numbers: the exponent grows by two at
    most, and a term 55 binades below the other is absorbed. *)
Lemma SFadd_normal (ma mt : positive) (ea et : Z) :
  2 ^ 52 <= Zpos ma < 2 ^ 53 -> 2 ^ 52 <= Zpos mt < 2 ^ 53 ->
  -1000 <= ea <= 900 -> -1000 <= et <= 900 ->
  exists (m : positive) (e : Z),
    SFadd 53 1024 (S754_finite false ma ea) (S754_finite false mt et) = S754_finite false m e
    /\ 2 ^ 52 <= Zpos m < 2 ^ 53
    /\ Z.max ea et <= e <= Z.max ea et + 2
    /\ (et + 55 <= ea -> m = ma /\ e = ea).
Proof.
  intros Hma Hmt Hea Het. cbn [SFadd cond_Zopp].
  set (ez := Z.min ea et).
  destruct (shl_align_le ma ea ez) as (ma' & -> & Hma'); [unfold ez; lia|].
  destruct (shl_align_le mt et ez) as (mt' & -> & Hmt'); [unfold ez; lia|].
  cbn [fst]. change (Zpos ma' + Zpos mt') with (Zpos (ma' + mt')).
  cbn [binary_normalize]. unfold binary_round.
  set (D := Z.max ea et - ez).
  assert (HD : 0 <= D) by (unfold D, ez; lia).
  assert (HP : 0 < 2 ^ D) by (apply Z.pow_pos_nonneg; lia).
  assert (Hs : 2 ^ 52 * 2 ^ D + 2 ^ 52 <= Zpos (ma' + mt') < 2 ^ 53 * 2 ^ D + 2 ^ 53).
  { rewrite Pos2Z.inj_add, Hma', Hmt'.
    destruct (Z.le_ge_cases ea et).
    - replace (ea - ez) with 0 by (unfold ez; lia).
      replace (et - ez) with D by (unfold D, ez; lia).
      rewrite Z.pow_0_r. nia.
    - replace (et - ez) with 0 by (unfold ez; lia).
      replace (ea - ez) with D by (unfold D, ez; lia).
      rewrite Z.pow_0_r. nia. }
  assert (Hk : exists k, (k = D \/ k = D + 1)
                         /\ 2 ^ (k + 52) <= Zpos (ma' + mt') < 2 ^ (k + 53)).
  { destruct (Z.lt_ge_cases (Zpos (ma' + mt')) (2 ^ 53 * 2 ^ D)).
    - exists D. split; [now left|]. rewrite !Z.pow_add_r by lia. nia.
    - exists (D + 1). split; [now right|]. rewrite !Z.pow_add_r by lia.
      change (2 ^ 1) with 2. nia. }
  destruct Hk as (k & Hk & Hkb).
  assert (Hlog : Z.log2 (Zpos (ma' + mt')) + 1 = k + 53).
  { apply log2_digits; [lia|]. now replace (k + 53 - 1) with (k + 52) by lia. }
  rewrite digits2_pos_log2, Hlog. rewrite fexp_53 by (unfold ez; lia).
  rewrite shl_align_ge by lia.
  destruct (binary_round_aux_53 false (ma' + mt') ez loc_Exact)
    as (m & e & R & Hres & Hmb & HR & Hlow & _ & Hcase); rewrite ?Hlog;
    try (unfold D, ez in *; lia).
  rewrite Hlog in HR, Hlow, Hcase. replace (k + 53 - 53) with k in HR, Hlow, Hcase by lia.
  exists m, e. split; [exact Hres|]. split; [exact Hmb|].
  split; [unfold D, ez in *; lia|].
  intros Habs.
  assert (HDa : D = ea - et) by (unfold D, ez; lia).
  assert (Hez : ez = et) by (unfold ez; lia).
  rewrite Hez, Z.sub_diag, Z.pow_0_r, Z.mul_1_r in Hmt'.
  rewrite Hez in Hma'. rewrite <- HDa in Hma'.
  assert (HD55 : 55 <= D) by lia.
  assert (Hp53 : 2 ^ 53 * 2 <= 2 ^ (D - 1)).
  { change (2 ^ 53 * 2) with (2 ^ 54). apply Z.pow_le_mono_r; lia. }
  assert (HpD : 2 ^ D = 2 * 2 ^ (D - 1)).
  { rewrite <- Z.pow_succ_r by lia. f_equal. lia. }
  assert (HkD : k = D).
  { destruct Hk as [Hk|Hk]; [assumption|]. subst k.
    rewrite Pos2Z.inj_add, Hma', Hmt' in Hkb.
    rewrite !Z.pow_add_r in Hkb by lia. change (2 ^ 1) with 2 in Hkb. nia. }
  subst k.
  assert (Hdiv : Zpos (ma' + mt') / 2 ^ D = Zpos ma).
  { rewrite Pos2Z.inj_add, Hma', Hmt'. symmetry.
    apply (Z.div_unique _ _ _ (Zpos mt)); lia. }
  assert (Hodd : Z.odd (Zpos (ma' + mt') / 2 ^ (D - 1)) = false).
  { replace (Zpos (ma' + mt') / 2 ^ (D - 1)) with (2 * Zpos ma).
    - rewrite Z.odd_mul. reflexivity.
    - rewrite Pos2Z.inj_add, Hma', Hmt'.
      apply (Z.div_unique _ _ _ (Zpos mt)); lia. }
  rewrite Hdiv in Hlow. specialize (Hlow ltac:(lia) Hodd). subst R.
  destruct Hcase as [[-> Hm]|(_ & HR53 & _)]; [|lia].
  split; [|lia]. now apply Pos2Z.inj.
Qed.

(** Squaring the square root of a normal number gives the number back
    within a few units in the last place. *)
Lemma sqrt_squared_close (mN : positive) (eN : Z) :
  2 ^ 52 <= Zpos mN < 2 ^ 53 -> -350 <= eN <= 260 ->
  exists (mp : positive) (ep a t : Z),
    SFmul 53 1024 (SFsqrt 53 1024 (S754_finite false mN eN))
                  (SFsqrt 53 1024 (S754_finite false mN eN)) = S754_finite false mp ep
    /\ 2 ^ 52 <= Zpos mp < 2 ^ 53
    /\ (a = 0 \/ a = 1) /\ (t = 52 \/ t = 53 \/ t = 54)
    /\ ep = eN - a - 52 + t
    /\ 2 ^ 49 * (Zpos mp * 2 ^ t - Zpos mN * 2 ^ (52 + a)) <= Zpos mp * 2 ^ t
    /\ 2 ^ 49 * (Zpos mN * 2 ^ (52 + a) - Zpos mp * 2 ^ t) <= Zpos mp * 2 ^ t.
Proof.
  intros HmN HeN.
  destruct (SFsqrt_normal mN eN HmN ltac:(lia))
    as (ms & es & R1 & a & h & q & -> & Hms & Ha & Hh & Hq & Hqb & HR1 & Hc1).
  destruct (SFmul_self_normal false ms es Hms ltac:(lia))
    as (mp & ep & R2 & k2 & -> & Hmp & Hk2 & HX & HR2 & Hc2).
  exists mp, ep, a.
  set (X := Zpos ms * Zpos ms) in *.
  set (Xq := q * q) in *.
  assert (Hq1 : (q + 1) * (q + 1) = Xq + 2 * q + 1) by (unfold Xq; ring).
  rewrite Hq1 in Hq.
  assert (HXc : (Zpos ms = q /\ X = Xq /\ es = h - 26)
                \/ (Zpos ms = q + 1 /\ X = Xq + 2 * q + 1 /\ es = h - 26)
                \/ (Zpos ms = 2 ^ 52 /\ X = 2 ^ 104 /\ es = h - 25
                    /\ Xq = 2 ^ 106 - 2 ^ 54 + 1)).
  { destruct Hc1 as [[-> Hm]|(-> & HR & Hm)].
    - destruct HR1 as [HR1|HR1]; rewrite HR1 in Hm.
      + left. unfold X, Xq. rewrite Hm. auto.
      + right. left. unfold X. rewrite Hm. rewrite Hq1. auto.
    - right. right. unfold X. rewrite Hm. split; [reflexivity|].
      split; [reflexivity|]. split; [reflexivity|].
      assert (q = 2 ^ 53 - 1) as -> by lia. reflexivity. }
  clearbody X Xq. clear Hq1.
  destruct Ha as [-> | ->], Hk2 as [-> | ->];
    change (2 ^ (52 + 0)) with (2 ^ 52) in *; change (2 ^ (52 + 1)) with (2 ^ 53) in *;
    change (2 ^ (52 + 52)) with (2 ^ 104) in *; change (2 ^ (52 + 53)) with (2 ^ 105) in *;
    change (2 ^ (53 + 52)) with (2 ^ 105) in *; change (2 ^ (53 + 53)) with (2 ^ 106) in *.
  all: destruct HXc as [(Hm & HXq & Hes)|[(Hm & HXq & Hes)|(Hm & HXq & Hes & Hq2)]].
  all: destruct Hc2 as [[Hep HmR]|(Hep & HR53 & HmR)].
  all: destruct HR2 as [HR2|HR2].
  all: first [ exists 52; split; [reflexivity|]; split; [exact Hmp|]; split; [auto|]; split; [auto|];
               split; [lia|]; split; Z.div_mod_to_equations; lia
             | exists 53; split; [reflexivity|]; split; [exact Hmp|]; split; [auto|]; split; [auto|];
               split; [lia|]; split; Z.div_mod_to_equations; lia
             | exists 54; split; [reflexivity|]; split; [exact Hmp|]; split; [auto|]; split; [auto 6|];
               split; [lia|]; split; Z.div_mod_to_equations; lia
             | exfalso; Z.div_mod_to_equations; lia ].
Qed.

Lemma quotient_bounds (Q mp mN g c : Z) :
  0 < mp -> 0 <= c ->
  Q * mp <= mN * 2 ^ 53 < (Q + 1) * mp ->
  mp * (g - c) <= mN * 2 ^ 53 <= mp * (g + c) ->
  g - c <= Q <= g + c.
Proof. intros Hmp Hc [H1 H2] [H3 H4]. split; nia. Qed.

(** A normal number divided by the square of its square root is within
    a few units in the last place of one. *)
Lemma self_quotient_close (mN : positive) (eN : Z) :
  2 ^ 52 <= Zpos mN < 2 ^ 53 -> -350 <= eN <= 260 ->
  let N := S754_finite false mN eN in
  exists (mq : positive) (eq : Z),
    SFdiv 53 1024 N (SFmul 53 1024 (SFsqrt 53 1024 N) (SFsqrt 53 1024 N))
    = S754_finite false mq eq
    /\ ((eq = -53 /\ 2 ^ 53 - 64 <= Zpos mq < 2 ^ 53)
        \/ (eq = -52 /\ 2 ^ 52 <= Zpos mq < 2 ^ 52 + 64)).
Proof.
  intros HmN HeN N. unfold N.
  destruct (sqrt_squared_close mN eN HmN HeN)
    as (mp & ep & a & t & -> & Hmp & Ha & Ht & Hep & Hlo & Hhi).
  destruct (SFdiv_normal mN mp eN ep HmN Hmp ltac:(lia) ltac:(lia))
    as (mq & eq & Q & R3 & k3 & -> & Hmq & Hk3 & HQ & HQm & HR3 & Hc3).
  exists mq, eq. split; [reflexivity|].
  assert (HQb : (eN - ep - 53 = -52 /\ 2 ^ 52 - 8 <= Q <= 2 ^ 52 + 8)
                \/ (eN - ep - 53 = -53 /\ 2 ^ 53 - 16 <= Q <= 2 ^ 53 + 16)
                \/ (eN - ep - 53 = -54 /\ 2 ^ 54 - 32 <= Q <= 2 ^ 54 + 32)
                \/ (eN - ep - 53 = -55 /\ 2 ^ 55 - 64 <= Q <= 2 ^ 55 + 64)).
  { destruct Ha as [-> | ->], Ht as [-> | [-> | ->]];
      change (2 ^ (52 + 0)) with (2 ^ 52) in *; change (2 ^ (52 + 1)) with (2 ^ 53) in *.
    - right; left. split; [lia|].
      apply (quotient_bounds Q (Zpos mp) (Zpos mN) (2 ^ 53) 16); [lia|lia|exact HQm|lia].
    - right; right; left. split; [lia|].
      apply (quotient_bounds Q (Zpos mp) (Zpos mN) (2 ^ 54) 32); [lia|lia|exact HQm|lia].
    - right; right; right. split; [lia|].
      apply (quotient_bounds Q (Zpos mp) (Zpos mN) (2 ^ 55) 64); [lia|lia|exact HQm|lia].
    - left. split; [lia|].
      apply (quotient_bounds Q (Zpos mp) (Zpos mN) (2 ^ 52) 8); [lia|lia|exact HQm|lia].
    - right; left. split; [lia|].
      apply (quotient_bounds Q (Zpos mp) (Zpos mN) (2 ^ 53) 16); [lia|lia|exact HQm|lia].
    - right; right; left. split; [lia|].
      apply (quotient_bounds Q (Zpos mp) (Zpos mN) (2 ^ 54) 32); [lia|lia|exact HQm|lia]. }
  clear Hep Hlo Hhi HQm.
  destruct Hk3 as [-> | ->];
    change (2 ^ (52 + 0)) with (2 ^ 52) in *; change (2 ^ (53 + 0)) with (2 ^ 53) in *;
    change (2 ^ (52 + 1)) with (2 ^ 53) in *; change (2 ^ (53 + 1)) with (2 ^ 54) in *;
    change (2 ^ 0) with 1 in *; change (2 ^ 1) with 2 in *.
  all: destruct HQb as [[He HQb]|[[He HQb]|[[He HQb]|[He HQb]]]]; try (exfalso; lia).
  all: destruct Hc3 as [[-> HmR]|(-> & HR53 & HmR)].
  all: destruct HR3 as [HR3|HR3].
  all: try (exfalso; Z.div_mod_to_equations; lia).
  all: first [ left; split; [lia|]; Z.div_mod_to_equations; lia
             | right; split; [lia|]; Z.div_mod_to_equations; lia ].
Qed.

(** ** Cosine similarity of a vector with itself *)

Lemma float32_of_float64_below_one :
  List.Forall (fun j => float32_of_float64
                     (S754_finite false (Z.to_pos (2 ^ 53 - 64 + Z.of_nat j)) (-53))
                   = f32_one) (seq 0 64).
Proof. repeat (constructor; [vm_compute; reflexivity|]). constructor. Qed.

Lemma float32_of_float64_above_one :
  List.Forall (fun j => float32_of_float64
                     (S754_finite false (Z.to_pos (2 ^ 52 + Z.of_nat j)) (-52))
                   = f32_one) (seq 0 64).
Proof. repeat (constructor; [vm_compute; reflexivity|]). constructor. Qed.

(** A [float64] within 64 units in the last place of [1.0] converts to
    the [float32] [1.0]. *)
Lemma float32_of_float64_near_one (mq : positive) (eq : Z) :
  (eq = -53 /\ 2 ^ 53 - 64 <= Zpos mq < 2 ^ 53)
  \/ (eq = -52 /\ 2 ^ 52 <= Zpos mq < 2 ^ 52 + 64) ->
  float32_of_float64 (S754_finite false mq eq) = f32_one.
Proof.
  intros [[-> Hm]|[-> Hm]].
  - pose proof float32_of_float64_below_one as Hall.
    rewrite List.Forall_forall in Hall.
    specialize (Hall (Z.to_nat (Zpos mq - (2 ^ 53 - 64)))).
    rewrite Z2Nat.id in Hall by lia.
    replace (2 ^ 53 - 64 + (Zpos mq - (2 ^ 53 - 64))) with (Zpos mq) in Hall by lia.
    apply Hall, in_seq. lia.
  - pose proof float32_of_float64_above_one as Hall.
    rewrite List.Forall_forall in Hall.
    specialize (Hall (Z.to_nat (Zpos mq - 2 ^ 52))).
    rewrite Z2Nat.id in Hall by lia.
    replace (2 ^ 52 + (Zpos mq - 2 ^ 52)) with (Zpos mq) in Hall by lia.
    apply Hall, in_seq. lia.
Qed.

(** What the code returns for a vector against itself, from the squared
    norm [N] the loop has accumulated. *)
Lemma self_similarity_of_norm (N : float64) :
  normal64 (-350) 260 N ->
  f_eq N fzero = false
  /\ float32_of_float64 (f64_div N (f64_mul (math_Sqrt N) (math_Sqrt N))) = f32_one.
Proof.
  intros (mN & eN & -> & HmN & HeN). split; [reflexivity|].
  destruct (self_quotient_close mN eN HmN HeN) as (mq & eq & Hq & Hc).
  unfold f64_div, f64_mul, math_Sqrt, prec64, emax64. rewrite Hq.
  now apply float32_of_float64_near_one.
Qed.

(** *** The accumulated squares *)

(** The square of a component. *)
Lemma square_of_component (x : float32) :
  valid_binary prec32 emax32 x = true -> is_finite x = true ->
  let t := f64_mul (float64_of_float32 x) (float64_of_float32 x) in
  (is_zero x = true /\ t = fzero) \/ (is_zero x = false /\ normal64 (-350) 204 t).
Proof.
  intros Hv Hf t. destruct x as [s|s| |s m e]; try discriminate Hf.
  - left. split; [reflexivity|]. unfold t. now destruct s.
  - right. split; [reflexivity|].
    destruct (float64_of_float32_finite s m e Hv) as (m' & e' & Hx & Hm' & He').
    unfold t. rewrite Hx. unfold f64_mul, prec64, emax64.
    destruct (SFmul_self_normal s m' e' Hm' ltac:(lia))
      as (mt & et & R & k & -> & Hmt & Hk & _ & _ & Hc).
    exists mt, et. split; [reflexivity|]. split; [exact Hmt|]. lia.
Qed.

(** Adding a square to the running sum. *)
Lemma add_square (acc t : float64) :
  acc = fzero \/ normal64 (-350) 260 acc ->
  t = fzero \/ normal64 (-350) 204 t ->
  (acc = fzero /\ t = fzero /\ f64_add acc t = fzero)
  \/ normal64 (-350) 260 (f64_add acc t).
Proof.
  intros [-> |(ma & ea & -> & Hma & Hea)] [-> |(mt & et & -> & Hmt & Het)].
  - left. auto.
  - right. exists mt, et. split; [reflexivity|]. split; [assumption|lia].
  - right. exists ma, ea. split; [reflexivity|]. split; [assumption|lia].
  - right. unfold f64_add, prec64, emax64.
    destruct (SFadd_normal ma mt ea et Hma Hmt ltac:(lia) ltac:(lia))
      as (m & e & -> & Hm & He & Habs).
    exists m, e. split; [reflexivity|]. split; [exact Hm|].
    destruct (Z.le_gt_cases ea 258).
    + lia.
    + destruct Habs as [_ ->]; lia.
Qed.

(** The three sums of the loop are the dot product and the two squared
    norms. *)
Lemma cosine_fold_components (a b : list float32) :
  length a = length b ->
  forall d na nb,
    fold_left cosine_step (combine a b) (d, na, nb)
    = (fold_left dot_step (combine a b) d,
       fold_left dot_step (combine a a) na,
       fold_left dot_step (combine b b) nb).
Proof.
  revert b. induction a as [|x a IH]; intros [|y b] Hlen d na nb; try discriminate.
  - reflexivity.
  - cbn [combine fold_left]. injection Hlen as Hlen.
    destruct (cosine_step (d, na, nb) (x, y)) as [[d' na'] nb'] eqn:Hstep.
    rewrite (IH b Hlen). unfold cosine_step in Hstep. cbn [fst snd] in Hstep.
    injection Hstep as <- <- <-. reflexivity.
Qed.

Lemma cosineSimilarity_formula (a b : list float32) :
  cosineSimilarity a b
  = if negb (len a =? len b) then fzero
    else if f_eq (squared_norm a) fzero || f_eq (squared_norm b) fzero then fzero
         else float32_of_float64 (f64_div (dot a b) (f64_mul (norm a) (norm b))).
Proof.
  unfold cosineSimilarity, len.
  destruct (Z.eqb_spec (Z.of_nat (length a)) (Z.of_nat (length b))) as [Hlen|Hlen];
    [|reflexivity].
  cbn [negb]. rewrite cosine_fold_components by lia. reflexivity.
Qed.

(** The squared norm of a vector of finite components is [+0] when they
    are all zero, and a positive normal number otherwise: the sum
    neither overflows nor underflows. *)
Lemma sum_of_squares (v : list float32) :
  List.Forall (fun x => valid_binary prec32 emax32 x = true /\ is_finite x = true) v ->
  forall acc,
    acc = fzero \/ normal64 (-350) 260 acc ->
    let r := fold_left dot_step (combine v v) acc in
    (acc = fzero /\ List.Forall (fun x => is_zero x = true) v /\ r = fzero)
    \/ normal64 (-350) 260 r.
Proof.
  induction 1 as [|x v [Hv Hf] _ IH]; intros acc Hacc.
  - cbn. destruct Hacc as [-> |Hacc]; [left|right]; auto.
  - cbn [combine fold_left]. cbv zeta.
    change (dot_step acc (x, x))
      with (f64_add acc (f64_mul (float64_of_float32 x) (float64_of_float32 x))).
    destruct (square_of_component x Hv Hf) as [[Hz Ht]|[Hz Ht]].
    + destruct (add_square acc _ Hacc (or_introl Ht)) as [(-> & _ & Hsum)|Hsum].
      * rewrite Hsum. destruct (IH fzero (or_introl eq_refl)) as [(_ & Hall & Hr)|Hr].
        -- left. split; [reflexivity|]. split; [now constructor|exact Hr].
        -- now right.
      * destruct (IH _ (or_intror Hsum)) as [(Hc & _)|Hr]; [|now right].
        exfalso. destruct Hsum as (m & e & Hs & _). rewrite Hs in Hc. discriminate.
    + destruct (add_square acc _ Hacc (or_intror Ht)) as [(_ & Hc & _)|Hsum].
      * exfalso. destruct Ht as (m & e & Hs & _). rewrite Hs in Hc. discriminate.
      * destruct (IH _ (or_intror Hsum)) as [(Hc & _)|Hr]; [|now right].
        exfalso. destruct Hsum as (m & e & Hs & _). rewrite Hs in Hc. discriminate.
Qed.

Lemma squared_norm_normal (v : list float32) :
  List.Forall (fun x => valid_binary prec32 emax32 x = true /\ is_finite x = true) v ->
  List.Exists (fun x => is_zero x = false) v ->
  normal64 (-350) 260 (squared_norm v).
Proof.
  intros Hv Hnz.
  destruct (sum_of_squares v Hv fzero (or_introl eq_refl)) as [(_ & Hall & _)|Hr];
    [|exact Hr].
  exfalso. apply List.Exists_exists in Hnz as (x & Hin & Hx).
  rewrite List.Forall_forall in Hall. specialize (Hall x Hin). congruence.
Qed.

(** C7.  The score of two vectors of one length is the dot product
    divided by the product of the norms, each accumulated and taken in
    [float64] as the code does and the quotient converted to [float32];
    it is [0] when the squared norm of either vector is zero (and when
    the lengths differ).  A vector of [float32] values ([valid_binary]
    says that a [spec_float] is one) that are finite and not all zero
    has similarity exactly [1.0] with itself, whatever its length, and
    so a similarity between [1 - 2^-24] and [1 + 2^-23], the [float32]
    values next to [1.0]: the sum of the squares neither overflows nor
    underflows, and the roundings of the square root, the product and
    the quotient leave a [float64] that converts to the [float32]
    [1.0]. *)
Theorem cosineSimilarity_formula_and_self_similarity :
  (forall a b : list float32,
     cosineSimilarity a b
     = if negb (len a =? len b) then fzero
       else if f_eq (squared_norm a) fzero || f_eq (squared_norm b) fzero then fzero
            else float32_of_float64 (f64_div (dot a b) (f64_mul (norm a) (norm b))))
  /\ (forall v : list float32,
        List.Forall (fun x => valid_binary prec32 emax32 x = true /\ is_finite x = true) v ->
        List.Exists (fun x => is_zero x = false) v ->
        cosineSimilarity v v = f32_one
        /\ within_epsilon_of_one (cosineSimilarity v v) = true).
Proof.
  split; [exact cosineSimilarity_formula|].
  intros v Hv Hnz.
  assert (Hone : cosineSimilarity v v = f32_one).
  { rewrite cosineSimilarity_formula. rewrite Z.eqb_refl. cbn [negb].
    destruct (self_similarity_of_norm _ (squared_norm_normal v Hv Hnz)) as [Hz Hq].
    rewrite Hz. cbn [orb]. exact Hq. }
  split; [exact Hone|]. rewrite Hone. reflexivity.
Qed.

(** A vector with an infinite component is not a vector of zeros, and
    its similarity with itself is NaN, which no comparison places near
    [1.0]. *)
Lemma cosineSimilarity_self_infinite_is_NaN :
  ~ (forall v : list float32,
       List.Exists (fun x => is_zero x = false) v ->
       within_epsilon_of_one (cosineSimilarity v v) = true).
Proof.
  intros Hall. specialize (Hall [S754_infinity false]).
  assert (Hnz : List.Exists (fun x => is_zero x = false) [S754_infinity false])
    by (constructor; reflexivity).
  specialize (Hall Hnz). vm_compute in Hall. discriminate.
Qed.

(** ** Similarity search *)

Lemma firstn_In {A} (n : nat) (l : list A) (x : A) : In x (firstn n l) -> In x l.
Proof.
  intros H. rewrite <- (firstn_skipn n l). apply in_or_app. now left.
Qed.

Section SimilaritySearch.

Import Embeddings.

Context {sorter : SliceSorter}.

Lemma sort_Slice_nil {A} (less : A -> A -> bool) : sort_Slice less [] = [].
Proof. apply Permutation_nil. symmetry. apply sort_Slice_perm. Qed.

Lemma sort_Slice_In {A} (less : A -> A -> bool) l x :
  In x (sort_Slice less l) <-> In x l.
Proof.
  split; apply Permutation_in; [|symmetry]; apply sort_Slice_perm.
Qed.

Lemma sort_Slice_len {A} (less : A -> A -> bool) l :
  len (sort_Slice less l) = len l.
Proof. unfold len. f_equal. apply Permutation_length, sort_Slice_perm. Qed.

Lemma ranking_len s q : len (ranking s q) = len (Embeddings (index s)).
Proof.
  unfold ranking. rewrite sort_Slice_len. unfold len. now rewrite length_map.
Qed.

Lemma ranking_In s q r :
  In r (ranking s q) <-> exists e, In e (Embeddings (index s)) /\ r = score q e.
Proof.
  unfold ranking. rewrite sort_Slice_In, in_map_iff.
  split; intros (e & H1 & H2); exists e; auto.
Qed.

(** [Search] returns the first [min k n] results of the ranking, and
    panics on a negative [k] unless the index is empty. *)
Lemma Search_unfold s q k :
  Search s q k =
  if len (Embeddings (index s)) =? 0 then Some []
  else if k <? 0 then None
  else Some (firstn (Z.to_nat (Z.min k (len (Embeddings (index s))))) (ranking s q)).
Proof.
  unfold Search. destruct (len (Embeddings (index s)) =? 0) eqn:Hn; [reflexivity|].
  fold (ranking s q). rewrite ranking_len.
  set (n := len (Embeddings (index s))) in *.
  assert (0 <= n) by apply len_nonneg.
  unfold slice_to. rewrite ranking_len. fold n.
  rewrite !Z.gtb_ltb.
  destruct (Z.ltb_spec n k) as [Hk|Hk].
  - destruct (Z.ltb_spec k 0); [lia|].
    destruct (Z.ltb_spec n 0); [lia|].
    rewrite Z.ltb_irrefl. simpl. do 2 f_equal. lia.
  - destruct (Z.ltb_spec k 0); simpl; [reflexivity|].
    destruct (Z.ltb_spec n k); [lia|].
    do 2 f_equal. lia.
Qed.

Lemma Search_nonneg s q k :
  0 <= k ->
  Search s q k
  = Some (firstn (Z.to_nat (Z.min k (len (Embeddings (index s))))) (ranking s q)).
Proof.
  intros Hk. rewrite Search_unfold.
  destruct (len (Embeddings (index s)) =? 0) eqn:Hn.
  - assert (Hnil : Embeddings (index s) = []).
    { destruct (Embeddings (index s)); [reflexivity | unfold len in Hn; simpl in Hn; lia]. }
    unfold ranking. rewrite Hnil. simpl. rewrite sort_Slice_nil.
    now rewrite firstn_nil.
  - replace (k <? 0) with false by lia. reflexivity.
Qed.

Lemma Search_all s q k :
  len (Embeddings (index s)) <= k -> Search s q k = Some (ranking s q).
Proof.
  intros Hk. pose proof (len_nonneg (Embeddings (index s))).
  rewrite Search_nonneg by lia.
  rewrite Z.min_r by lia. rewrite <- (ranking_len s q).
  unfold len. rewrite Nat2Z.id. now rewrite firstn_all.
Qed.

(** Every result is an index entry with its score. *)
Lemma Search_results_scored s q k results r :
  Search s q k = Some results -> In r results ->
  In (Entry r) (Embeddings (index s)) /\ r = score q (Entry r).
Proof.
  rewrite Search_unfold. intros Hs Hr.
  destruct (len (Embeddings (index s)) =? 0); [injection Hs as <-; destruct Hr|].
  destruct (k <? 0); [discriminate|]. injection Hs as <-.
  apply firstn_In, ranking_In in Hr as (e & He & ->).
  split; [exact He | reflexivity].
Qed.

Lemma by_similarity_desc_weak_order q (embs : list CodeEmbedding) :
  Forall (no_nan_score q) embs ->
  weak_order_on by_similarity_desc (map (score q) embs).
Proof.
  intros Hnan.
  assert (Hn : forall r, In r (map (score q) embs) -> is_nan (Similarity r) = false).
  { intros r (e & <- & He)%in_map_iff. rewrite List.Forall_forall in Hnan.
    now apply Hnan. }
  unfold by_similarity_desc, f_gt. split.
  - intros x y Hx Hy Hlt.
    apply SFltb_rank in Hlt; auto.
    destruct (SFltb (Similarity x) (Similarity y)) eqn:Hyx; [|reflexivity].
    apply SFltb_rank in Hyx; auto. now apply rank_lt_asym in Hlt.
  - intros x y z Hx Hy Hz Hlt.
    apply SFltb_rank in Hlt; auto.
    destruct (rank_lt_cotrans _ (float_rank (Similarity y)) _ Hlt) as [H|H];
      [right | left]; apply SFltb_rank; auto.
Qed.

(** Without a NaN among the scores the ranking is in descending order of
    score. *)
Lemma ranking_descending s q :
  Forall (no_nan_score q) (Embeddings (index s)) ->
  StronglySorted (fun r1 r2 => f_ge (Similarity r1) (Similarity r2) = true) (ranking s q).
Proof.
  intros Hnan.
  pose proof (sort_Slice_sorted _ _ _ (by_similarity_desc_weak_order q _ Hnan)) as Hs.
  fold (ranking s q) in Hs. unfold sorted_by in Hs.
  assert (Hn : Forall (fun r => is_nan (Similarity r) = false) (ranking s q)).
  { apply List.Forall_forall. intros r (e & He & ->)%ranking_In.
    rewrite List.Forall_forall in Hnan. now apply Hnan. }
  induction Hs as [|r l Hl IH Hr]; [constructor|].
  apply Forall_cons_1 in Hn as [Hr0 Hn]. constructor; [now apply IH|].
  rewrite List.Forall_forall in *. intros r' Hr'.
  apply f_ge_not_gt; auto. now apply Hr.
Qed.

End SimilaritySearch.

Section Duplicates.

Import Embeddings.

Context {sorter : SliceSorter}.

(** [FindDuplicates] never panics: it keeps, in ranking order, the
    results that pass [keep_duplicate]. *)
Lemma FindDuplicates_unfold s q th ex :
  FindDuplicates s q th ex = Some (List.filter (keep_duplicate th ex) (ranking s q)).
Proof.
  unfold FindDuplicates. now rewrite Search_all by lia.
Qed.

Lemma keep_duplicate_true th ex r :
  keep_duplicate th ex r = true
  <-> ID (Entry r) <> ex /\ f_ge (Similarity r) th = true.
Proof.
  unfold keep_duplicate.
  destruct (String.eqb_spec (ID (Entry r)) ex); split;
    first [tauto | discriminate | intros [Hne _]; contradiction].
Qed.

Lemma other_function_true fp fn r :
  other_function fp fn r = true
  <-> FilePath (Entry r) <> fp \/ FuncName (Entry r) <> fn.
Proof.
  unfold other_function.
  destruct (String.eqb_spec (FilePath (Entry r)) fp),
           (String.eqb_spec (FuncName (Entry r)) fn); simpl; split;
    first [tauto | discriminate | intros [H|H]; contradiction].
Qed.

Lemma FindDuplicates_In s q th ex results r :
  FindDuplicates s q th ex = Some results ->
  (In r results <->
   exists e, In e (Embeddings (index s)) /\ r = score q e
             /\ ID e <> ex /\ f_ge (Similarity r) th = true).
Proof.
  rewrite FindDuplicates_unfold. intros [= <-].
  rewrite filter_In, ranking_In, keep_duplicate_true. split.
  - intros [(e & He & ->) [Hid Hth]]. exists e. auto.
  - intros (e & He & -> & Hid & Hth). split; [exists e|]; auto.
Qed.

End Duplicates.

(** C3 (as amended).  [FindDuplicates] excludes by unit id: its results
    are exactly the scored index entries whose id differs from
    [excludeID] and whose score reaches the threshold, whatever their
    file path and function name.  [DetectDuplicates] passes the empty id
    and excludes by file path plus function name instead: its results
    are exactly the scored entries with a non-empty id, a score reaching
    the threshold, and a file path or a function name that differs from
    the query's. *)
Theorem duplicates_exclusion_rule {P} `{Embeddings.EmbeddingProvider P}
    `{Embeddings.SliceSorter} :
  (forall (s : Embeddings.SimilaritySearch) (q : list float32) (th : float32)
          (excludeID : string),
     exists results,
       Embeddings.FindDuplicates s q th excludeID = Some results
       /\ forall r, In r results <->
            exists e, In e (Embeddings.Embeddings (Embeddings.index s))
                      /\ r = Embeddings.score q e
                      /\ Embeddings.ID e <> excludeID
                      /\ f_ge (Embeddings.Similarity r) th = true)
  /\
  (forall (d : Embeddings.DuplicateDetector P) (code filePath funcName : string)
          (w : World) (embedding : list float32) (p1 : P) (w1 : World),
     Embeddings.GenerateEmbedding (Embeddings.dd_provider d) code w
       = (Ok embedding, p1, w1) ->
     exists results,
       Embeddings.DetectDuplicates d code filePath funcName w
         = (Some (Ok results), Embeddings.with_dd_provider d p1, w1)
       /\ forall r, In r results <->
            exists e, In e (Embeddings.Embeddings
                              (Embeddings.index (Embeddings.search d)))
                      /\ r = Embeddings.score embedding e
                      /\ Embeddings.ID e <> ""%string
                      /\ f_ge (Embeddings.Similarity r) (Embeddings.threshold d) = true
                      /\ (Embeddings.FilePath e <> filePath
                          \/ Embeddings.FuncName e <> funcName)).
Proof.
  split.
  - intros s q th ex. eexists. split; [apply FindDuplicates_unfold|].
    intros r. apply (FindDuplicates_In s q th ex). apply FindDuplicates_unfold.
  - intros d code fp fn w embedding p1 w1 Hgen.
    unfold Embeddings.DetectDuplicates. rewrite Hgen.
    rewrite FindDuplicates_unfold. eexists. split; [reflexivity|].
    intros r. rewrite filter_In, other_function_true.
    rewrite (FindDuplicates_In _ _ _ _ _ r (FindDuplicates_unfold _ _ _ _)).
    split.
    + intros [(e & He & -> & Hid & Hth) Hother]. exists e. auto.
    + intros (e & He & -> & Hid & Hth & Hother). split; [exists e|]; auto.
Qed.

(** C6 (as amended).  For [k >= 0], [Search] returns the first
    [min k n] elements of a permutation of all scored entries, which is
    in descending order of score when no score is NaN; so its length is
    [min k n] and a [k] of at least [n] returns every entry.  Nothing is
    promised about the order of equal scores. *)
Theorem Search_descending_and_clamped `{Embeddings.SliceSorter}
    (s : Embeddings.SimilaritySearch) (q : list float32) (k : Z) :
  0 <= k ->
  let n := len (Embeddings.Embeddings (Embeddings.index s)) in
  exists ranked,
    Permutation ranked (map (Embeddings.score q) (Embeddings.Embeddings (Embeddings.index s)))
    /\ (Forall (no_nan_score q) (Embeddings.Embeddings (Embeddings.index s)) ->
        StronglySorted
          (fun r1 r2 => f_ge (Embeddings.Similarity r1) (Embeddings.Similarity r2) = true)
          ranked)
    /\ Embeddings.Search s q k = Some (firstn (Z.to_nat (Z.min k n)) ranked)
    /\ len (firstn (Z.to_nat (Z.min k n)) ranked) = Z.min k n
    /\ (n <= k -> Embeddings.Search s q k = Some ranked).
Proof.
  intros Hk n. exists (ranking s q). split_and!.
  - apply Embeddings.sort_Slice_perm.
  - apply ranking_descending.
  - now apply Search_nonneg.
  - pose proof (ranking_len s q) as Hlen. fold n in Hlen. unfold len in *.
    rewrite length_firstn. lia.
  - apply Search_all.
Qed.

(** C10.  Vectors of different lengths have similarity exactly [0], and
    [Search] reports that [0] for an entry whose embedding has another
    length than the query, without any error. *)
Theorem cosineSimilarity_length_mismatch `{Embeddings.SliceSorter}
    (a b : list float32) :
  length a <> length b ->
  Embeddings.cosineSimilarity a b = fzero
  /\ forall (s : Embeddings.SimilaritySearch) (k : Z) (e : Embeddings.CodeEmbedding),
       Embeddings.Embedding e = b -> 0 <= k ->
       exists results,
         Embeddings.Search s a k = Some results
         /\ (forall r, In r results -> Embeddings.Entry r = e ->
                       Embeddings.Similarity r = fzero)
         /\ (In e (Embeddings.Embeddings (Embeddings.index s)) ->
             len (Embeddings.Embeddings (Embeddings.index s)) <= k ->
             In {| Embeddings.Entry := e; Embeddings.Similarity := fzero |} results).
Proof.
  intros Hlen.
  assert (Hzero : Embeddings.cosineSimilarity a b = fzero).
  { unfold Embeddings.cosineSimilarity, len.
    destruct (Z.eqb_spec (Z.of_nat (length a)) (Z.of_nat (length b))); [lia|reflexivity]. }
  split; [exact Hzero|].
  intros s k e He Hk. rewrite Search_nonneg by exact Hk. eexists. split; [reflexivity|].
  split.
  - intros r Hr <-.
    apply firstn_In, ranking_In in Hr as (e' & _ & ->). simpl in *.
    now rewrite He.
  - intros Hin Hall. pose proof (Search_all s a k Hall) as Hs.
    rewrite Search_nonneg in Hs by exact Hk. injection Hs as ->.
    apply ranking_In. exists e. split; [exact Hin|].
    unfold Embeddings.score. now rewrite He, Hzero.
Qed.

(** ** Providers *)

Lemma Ollama_GenerateEmbedding_world p text w :
  (Ollama_GenerateEmbedding p text w).2 = after (ollama_request p text) w.
Proof.
  unfold Ollama_GenerateEmbedding, http_do, after, ollama_request.
  destruct (http w (sent w) _) as [e|status body]; [reflexivity|].
  destruct (negb (status =? 200)); [reflexivity|].
  destruct (decode_ollama body) as [v|e]; [|reflexivity].
  destruct (len v =? 0); reflexivity.
Qed.

Lemma OpenAI_GenerateEmbedding_world p text w :
  (OpenAI_GenerateEmbedding p text w).2 = after (openai_request p text) w.
Proof.
  unfold OpenAI_GenerateEmbedding, http_do, after, openai_request.
  destruct (http w (sent w) _) as [e|status body]; [reflexivity|].
  destruct (negb (status =? 200)); [reflexivity|].
  destruct (decode_openai body) as [[|v rest]|e]; try reflexivity.
  destruct (len v =? 0); reflexivity.
Qed.

(** A vector comes back only from a 200 answer that decodes to a
    non-empty embedding. *)
Lemma Ollama_GenerateEmbedding_Ok p text w v w1 :
  Ollama_GenerateEmbedding p text w = (Ok v, w1) ->
  exists body, http w (sent w) (ollama_request p text) = Response 200 body
               /\ decode_ollama body = Ok v /\ v <> [].
Proof.
  unfold Ollama_GenerateEmbedding, http_do, ollama_request.
  destruct (http w (sent w) _) as [e|status body]; [discriminate|].
  destruct (Z.eqb_spec status 200) as [->|]; simpl; [|discriminate].
  destruct (decode_ollama body) as [v'|e] eqn:Hdec; [|discriminate].
  destruct v' as [|x v']; [discriminate|].
  unfold len. simpl length.
  destruct (Z.eqb_spec (Z.of_nat (S (length v'))) 0); [lia|].
  intros [= <- _]. exists body. split_and!; [reflexivity | assumption | discriminate].
Qed.

Lemma OpenAI_GenerateEmbedding_Ok p text w v w1 :
  OpenAI_GenerateEmbedding p text w = (Ok v, w1) ->
  exists body rest, http w (sent w) (openai_request p text) = Response 200 body
                    /\ decode_openai body = Ok (v :: rest) /\ v <> [].
Proof.
  unfold OpenAI_GenerateEmbedding, http_do, openai_request.
  destruct (http w (sent w) _) as [e|status body]; [discriminate|].
  destruct (Z.eqb_spec status 200) as [->|]; simpl; [|discriminate].
  destruct (decode_openai body) as [[|v' rest]|e] eqn:Hdec; try discriminate.
  destruct v' as [|x v']; [discriminate|].
  unfold len. simpl length.
  destruct (Z.eqb_spec (Z.of_nat (S (length v'))) 0); [lia|].
  intros [= <- _]. exists body, rest. split_and!; [reflexivity | assumption | discriminate].
Qed.

Lemma Hybrid_fallback_remote p text w :
  Hybrid_fallback p text w
  = ((remote_only_call (openai p) text w).1, p, (remote_only_call (openai p) text w).2).
Proof.
  unfold Hybrid_fallback, remote_only_call.
  destruct (openai p) as [oa|]; [|reflexivity].
  now destruct (OpenAI_GenerateEmbedding oa text w).
Qed.

Lemma remote_only_call_sent remote text w :
  exists new, sent (remote_only_call remote text w).2 = sent w ++ new
              /\ Forall is_openai_request new
              /\ http (remote_only_call remote text w).2 = http w.
Proof.
  destruct remote as [oa|]; simpl.
  - rewrite OpenAI_GenerateEmbedding_world.
    exists [openai_request oa text]. repeat split. repeat constructor.
  - exists []. rewrite app_nil_r. repeat split. constructor.
Qed.

(** Once [useOllama] is false it stays false, and a session is the
    session of the Remote backend alone. *)
Lemma Hybrid_calls_remote_only p texts w :
  useOllama p = false ->
  Hybrid_calls p texts w
  = ((remote_only_calls (openai p) texts w).1, p, (remote_only_calls (openai p) texts w).2).
Proof.
  intros Hoff. revert w. induction texts as [|text texts IH]; intros w; simpl.
  - reflexivity.
  - unfold Hybrid_GenerateEmbedding. rewrite Hoff, Hybrid_fallback_remote.
    destruct (remote_only_call (openai p) text w) as [r w1]. simpl.
    rewrite IH. now destruct (remote_only_calls (openai p) texts w1).
Qed.

Lemma remote_only_calls_sent remote texts w :
  exists new, sent (remote_only_calls remote texts w).2 = sent w ++ new
              /\ Forall is_openai_request new.
Proof.
  revert w. induction texts as [|text texts IH]; intros w; simpl.
  - exists []. now rewrite app_nil_r.
  - destruct (remote_only_call_sent remote text w) as (n1 & H1 & F1 & _).
    destruct (remote_only_call remote text w) as [r w1]. simpl in H1.
    destruct (IH w1) as (n2 & H2 & F2).
    destruct (remote_only_calls remote texts w1) as [rs w2]. simpl in *.
    exists (n1 ++ n2). rewrite H2, H1, app_assoc. split; [reflexivity|].
    now apply Forall_app.
Qed.

Lemma remote_only_calls_unconfigured texts w :
  remote_only_calls None texts w = (map (fun _ => Err err_no_provider) texts, w).
Proof.
  induction texts as [|text texts IH]; simpl; [reflexivity|]. now rewrite IH.
Qed.

(** C5.  When a call finds Local usable and Local fails, the call marks
    Local unusable and answers with one attempt on Remote if it is
    configured (the provider-unavailable error if not); in every later
    call of the session, whatever the servers would answer, Local stays
    unusable, no request goes to Local, and the answers are those of
    Remote alone: all provider-unavailable errors when Remote is not
    configured. *)
Theorem Hybrid_failover_is_sticky (p : HybridProvider) (text : string)
    (w w1 : World) (e : error) :
  useOllama p = true ->
  Ollama_GenerateEmbedding (ollama p) text w = (Err e, w1) ->
  exists r w2,
    Hybrid_GenerateEmbedding p text w = (r, set_useOllama p false, w2)
    /\ (r, w2) = remote_only_call (openai p) text w1
    /\ (forall oa, openai p = Some oa ->
          sent w2 = sent w ++ [ollama_request (ollama p) text; openai_request oa text])
    /\ (openai p = None -> r = Err err_no_provider /\ sent w2 = sent w ++ [ollama_request (ollama p) text])
    /\ forall texts,
         exists rs w3 new,
           Hybrid_calls (set_useOllama p false) texts w2 = (rs, set_useOllama p false, w3)
           /\ (rs, w3) = remote_only_calls (openai p) texts w2
           /\ sent w3 = sent w2 ++ new
           /\ Forall is_openai_request new
           /\ (openai p = None ->
               rs = map (fun _ => Err err_no_provider) texts /\ new = []).
Proof.
  intros Hon Hfail.
  pose proof (Ollama_GenerateEmbedding_world (ollama p) text w) as Hw1.
  rewrite Hfail in Hw1. simpl in Hw1.
  exists (remote_only_call (openai p) text w1).1, (remote_only_call (openai p) text w1).2.
  split_and!.
  - unfold Hybrid_GenerateEmbedding. rewrite Hon, Hfail.
    now rewrite Hybrid_fallback_remote.
  - now destruct (remote_only_call (openai p) text w1).
  - intros oa Hoa. rewrite Hoa. simpl.
    rewrite OpenAI_GenerateEmbedding_world, Hw1. simpl.
    now rewrite <- app_assoc.
  - intros Hnone. rewrite Hnone. simpl. now rewrite Hw1.
  - intros texts.
    set (w2 := (remote_only_call (openai p) text w1).2).
    destruct (remote_only_calls_sent (openai p) texts w2) as (new & Hsent & Hnew).
    exists (remote_only_calls (openai p) texts w2).1,
           (remote_only_calls (openai p) texts w2).2, new.
    split_and!.
    + now rewrite Hybrid_calls_remote_only.
    + now destruct (remote_only_calls (openai p) texts w2).
    + exact Hsent.
    + exact Hnew.
    + intros Hnone. rewrite Hnone in *.
      rewrite remote_only_calls_unconfigured in *. simpl in *.
      split; [reflexivity|].
      apply (f_equal (@length _)) in Hsent. rewrite length_app in Hsent.
      destruct new; [reflexivity | simpl in Hsent; lia].
Qed.

(** ** The generator *)

Section HybridBuild.

Variables (p0 : HybridProvider) (w0 : World).

Lemma build_invariant_start : build_invariant p0 w0 ([], p0, w0).
Proof.
  simpl. split_and!; auto. intros _. split.
  - exists []. now rewrite app_nil_r.
  - intros _. constructor.
Qed.

Lemma embed_function_invariant filePath language st fn :
  build_invariant p0 w0 st -> build_invariant p0 w0 (embed_function filePath language st fn).
Proof.
  destruct st as [[embs p] w]. intros (Hol & Hoa & Hhttp & Hoff & Hsame).
  unfold embed_function. cbn [GenerateEmbedding Hybrid_provider].
  set (text := createCodeSnippet fn language).
  unfold Hybrid_GenerateEmbedding.
  destruct (useOllama p) eqn:Hp.
  - (* Local is tried *)
    assert (Hp0 : useOllama p0 = true).
    { destruct (useOllama p0); [reflexivity | specialize (Hoff eq_refl); congruence]. }
    pose proof (Ollama_GenerateEmbedding_world (ollama p) text w) as Hw1.
    destruct (Ollama_GenerateEmbedding (ollama p) text w) as [[v|e] w1] eqn:Hcall;
      simpl in Hw1; subst w1.
    + (* Local answers *)
      apply Ollama_GenerateEmbedding_Ok in Hcall as (body & Hreply & Hdec & Hne).
      simpl. rewrite Hp. split_and!; auto. intros _.
      destruct (Hsame (eq_sym Hp0)) as [(new & Hsent & Hnew) Hdims]. split.
      * exists (new ++ [ollama_request (ollama p) text]).
        rewrite Hsent, app_assoc. split; [reflexivity|].
        apply Forall_app. split; [exact Hnew|]. constructor; [|constructor].
        unfold Hybrid_GetName. now rewrite Hp0.
      * intros Hdecl. apply Forall_app. split; [now apply Hdims|].
        constructor; [|constructor]. simpl.
        unfold Hybrid_GetDimension. rewrite Hp0. unfold Ollama_GetDimension.
        rewrite Hhttp in Hreply. apply (Hdecl _ _ _ Hreply v); assumption.
    + (* Local fails: failover *)
      rewrite Hybrid_fallback_remote. simpl.
      destruct (remote_only_call_sent (openai p) text
                  (after (ollama_request (ollama p) text) w)) as (_ & _ & _ & Hh).
      destruct (remote_only_call (openai p) text _) as [[v|e'] w2]; simpl in *;
        rewrite Hh; (split_and!; auto; rewrite Hp0; discriminate).
  - (* Local is marked unusable *)
    rewrite Hybrid_fallback_remote.
    destruct (remote_only_call_sent (openai p) text w) as (n1 & Hs1 & _ & Hh).
    assert (Hcase : useOllama p0 = false ->
              (exists new, sent w = sent w0 ++ new
                           /\ Forall (fun req => request_backend req = Hybrid_GetName p0) new)
              -> exists new, sent (remote_only_call (openai p) text w).2 = sent w0 ++ new
                   /\ Forall (fun req => request_backend req = Hybrid_GetName p0) new).
    { intros Hp0 (new & Hsent & Hnew). unfold remote_only_call in *.
      destruct (openai p) as [oa|] eqn:Hoap.
      - rewrite OpenAI_GenerateEmbedding_world. simpl.
        exists (new ++ [openai_request oa text]). rewrite Hsent, app_assoc.
        split; [reflexivity|]. apply Forall_app. split; [exact Hnew|].
        constructor; [|constructor]. unfold Hybrid_GetName.
        now rewrite Hp0, <- Hoa.
      - exists new. auto. }
    destruct (remote_only_call (openai p) text w) as [[v|e] w1] eqn:Hcall; simpl in *.
    + rewrite Hp, Hh. split_and!; auto. intros Heq.
      destruct (Hsame Heq) as [Hreq Hdims]. split; [apply Hcase; auto|].
      intros Hdecl. apply Forall_app. split; [now apply Hdims|].
      constructor; [|constructor]. simpl.
      unfold remote_only_call in Hcall. destruct (openai p) as [oa|] eqn:Hoap;
        [|discriminate].
      apply OpenAI_GenerateEmbedding_Ok in Hcall as (body & rest & Hreply & Hdec & Hne).
      unfold Hybrid_GetDimension. rewrite <- Heq, <- Hoa.
      unfold OpenAI_GetDimension.
      rewrite Hhttp in Hreply. apply (Hdecl _ _ _ Hreply v rest); assumption.
    + rewrite Hp, Hh. split_and!; auto. intros Heq.
      destruct (Hsame Heq) as [Hreq Hdims]. split; [apply Hcase; auto | exact Hdims].
Qed.

Lemma embed_file_invariant st entry :
  build_invariant p0 w0 st -> build_invariant p0 w0 (embed_file st entry).
Proof.
  destruct entry as [filePath fileAnalysis]. unfold embed_file.
  generalize (Analysis.Functions fileAnalysis). intros fns. revert st.
  induction fns as [|fn fns IH]; intros st Hst; simpl; [exact Hst|].
  apply IH. now apply embed_function_invariant.
Qed.

Lemma embed_files_invariant files st :
  build_invariant p0 w0 st -> build_invariant p0 w0 (fold_left embed_file files st).
Proof.
  revert st. induction files as [|f files IH]; intros st Hst; simpl; [exact Hst|].
  apply IH. now apply embed_file_invariant.
Qed.

End HybridBuild.

(** The loop body stores whatever vector the provider returns; its
    length is not looked at. *)
Lemma embed_function_stores_vector {P} `{EmbeddingProvider P}
    filePath language embs (p : P) w fn v p1 w1 :
  GenerateEmbedding p (createCodeSnippet fn language) w = (Ok v, p1, w1) ->
  exists codeEmb,
    embed_function filePath language (embs, p, w) fn = (embs ++ [codeEmb], p1, w1)
    /\ Embedding codeEmb = v
    /\ ID codeEmb = generateID filePath (Analysis.Name fn) (Analysis.StartLine fn).
Proof.
  intros Hgen. unfold embed_function. rewrite Hgen. eexists. split; [reflexivity|].
  split; reflexivity.
Qed.

(** C1 (as amended).  The index of a build carries the dimension and the
    name its provider reports when the build starts, and version "1.0".
    The loop stores each vector as the provider returns it, without
    looking at its length.  For a Hybrid provider that does not fail over
    during the build ([useOllama] is the same after as before), every
    request of the build goes to the backend named in [Provider], and
    every entry has length [Dimension] as long as the backends answer
    with vectors of their declared dimensions. *)
Theorem GenerateForAnalysis_index_fields :
  (forall P (H : EmbeddingProvider P) (g : Generator P)
          (analysisResult : Analysis.AnalysisResult) (w : World),
     exists idx g' w',
       GenerateForAnalysis g analysisResult w = (Ok idx, g', w')
       /\ Dimension idx = GetDimension (provider g)
       /\ Provider idx = GetName (provider g)
       /\ Version idx = "1.0"%string)
  /\
  (forall P (H : EmbeddingProvider P) filePath language embs (p : P) w fn v p1 w1,
     GenerateEmbedding p (createCodeSnippet fn language) w = (Ok v, p1, w1) ->
     exists codeEmb,
       embed_function filePath language (embs, p, w) fn = (embs ++ [codeEmb], p1, w1)
       /\ Embedding codeEmb = v)
  /\
  (forall (g : Generator HybridProvider) (analysisResult : Analysis.AnalysisResult)
          (w : World) idx g' w',
     GenerateForAnalysis g analysisResult w = (Ok idx, g', w') ->
     useOllama (provider g') = useOllama (provider g) ->
     (exists new, sent w' = sent w ++ new
                  /\ Forall (fun req => request_backend req = Provider idx) new)
     /\ (declared_dimensions (http w) ->
         Forall (fun e => len (Embedding e) = Dimension idx) (Embeddings idx))).
Proof.
  split_and!.
  - intros P H g analysisResult w. unfold GenerateForAnalysis.
    destruct (fold_left embed_file (Analysis.Files analysisResult) ([], provider g, w))
      as [[embs p1] w1].
    eexists _, _, _. split; [reflexivity|]. simpl. auto.
  - intros P H filePath language embs p w fn v p1 w1 Hgen.
    destruct (embed_function_stores_vector filePath language embs p w fn v p1 w1 Hgen)
      as (codeEmb & Hstep & Hv & _).
    exists codeEmb. auto.
  - intros g analysisResult w idx g' w'. unfold GenerateForAnalysis.
    pose proof (embed_files_invariant (provider g) w (Analysis.Files analysisResult)
                  _ (build_invariant_start (provider g) w)) as Hinv.
    destruct (fold_left embed_file (Analysis.Files analysisResult) ([], provider g, w))
      as [[embs p1] w1].
    destruct Hinv as (_ & _ & _ & _ & Hsame).
    intros [= <- <- <-]. simpl. exact Hsame.
Qed.

(** ** Persistence *)

(** [SaveIndex] sends nothing, and when every step succeeds the target
    holds the new document. *)
Lemma SaveIndex_sent `{Json} {P} (g : Generator P) idx path w :
  sent (SaveIndex g idx path w).2 = sent w.
Proof.
  unfold SaveIndex, os_MkdirAll, os_WriteFile.
  destruct (mkdir_error w (filepath_Dir path)); [reflexivity|].
  destruct (json_MarshalIndent idx) as [data|e]; [|reflexivity].
  destruct (write_outcome w path data); reflexivity.
Qed.

Lemma SaveIndex_completes `{Json} {P} (g : Generator P) idx path w data :
  mkdir_error w (filepath_Dir path) = None ->
  json_MarshalIndent idx = Ok data ->
  write_outcome w path data = WriteCompletes ->
  SaveIndex g idx path w = (None, with_disk w (<[path := data]> (disk w))).
Proof.
  intros Hdir Hdata Hwrite. unfold SaveIndex, os_MkdirAll, os_WriteFile.
  now rewrite Hdir, Hdata, Hwrite.
Qed.


(** C8 (as amended).  [LoadIndex] looks at no version: it returns an
    index exactly when the file exists and decodes, whatever version the
    document carries, and returns an error (it does not panic) when the
    file cannot be read or does not decode. *)
Theorem LoadIndex_checks_no_version `{Json} (path : string) (w : World) :
  (forall idx,
     LoadIndex path w = Ok idx
     <-> exists data, disk w !! path = Some data /\ json_Unmarshal data = Ok idx)
  /\ (disk w !! path = None ->
      exists e, LoadIndex path w = Err (Wrap "failed to read index" e))
  /\ (forall data e,
        disk w !! path = Some data -> json_Unmarshal data = Err e ->
        LoadIndex path w = Err (Wrap "failed to unmarshal index" e)).
Proof.
  unfold LoadIndex, os_ReadFile.
  destruct (disk w !! path) as [data|] eqn:Hfile; split_and!.
  - intros idx. destruct (json_Unmarshal data) as [idx0|e0] eqn:Hdec; split.
    + intros [= <-]. eauto.
    + intros (data' & [= <-] & Hdec'). congruence.
    + discriminate.
    + intros (data' & [= <-] & Hdec'). congruence.
  - discriminate.
  - intros data' e [= <-] Hdec. now rewrite Hdec.
  - intros idx. split; [discriminate|]. intros (data & Hd & _). discriminate.
  - intros _. eauto.
  - discriminate.
Qed.

(** * Runs on concrete inputs *)

(** The index built from the two [init] functions holds both, under
    different ids. *)
Example two_inits_index_ids :
  map Embeddings.ID (Embeddings.Embeddings Runs.two_inits_index)
  = ["1a90a162bf1b4e24"; "045f63327580da98"]%string
  /\ map Embeddings.FuncName (Embeddings.Embeddings Runs.two_inits_index)
     = ["init"; "init"]%string
  /\ map Embeddings.Embedding (Embeddings.Embeddings Runs.two_inits_index)
     = [Runs.v10; Runs.v10].
Proof. vm_compute. auto. Qed.

(** C3, counterexample.  Querying with the first [init] of [a.go], the
    second [init] is another unit (another id), scores 1.0 against a
    threshold of 0.85, and is left out of the answer: the exclusion is
    by file path and function name, not by id. *)
Lemma DetectDuplicates_drops_another_unit :
  let query := Runs.unit_at "init" 3 5 in
  let other := Embeddings.generateID "a.go" "init" 10 in
  Embeddings.generateID "a.go" "init" 3 <> other
  /\ (exists e, In e (Embeddings.Embeddings Runs.two_inits_index)
                /\ Embeddings.ID e = other
                /\ f_ge (Embeddings.cosineSimilarity Runs.v10 (Embeddings.Embedding e))
                        (Embeddings.threshold Runs.two_inits_detector) = true)
  /\ (@Embeddings.DetectDuplicates _ _ insertion_SliceSorter Runs.two_inits_detector
        (Embeddings.createCodeSnippet query "Go") "a.go" "init"
        (Runs.world_of Runs.ollama_up)).1.1
     = Some (Ok []).
Proof.
  cbv zeta. split_and!.
  - vm_compute. discriminate.
  - eexists. split_and!; [right; left; reflexivity | vm_compute; reflexivity
                          | vm_compute; reflexivity].
  - vm_compute. reflexivity.
Qed.

(** The example of the specification: with B = [1, 0] and C = [0, 1]
    in the index, the query [1, 0] ranks B before C with scores 1.0 and
    0.0. *)
Example Search_ranks_B_before_C :
  let s := Runs.index_of [Runs.entry "B" Runs.v10; Runs.entry "C" Runs.v01] in
  Runs.ids (@Search insertion_SliceSorter s Runs.v10 2) = Some ["B"; "C"]%string
  /\ Runs.scores (@Search insertion_SliceSorter s Runs.v10 2) = Some [f32_one; fzero].
Proof. vm_compute. auto. Qed.

(** C6, counterexample.  Two entries with equal scores come back in the
    order they were inserted, whichever it is: the ranking is neither
    settled by unit id nor independent of insertion order.  On two
    elements [sort.Slice] is the insertion sort; its one comparison,
    [1.0 > 1.0], is false and nothing is swapped. *)
Lemma Search_ties_follow_insertion_order :
  let a := Runs.entry "a" Runs.v10 in
  let b := Runs.entry "b" Runs.v10 in
  let search := @Search insertion_SliceSorter in
  Runs.scores (search (Runs.index_of [a; b]) Runs.v10 2) = Some [f32_one; f32_one]
  /\ Runs.ids (search (Runs.index_of [a; b]) Runs.v10 2) = Some ["a"; "b"]%string
  /\ Runs.ids (search (Runs.index_of [b; a]) Runs.v10 2) = Some ["b"; "a"]%string.
Proof. vm_compute. auto. Qed.

(** A negative [k] on a non-empty index is a run-time panic. *)
Example Search_negative_k_panics :
  @Search insertion_SliceSorter (Runs.index_of [Runs.entry "a" Runs.v10]) Runs.v10 (-1)
  = None.
Proof. vm_compute. reflexivity. Qed.

(** C6, witness: the index holds C = [0, 1] then B = [1, 0], the query is
    [1, 0] and [k = 5] exceeds the two entries. *)
Lemma Search_descending_and_clamped_witness :
  let s := Runs.index_of [Runs.entry "C" Runs.v01; Runs.entry "B" Runs.v10] in
  0 <= 5
  /\ Forall (no_nan_score Runs.v10) (Embeddings.Embeddings (Embeddings.index s))
  /\ exists ranked,
       Permutation ranked
         (map (Embeddings.score Runs.v10) (Embeddings.Embeddings (Embeddings.index s)))
       /\ (Forall (no_nan_score Runs.v10) (Embeddings.Embeddings (Embeddings.index s)) ->
           StronglySorted
             (fun r1 r2 => f_ge (Embeddings.Similarity r1) (Embeddings.Similarity r2) = true)
             ranked)
       /\ Embeddings.Search s Runs.v10 5 = Some (firstn (Z.to_nat (Z.min 5 2)) ranked)
       /\ len (firstn (Z.to_nat (Z.min 5 2)) ranked) = Z.min 5 2
       /\ (2 <= 5 -> Embeddings.Search s Runs.v10 5 = Some ranked).
Proof.
  cbv zeta. split; [lia|]. split.
  - repeat constructor.
  - apply (@Search_descending_and_clamped insertion_SliceSorter
             (Runs.index_of [Runs.entry "C" Runs.v01; Runs.entry "B" Runs.v10])
             Runs.v10 5).
    lia.
Defined.

(** C10, witness: a query of two numbers against a vector of one. *)
Lemma cosineSimilarity_length_mismatch_witness :
  length Runs.v10 <> length [f32_one]
  /\ Embeddings.cosineSimilarity Runs.v10 [f32_one] = fzero.
Proof.
  split; [simpl; lia|].
  apply (@cosineSimilarity_length_mismatch insertion_SliceSorter Runs.v10 [f32_one]).
  simpl. lia.
Defined.


(** The Ollama server of [two_inits_index] answers with two numbers; the
    index records them under dimension 768. *)
Example short_vectors_are_stored :
  Dimension Runs.two_inits_index = 768
  /\ map (fun e => len (Embedding e)) (Embeddings Runs.two_inits_index) = [2; 2].
Proof. vm_compute. auto. Qed.

Lemma ollama_goes_down_declared_dimensions :
  declared_dimensions Runs.ollama_goes_down.
Proof.
  intros hist req body. unfold Runs.ollama_goes_down.
  destruct req as [url model prompt|url|key model input].
  - destruct (Runs.count_ollama_posts hist); [|discriminate].
    intros [= <-] v [= <-] _. reflexivity.
  - intros _. exact I.
  - intros [= <-] v rest [= <- <-] _. reflexivity.
Qed.

(** C1, counterexample.  Ollama answers the first function and then
    goes down; the hybrid provider fails over to OpenAI for the second.
    Both backends answer with their declared dimensions, yet the index
    says "Ollama", 768 and holds a 768-number vector from Ollama beside a
    1536-number vector from OpenAI. *)
Lemma GenerateForAnalysis_mixes_embedding_spaces :
  declared_dimensions Runs.ollama_goes_down
  /\ useOllama Runs.hybrid_start.1 = true
  /\ exists idx g' w',
       Runs.failover_build = (Ok idx, g', w')
       /\ Provider idx = "Ollama"%string
       /\ Dimension idx = 768
       /\ map (fun e => len (Embedding e)) (Embeddings idx) = [768; 1536]
       /\ map request_backend (sent w')
          = ["Ollama"; "Ollama"; "Ollama"; "OpenAI"]%string
       /\ useOllama (provider g') = false.
Proof.
  split; [apply ollama_goes_down_declared_dimensions|].
  split; [reflexivity|].
  exists (match Runs.failover_build.1.1 with
          | Ok idx => idx
          | Err _ => Runs.empty_index ""
          end), Runs.failover_build.1.2, Runs.failover_build.2.
  vm_compute. auto 10.
Qed.

(** A build in which Ollama stays up has no failover, and every entry
    has the dimension of the index. *)
Example build_without_failover :
  exists idx g' w',
    GenerateForAnalysis (NewGenerator Runs.hybrid_both "/repo") Runs.two_units
      (Runs.world_of (fun _ _ => Response 200 (Runs.ollama_body (repeat f32_one 768))))
    = (Ok idx, g', w')
    /\ useOllama (provider g') = true
    /\ Provider idx = "Ollama"%string
    /\ map (fun e => len (Embedding e)) (Embeddings idx) = [Dimension idx; Dimension idx].
Proof. eexists _, _, _. vm_compute. auto. Qed.


(** C8, counterexample.  A document of format version 2.0 is loaded like
    any other; the index returned carries version 2.0, not the 1.0 that
    [GenerateForAnalysis] writes. *)
Lemma LoadIndex_accepts_another_version :
  let codec := Runs.table_codec [(Runs.render (Runs.empty_index "2.0"),
                                  Runs.empty_index "2.0")] in
  @LoadIndex codec Runs.index_path Runs.disk_with_v2 = Ok (Runs.empty_index "2.0")
  /\ Version (Runs.empty_index "2.0") = "2.0"%string.
Proof. vm_compute. auto. Qed.

(** A document that does not decode gives an error, not a panic. *)
Example LoadIndex_corrupt_document :
  let codec := Runs.table_codec [] in
  @LoadIndex codec Runs.index_path Runs.disk_with_v2
  = Err (Wrap "failed to unmarshal index" (NewError "unexpected end of JSON input")).
Proof. vm_compute. reflexivity. Qed.

(** C5, witness: Local is marked usable but down, Remote answers; the
    first call tries both, the next two go to Remote only. *)
Lemma Hybrid_failover_is_sticky_witness :
  let w := Runs.world_of Runs.ollama_down in
  useOllama Runs.hybrid_both = true
  /\ is_ok (Ollama_GenerateEmbedding (ollama Runs.hybrid_both) "func f" w).1 = false
  /\ exists r w2,
       Hybrid_GenerateEmbedding Runs.hybrid_both "func f" w
       = (r, set_useOllama Runs.hybrid_both false, w2)
       /\ r = Ok Runs.v01
       /\ map request_backend (sent w2) = ["Ollama"; "OpenAI"]%string
       /\ exists rs w3,
            Hybrid_calls (set_useOllama Runs.hybrid_both false) ["func g"; "func h"]%string w2
            = (rs, set_useOllama Runs.hybrid_both false, w3)
            /\ map request_backend (sent w3) = ["Ollama"; "OpenAI"; "OpenAI"; "OpenAI"]%string.
Proof.
  cbv zeta. split; [reflexivity|]. split; [reflexivity|].
  destruct (Hybrid_failover_is_sticky Runs.hybrid_both "func f"
              (Runs.world_of Runs.ollama_down)
              (Ollama_GenerateEmbedding (ollama Runs.hybrid_both) "func f"
                 (Runs.world_of Runs.ollama_down)).2
              (Wrap "ollama request failed" (NewError "connection refused")))
    as (r & w2 & Hcall & Hremote & _ & _ & Hlater);
    [reflexivity | reflexivity |].
  exists r, w2. split; [exact Hcall|].
  injection Hremote as -> ->.
  split; [reflexivity|]. split; [reflexivity|].
  destruct (Hlater ["func g"; "func h"]%string) as (rs & w3 & new & Hcalls & Hrs & _).
  exists rs, w3. split; [exact Hcalls|].
  injection Hrs as -> ->. reflexivity.
Defined.

(** ** The embedding stage of [katich context build] *)

(** C4, at the failing input.  The index on disk was built when the one
    function of [a.go] was embedded as [1, 0]; no file has changed.
    Whatever [--force] and [--incremental] say, the build sends the
    function to the provider again and saves an index with the vector
    the provider returns now, [0, 1], in place of the one on disk. *)
Theorem runContextBuild_embeds_unchanged_files_again (J : Json)
    (forceRebuild incremental : bool) :
  let w' := Cmd.runContextBuild_embeddings forceRebuild incremental "/repo"
              Runs.one_file "" Runs.rebuild_world in
  map Embedding (Embeddings Runs.baseline_index) = [Runs.v10]
  /\ disk Runs.rebuild_world !! Runs.index_path = Some (Runs.render Runs.baseline_index)
  /\ sent w'
     = [ GetOllamaTags "http://localhost:11434/api/tags";
         PostOllamaEmbeddings "http://localhost:11434/api/embeddings" "nomic-embed-text"
           (createCodeSnippet (Runs.unit_at "f" 1 3) "Go") ]
  /\ exists rebuilt,
       map Embedding (Embeddings rebuilt) = [Runs.v01]
       /\ map ID (Embeddings rebuilt) = map ID (Embeddings Runs.baseline_index)
       /\ forall data, json_MarshalIndent rebuilt = Ok data ->
                       disk w' !! Runs.index_path = Some data.
Proof.
  cbv zeta. split; [reflexivity|]. split; [reflexivity|].
  unfold Cmd.runContextBuild_embeddings.
  set (start := NewHybridProvider _ _ _ _ Runs.rebuild_world).
  assert (Hstart : start = (start.1, start.2)) by now destruct start.
  rewrite Hstart.
  set (build := GenerateForAnalysis (NewGenerator start.1 "/repo") Runs.one_file start.2).
  assert (Hbuild : exists idx, build = (Ok idx, build.1.2, build.2)
                               /\ map Embedding (Embeddings idx) = [Runs.v01]
                               /\ map ID (Embeddings idx)
                                  = map ID (Embeddings Runs.baseline_index)
                               /\ sent build.2
                                  = [ GetOllamaTags "http://localhost:11434/api/tags";
                                      PostOllamaEmbeddings
                                        "http://localhost:11434/api/embeddings"
                                        "nomic-embed-text"
                                        (createCodeSnippet (Runs.unit_at "f" 1 3) "Go") ]
                               /\ mkdir_error build.2 = (fun _ => None)
                               /\ write_outcome build.2 = (fun _ _ => WriteCompletes)).
  { eexists. vm_compute. auto 10. }
  destruct Hbuild as (idx & -> & Hvec & Hids & Hsent & Hmk & Hwr).
  cbn [snd] in *. split.
  - now rewrite SaveIndex_sent.
  - exists idx. split_and!; [exact Hvec | exact Hids |].
    intros data Hdata.
    rewrite (SaveIndex_completes _ _ _ _ data); [apply lookup_insert_eq | | exact Hdata |];
      [now rewrite Hmk | now rewrite Hwr].
Qed.

(** The two flags are read nowhere in the stage. *)
Lemma runContextBuild_embeddings_ignores_flags `{Json}
    (forceRebuild incremental : bool) repoRoot analysisResult cfgAPIKey w :
  Cmd.runContextBuild_embeddings forceRebuild incremental repoRoot analysisResult cfgAPIKey w
  = Cmd.runContextBuild_embeddings true false repoRoot analysisResult cfgAPIKey w.
Proof. reflexivity. Qed.

(** ** A vector against itself *)

Lemma cosineSimilarity_formula_and_self_similarity_witness :
  let v := [S754_finite false 1 (-149); S754_finite true 12582912 (-22);
            S754_zero true; S754_finite false 16777215 104] in
  List.Forall (fun x => valid_binary prec32 emax32 x = true /\ is_finite x = true) v
  /\ List.Exists (fun x => is_zero x = false) v
  /\ cosineSimilarity v v = f32_one
  /\ within_epsilon_of_one (cosineSimilarity v v) = true.
Proof.
  intros v.
  assert (Hv : List.Forall (fun x => valid_binary prec32 emax32 x = true
                                     /\ is_finite x = true) v)
    by (repeat constructor).
  assert (Hnz : List.Exists (fun x => is_zero x = false) v)
    by (constructor; reflexivity).
  split; [exact Hv|]. split; [exact Hnz|].
  exact (proj2 cosineSimilarity_formula_and_self_similarity v Hv Hnz).
Defined.

(** * Further properties of the code *)

(** ** Cosine similarity and search *)

Lemma SFmul_comm prec emax x y : SFmul prec emax x y = SFmul prec emax y x.
Proof.
  destruct x as [sx|sx| |sx mx ex], y as [sy|sy| |sy my ey]; simpl;
    rewrite ?(xorb_comm sx sy), ?(Pos.mul_comm mx my), ?(Z.add_comm ex ey); reflexivity.
Qed.

Lemma cosine_step_swap st x y :
  cosine_step (swap_norms st) (y, x) = swap_norms (cosine_step st (x, y)).
Proof.
  destruct st as [[d na] nb]. unfold cosine_step, swap_norms; simpl.
  unfold f64_mul.
  now rewrite (SFmul_comm _ _ (float64_of_float32 y) (float64_of_float32 x)).
Qed.

Lemma cosine_fold_swap (a b : list float32) : forall st,
  fold_left cosine_step (combine b a) (swap_norms st)
  = swap_norms (fold_left cosine_step (combine a b) st).
Proof.
  revert b. induction a as [|x a IH]; intros [|y b] st; try reflexivity.
  cbn [combine fold_left]. rewrite cosine_step_swap. apply IH.
Qed.

(** X1.  [cosineSimilarity] is symmetric, bit for bit: exchanging the two
    vectors gives the same [float32] (the same zero, the same NaN, the
    same rounding), whatever their lengths and components. *)
Theorem cosineSimilarity_symmetric (a b : list float32) :
  cosineSimilarity a b = cosineSimilarity b a.
Proof.
  unfold cosineSimilarity.
  rewrite (Z.eqb_sym (len b) (len a)).
  destruct (len a =? len b); simpl; [|reflexivity].
  change (fzero, fzero, fzero) with (swap_norms (fzero, fzero, fzero)) at 2.
  rewrite (cosine_fold_swap a b).
  set (st := fold_left cosine_step (combine a b) _).
  destruct st as [[d na] nb]. simpl.
  rewrite (orb_comm (f_eq nb fzero)).
  destruct (f_eq na fzero || f_eq nb fzero); [reflexivity|].
  unfold f64_mul. now rewrite (SFmul_comm _ _ (math_Sqrt nb)).
Qed.

(** X2.  A query vector whose components are all zero (of either sign)
    scores exactly 0 against every entry: no division by the zero norm
    takes place, so no NaN appears, and every result of [Search] carries
    the similarity 0. *)
Theorem Search_zero_query_scores_zero `{SliceSorter}
    (s : SimilaritySearch) (q : list float32) (k : Z) (results : list SimilarityResult) :
  Forall (fun x => is_zero x = true) q ->
  Search s q k = Some results ->
  Forall (fun r => Similarity r = fzero) results.
Proof.
  intros Hq Hs. apply List.Forall_forall. intros r Hr.
  destruct (Search_results_scored s q k results r Hs Hr) as [_ ->].
  simpl. apply cosineSimilarity_zero_vector. now left.
Qed.

(** X3.  [Search] panics exactly when [topK] is negative and the index
    holds at least one entry: the slice expression [results[:topK]] is
    then out of range.  On an empty index every [topK], negative ones
    included, returns the empty list. *)
Theorem Search_panics_iff_negative_topK `{SliceSorter}
    (s : SimilaritySearch) (q : list float32) (k : Z) :
  (Search s q k = None <-> k < 0 /\ Embeddings (index s) <> [])
  /\ (Embeddings (index s) = [] -> Search s q k = Some []).
Proof.
  rewrite Search_unfold. split.
  - destruct (Embeddings (index s)) as [|e es] eqn:He.
    + simpl. split; [discriminate | intros [_ Hne]; now elim Hne].
    + unfold len. simpl length.
      destruct (Z.eqb_spec (Z.of_nat (S (length es))) 0); [lia|].
      destruct (Z.ltb_spec k 0); split; try discriminate; try tauto; try lia.
      intros _. split; [assumption | discriminate].
  - intros ->. reflexivity.
Qed.

(** X4.  [Search] neither invents, alters nor repeats entries: its
    results, together with the entries it leaves out, are a rearrangement
    of the index entries, each paired with its cosine similarity to the
    query. *)
Theorem Search_results_from_index `{SliceSorter}
    (s : SimilaritySearch) (q : list float32) (k : Z) (results : list SimilarityResult) :
  Search s q k = Some results ->
  exists rest,
    Permutation (results ++ rest) (map (score q) (Embeddings (index s))).
Proof.
  rewrite Search_unfold.
  destruct (len (Embeddings (index s)) =? 0) eqn:Hn.
  - intros [= <-]. exists []. simpl.
    destruct (Embeddings (index s)); [constructor|].
    apply Z.eqb_eq in Hn. unfold len in Hn. simpl in Hn. lia.
  - destruct (k <? 0); [discriminate|]. intros [= <-].
    exists (skipn (Z.to_nat (Z.min k (len (Embeddings (index s))))) (ranking s q)).
    rewrite firstn_skipn. apply sort_Slice_perm.
Qed.

Lemma SFleb_true_not_nan x y : SFleb x y = true -> is_nan x = false /\ is_nan y = false.
Proof.
  unfold SFleb. destruct x, y; simpl; try discriminate; auto.
Qed.

Lemma f_ge_trans x y z : f_ge x y = true -> f_ge y z = true -> f_ge x z = true.
Proof.
  unfold f_ge. intros Hxy Hyz.
  destruct (SFleb_true_not_nan _ _ Hxy) as [Hy Hx].
  destruct (SFleb_true_not_nan _ _ Hyz) as [Hz _].
  apply SFleb_rank in Hxy; [|assumption..].
  apply SFleb_rank in Hyz; [|assumption..].
  apply SFleb_rank; [assumption..|].
  intros Hlt. destruct (rank_lt_cotrans _ (float_rank y) _ Hlt); tauto.
Qed.

(** X5.  [FindDuplicates] is monotone in its threshold: raising the
    threshold only removes results.  Every result found at a threshold
    [hi] is also found, with the same score, at any threshold [lo] that
    [hi] reaches ([hi >= lo]). *)
Theorem FindDuplicates_threshold_monotone `{SliceSorter}
    (s : SimilaritySearch) (q : list float32) (lo hi : float32) (excludeID : string) :
  f_ge hi lo = true ->
  exists at_lo at_hi,
    FindDuplicates s q lo excludeID = Some at_lo
    /\ FindDuplicates s q hi excludeID = Some at_hi
    /\ forall r, In r at_hi -> In r at_lo.
Proof.
  intros Hth. rewrite !FindDuplicates_unfold. do 2 eexists.
  split; [reflexivity|]. split; [reflexivity|].
  intros r. rewrite !List.filter_In, !keep_duplicate_true.
  intros (Hin & Hid & Hge). repeat split; try assumption.
  eapply f_ge_trans; eassumption.
Qed.

(** ** Providers *)

(** X6.  A successful call of the Hybrid provider never returns an empty
    vector, and the flag it leaves tells which backend answered: when
    Local is still marked usable the provider is unchanged and the one
    request of the call went to Ollama; when it is not, Remote is
    configured and the last request of the call went to OpenAI. *)
Theorem Hybrid_success_names_its_backend (p p' : HybridProvider) (text : string)
    (w w' : World) (v : list float32) :
  Hybrid_GenerateEmbedding p text w = (Ok v, p', w') ->
  v <> []
  /\ (useOllama p' = true ->
      p' = p /\ sent w' = sent w ++ [ollama_request (ollama p) text])
  /\ (useOllama p' = false ->
      exists oa before, openai p = Some oa
                        /\ sent w' = before ++ [openai_request oa text]).
Proof.
  unfold Hybrid_GenerateEmbedding.
  assert (Hfb : forall q w0, Hybrid_fallback q text w0 = (Ok v, p', w') ->
                 useOllama q = false ->
                 v <> [] /\ p' = q
                 /\ exists oa, openai q = Some oa
                               /\ sent w' = sent w0 ++ [openai_request oa text]).
  { intros q w0. unfold Hybrid_fallback.
    destruct (openai q) as [oa|] eqn:Hoa; [|discriminate].
    pose proof (OpenAI_GenerateEmbedding_world oa text w0) as Hw.
    destruct (OpenAI_GenerateEmbedding oa text w0) as [r w1] eqn:Hcall.
    intros [= -> <- <-] Hq.
    destruct (OpenAI_GenerateEmbedding_Ok _ _ _ _ _ Hcall) as (_ & _ & _ & _ & Hne).
    split_and!; [assumption | reflexivity |].
    exists oa. split; [reflexivity|]. simpl in Hw. now rewrite Hw. }
  destruct (useOllama p) eqn:Huse.
  - pose proof (Ollama_GenerateEmbedding_world (ollama p) text w) as Hw.
    destruct (Ollama_GenerateEmbedding (ollama p) text w) as [[v0|e] w1] eqn:Hcall.
    + intros [= -> <- <-].
      destruct (Ollama_GenerateEmbedding_Ok _ _ _ _ _ Hcall) as (_ & _ & _ & Hne).
      split_and!; [assumption | | congruence].
      intros _. split; [reflexivity|]. simpl in Hw. now rewrite Hw.
    + intros Hcall2.
      destruct (Hfb _ _ Hcall2 eq_refl) as (Hne & -> & oa & Hoa & Hsent).
      split_and!; [assumption | discriminate |].
      intros _. exists oa, (sent w1). split; assumption.
  - intros Hcall2. destruct (Hfb _ _ Hcall2 Huse) as (Hne & -> & oa & Hoa & Hsent).
    split_and!; [assumption | congruence |].
    intros _. exists oa, (sent w). split; assumption.
Qed.

(** X7.  If Local is still marked usable at the end of a session of the
    Hybrid provider, then the whole session was served by Local: the
    provider is unchanged, every call succeeded, and the requests sent
    are exactly one Ollama request per text, in order; nothing was sent
    to OpenAI. *)
Theorem Hybrid_session_still_local (p p' : HybridProvider) (texts : list string)
    (w w' : World) (rs : list (result (list float32))) :
  Hybrid_calls p texts w = (rs, p', w') ->
  useOllama p' = true ->
  p' = p
  /\ sent w' = sent w ++ map (ollama_request (ollama p)) texts
  /\ map is_ok rs = map (fun _ => true) texts.
Proof.
  revert w rs. induction texts as [|text texts IH]; intros w rs.
  - simpl. intros [= <- <- <-] _. now rewrite app_nil_r.
  - destruct (useOllama p) eqn:Huse.
    + simpl. unfold Hybrid_GenerateEmbedding. rewrite Huse.
      pose proof (Ollama_GenerateEmbedding_world (ollama p) text w) as Hw.
      destruct (Ollama_GenerateEmbedding (ollama p) text w) as [[v|e] w1].
      * destruct (Hybrid_calls p texts w1) as [[rs1 p1] w2] eqn:Hrest.
        intros [= <- <- <-] Hon.
        destruct (IH _ _ Hrest Hon) as (-> & Hsent & Hok).
        split; [reflexivity|]. simpl in Hw. subst w1.
        split; [|simpl; now rewrite Hok].
        rewrite Hsent. unfold after. simpl. now rewrite <- app_assoc.
      * rewrite Hybrid_fallback_remote. simpl.
        rewrite Hybrid_calls_remote_only by reflexivity.
        intros [= _ <- _]. discriminate.
    + rewrite Hybrid_calls_remote_only by assumption.
      intros [= _ <- _] Hon. congruence.
Qed.

(** X8.  Creating a Hybrid provider makes exactly one request, the
    availability probe [GET <base>/api/tags] of Ollama, and touches no
    file.  Local is marked usable exactly when the probe is answered with
    status 200; Remote is configured exactly when the API key is not
    empty, and then holds that key unchecked. *)
Theorem NewHybridProvider_probes_once (ollamaURL ollamaModel openaiKey openaiModel : string)
    (w : World) :
  let created := NewHybridProvider ollamaURL ollamaModel openaiKey openaiModel w in
  let probe := GetOllamaTags (baseURL (ollama created.1) +:+ "/api/tags") in
  sent created.2 = sent w ++ [probe]
  /\ disk created.2 = disk w
  /\ (useOllama created.1 = true
      <-> exists body, http w (sent w) probe = Response 200 body)
  /\ (openai created.1 = None <-> openaiKey = ""%string)
  /\ (forall oa, openai created.1 = Some oa -> apiKey oa = openaiKey).
Proof.
  unfold NewHybridProvider, Ollama_IsAvailable, http_do. cbv zeta.
  set (o := NewOllamaProvider ollamaURL ollamaModel).
  assert (Hkey : forall q : OpenAIProvider,
            ((if negb (String.eqb openaiKey "") then Some q else None) = None
             <-> openaiKey = ""%string)
            /\ (forall oa, (if negb (String.eqb openaiKey "") then Some q else None) = Some oa
                           -> oa = q)).
  { intros q. destruct (String.eqb_spec openaiKey "") as [Hk|Hk]; simpl.
    - split; [tauto | discriminate].
    - split; [split; [discriminate | contradiction] | congruence]. }
  destruct (http w (sent w) (GetOllamaTags (baseURL o +:+ "/api/tags")))
    as [e|status body] eqn:Hreply;
    cbn [fst snd ollama openai useOllama sent disk with_sent].
  - split_and!; try reflexivity; try apply Hkey.
    + split; [discriminate | intros [? H]; congruence].
    + intros oa Hoa. now apply Hkey in Hoa as ->.
  - split_and!; try reflexivity; try apply Hkey.
    + rewrite Hreply. destruct (Z.eqb_spec status 200) as [->|Hne]; split; eauto; try discriminate.
      intros [? [= ? _]]. contradiction.
    + intros oa Hoa. now apply Hkey in Hoa as ->.
Qed.

(** ** The generator *)

Lemma embed_files_units {P} `{EmbeddingProvider P} files (st : list CodeEmbedding * P * World) :
  fold_left embed_file files st
  = fold_left embed_unit
      (flat_map (fun entry => map (fun fn => (entry.1, Analysis.Language entry.2, fn))
                                  (Analysis.Functions entry.2)) files) st.
Proof.
  revert st. induction files as [|[filePath fa] files IH]; intros st; [reflexivity|].
  cbn [fold_left flat_map]. rewrite fold_left_app, <- IH. f_equal.
  unfold embed_file. cbn [fst snd].
  generalize (Analysis.Functions fa). intros fns. revert st.
  induction fns as [|fn fns IHf]; intros st; [reflexivity|].
  cbn [fold_left map]. apply IHf.
Qed.

Lemma GenerateForAnalysis_units {P} `{EmbeddingProvider P} (g : Generator P) a w :
  GenerateForAnalysis g a w
  = let st := fold_left embed_unit (analysed_units a) ([], provider g, w) in
    (Ok {| Embeddings := st.1.1; Dimension := GetDimension (provider g);
           Provider := GetName (provider g); Version := "1.0" |},
     with_provider g st.1.2, st.2).
Proof.
  unfold GenerateForAnalysis, analysed_units. rewrite embed_files_units.
  now destruct (fold_left embed_unit _ _) as [[embs p1] w1].
Qed.

Lemma embed_unit_cases {P} `{EmbeddingProvider P} embs (p : P) w u :
  let call := GenerateEmbedding p (unit_prompt u) w in
  embed_unit (embs, p, w) u
  = (match call.1.1 with
     | Ok v => embs ++ [entry_of_unit u v]
     | Err _ => embs
     end, call.1.2, call.2).
Proof.
  destruct u as [[filePath language] fn]. unfold embed_unit, embed_function, unit_prompt.
  cbn [fst snd].
  destruct (GenerateEmbedding p (createCodeSnippet fn language) w) as [[[v|e] p1] w1];
    reflexivity.
Qed.

Lemma provider_calls_length {P} `{EmbeddingProvider P} prompts : forall (p : P) w,
  length (provider_calls prompts p w).1.1 = length prompts.
Proof.
  induction prompts as [|prompt rest IH]; intros p w; [reflexivity|].
  cbn [provider_calls].
  destruct (GenerateEmbedding p prompt w) as [[r p1] w1].
  specialize (IH p1 w1).
  destruct (provider_calls rest p1 w1) as [[rs p2] w2].
  cbn [fst snd length] in *. now rewrite IH.
Qed.

Lemma embed_units_calls {P} `{EmbeddingProvider P} units : forall embs (p : P) w,
  let calls := provider_calls (map unit_prompt units) p w in
  fold_left embed_unit units (embs, p, w)
  = (embs ++ answered_entries units calls.1.1, calls.1.2, calls.2).
Proof.
  induction units as [|u units IH]; intros embs p w.
  - cbn. now rewrite app_nil_r.
  - cbn [fold_left map provider_calls]. rewrite embed_unit_cases. cbv zeta.
    destruct (GenerateEmbedding p (unit_prompt u) w) as [[r p1] w1]. cbn [fst snd].
    rewrite IH. cbv zeta.
    destruct (provider_calls (map unit_prompt units) p1 w1) as [[rs p2] w2].
    cbn [fst snd]. destruct r as [v|e]; cbn [answered_entries]; [|reflexivity].
    now rewrite <- app_assoc.
Qed.

(** X9.  Whatever the provider, a build succeeds.  It calls the provider
    once for each analysed function, in the order the loops visit them
    and with the function's prompt, every call on the provider and the
    world the call before it left.  The entries of the index are exactly
    those of the functions whose call returned a vector, in that order:
    a function whose call failed has no entry, every other function has
    one, and it carries the id hashed from the file path, the name and
    the start line, the prompt as [Code] and the vector returned for that
    function.  The index names the dimension and the provider of the
    generator and version 1.0, and the generator keeps the provider the
    last call left. *)
Theorem GenerateForAnalysis_entries_follow_units {P} `{EmbeddingProvider P}
    (g : Generator P) (analysisResult : Analysis.AnalysisResult) (w : World) :
  let units := analysed_units analysisResult in
  let calls := provider_calls (map unit_prompt units) (provider g) w in
  GenerateForAnalysis g analysisResult w
  = (Ok {| Embeddings := answered_entries units calls.1.1;
           Dimension := GetDimension (provider g);
           Provider := GetName (provider g);
           Version := "1.0" |},
     with_provider g calls.1.2, calls.2)
  /\ length calls.1.1 = length units.
Proof.
  intros units calls. split.
  - rewrite GenerateForAnalysis_units. cbv zeta. fold units.
    rewrite embed_units_calls. cbv zeta. reflexivity.
  - unfold calls. rewrite provider_calls_length. apply length_map.
Qed.

Lemma Ollama_embed_units units : forall embs (p : OllamaProvider) w,
  let st := fold_left embed_unit units (embs, p, w) in
  st.1.2 = p
  /\ sent st.2 = sent w ++ map (fun u => ollama_request p (unit_prompt u)) units
  /\ disk st.2 = disk w.
Proof.
  induction units as [|u units IH]; intros embs p w; cbv zeta.
  - simpl. now rewrite app_nil_r.
  - cbn [fold_left]. rewrite embed_unit_cases. cbv zeta.
    change (GenerateEmbedding p (unit_prompt u) w)
      with (let '(r, w1) := Ollama_GenerateEmbedding p (unit_prompt u) w in (r, p, w1)).
    pose proof (Ollama_GenerateEmbedding_world p (unit_prompt u) w) as Hw.
    destruct (Ollama_GenerateEmbedding p (unit_prompt u) w) as [r w1].
    cbn [fst snd] in *. subst w1.
    destruct (IH (match r with Ok v => embs ++ [entry_of_unit u v] | Err _ => embs end)
                 p (after (ollama_request p (unit_prompt u)) w)) as (Hp & Hs & Hd).
    split; [assumption|]. split; [|assumption].
    rewrite Hs. unfold after. simpl. now rewrite <- app_assoc.
Qed.

(** X10.  A build with the Ollama provider posts every analysed function
    to the server exactly once, in the order of the loops and with the
    function's prompt, whether or not earlier requests failed: a failure
    skips one function and does not stop the build.  The build writes no
    file. *)
Theorem GenerateForAnalysis_Ollama_requests (g : Generator OllamaProvider)
    (analysisResult : Analysis.AnalysisResult) (w : World) :
  exists idx w',
    GenerateForAnalysis g analysisResult w = (Ok idx, g, w')
    /\ sent w' = sent w ++ map (fun u => ollama_request (provider g) (unit_prompt u))
                               (analysed_units analysisResult)
    /\ disk w' = disk w.
Proof.
  rewrite GenerateForAnalysis_units. cbv zeta.
  destruct (Ollama_embed_units (analysed_units analysisResult) [] (provider g) w)
    as (Hp & Hs & Hd).
  do 2 eexists. split; [|split; eassumption].
  rewrite Hp. now destruct g.
Qed.

Lemma Hybrid_embed_units_unavailable units : forall (p : HybridProvider) w,
  useOllama p = false -> openai p = None ->
  fold_left embed_unit units ([], p, w) = ([], p, w).
Proof.
  induction units as [|u units IH]; intros p w Hoff Hnone; [reflexivity|].
  cbn [fold_left]. rewrite embed_unit_cases. cbv zeta.
  change (GenerateEmbedding p (unit_prompt u) w)
    with (Hybrid_GenerateEmbedding p (unit_prompt u) w).
  unfold Hybrid_GenerateEmbedding, Hybrid_fallback. rewrite Hoff, Hnone.
  cbn [fst snd]. now apply IH.
Qed.

(** [filepath.Join] cleans what it joins: a root repository, a root with
    a trailing separator, dots and empty elements. *)
Example filepath_Join_samples :
  filepath_Join ["/"; ".katich"; "embeddings.json"]%string
    = "/.katich/embeddings.json"%string
  /\ filepath_Join ["/repo"; ".katich"; "embeddings.json"]%string
    = "/repo/.katich/embeddings.json"%string
  /\ filepath_Join ["/repo/"; ".katich"; "embeddings.json"]%string
    = "/repo/.katich/embeddings.json"%string
  /\ filepath_Join [EmptyString; ".katich"; "embeddings.json"]%string
    = ".katich/embeddings.json"%string
  /\ filepath_Join ["a/../.."; "b"]%string = "../b"%string
  /\ filepath_Join ["/a/../.."; "b//c/"]%string = "/b/c"%string
  /\ filepath_Join [EmptyString; EmptyString] = EmptyString
  /\ filepath_Dir "/.katich/embeddings.json" = "/.katich"%string
  /\ filepath_Dir "a//b" = "a"%string
  /\ filepath_Dir "embeddings.json" = "."%string.
Proof. repeat split; reflexivity. Qed.

(** X11.  With no backend, [katich context build] wipes the saved index.
    When the availability probe of Ollama is not answered with status
    200 and no API key is configured, the embedding stage sends no
    embedding request, and (the directory, the encoding and the write
    succeeding) replaces the file [.katich/embeddings.json] under the
    root (the joined and cleaned path) by the
    encoding of an index with no entry and provider name "None",
    whatever functions the analysis found and whatever index was saved
    before. *)
Theorem runContextBuild_without_backend_saves_empty_index `{Json}
    (forceRebuild incremental : bool) (repoRoot : string)
    (analysisResult : Analysis.AnalysisResult) (w : World) (data : string) :
  let path := filepath_Join [repoRoot; ".katich"; "embeddings.json"]%string in
  (forall body, http w (sent w) ollama_tags_request <> Response 200 body) ->
  mkdir_error w (filepath_Dir path) = None ->
  json_MarshalIndent index_without_backend = Ok data ->
  write_outcome w path data = WriteCompletes ->
  let w' := Cmd.runContextBuild_embeddings forceRebuild incremental repoRoot
              analysisResult "" w in
  sent w' = sent w ++ [ollama_tags_request]
  /\ disk w' = <[path := data]> (disk w).
Proof.
  intros path Hprobe Hmk Hdata Hwr. cbv zeta.
  unfold Cmd.runContextBuild_embeddings.
  assert (Hnew : NewHybridProvider "http://localhost:11434" "nomic-embed-text" ""
                   "text-embedding-3-small" w
                 = ({| ollama := NewOllamaProvider "http://localhost:11434" "nomic-embed-text";
                       openai := None; useOllama := false |},
                    after ollama_tags_request w)).
  { unfold NewHybridProvider, Ollama_IsAvailable, http_do. cbn [negb String.eqb].
    change (GetOllamaTags _) with ollama_tags_request.
    destruct (http w (sent w) ollama_tags_request) as [e|status body] eqn:Hreply;
      [reflexivity|].
    destruct (Z.eqb_spec status 200) as [->|Hne]; [|reflexivity].
    now elim (Hprobe body). }
  rewrite Hnew, GenerateForAnalysis_units. cbv zeta.
  unfold NewGenerator. cbn [provider].
  rewrite Hybrid_embed_units_unavailable by reflexivity. cbn [fst snd].
  change (GetDimension _) with 768. change (GetName _) with "None"%string.
  fold index_without_backend. fold path.
  rewrite (SaveIndex_completes _ _ _ _ data); [ | exact Hmk | exact Hdata | exact Hwr].
  split; reflexivity.
Qed.

Lemma compress_length h block : length h = 8%nat -> length (Sha256.compress h block) = 8%nat.
Proof.
  intros Hh. unfold Sha256.compress. rewrite length_map, length_combine, Hh. reflexivity.
Qed.

Lemma Sum256_state_length blocks : forall h,
  length h = 8%nat -> length (fold_left Sha256.compress blocks h) = 8%nat.
Proof.
  induction blocks as [|b blocks IH]; intros h Hh; [assumption|].
  simpl. apply IH. now apply compress_length.
Qed.

Lemma be_bytes_are_bytes n x : Forall (fun b => 0 <= b < 256) (Sha256.be_bytes n x).
Proof.
  induction n as [|n IH]; simpl; constructor; [|assumption].
  apply Z.mod_pos_bound. lia.
Qed.

Lemma Sum256_bytes msg :
  length (Sha256.Sum256 msg) = 32%nat
  /\ Forall (fun b => 0 <= b < 256) (Sha256.Sum256 msg).
Proof.
  unfold Sha256.Sum256. cbv zeta.
  pose proof (Sum256_state_length
                (Sha256.chunks (length (Sha256.pad msg)) 64 (Sha256.pad msg))
                Sha256.H_init eq_refl) as Hlen.
  destruct (fold_left Sha256.compress _ Sha256.H_init)
    as [|a [|b [|c [|d [|e [|f [|g [|h [|]]]]]]]]]; try discriminate.
  split; [reflexivity|].
  cbn [flat_map]. rewrite !Forall_app, Forall_nil.
  repeat split; apply be_bytes_are_bytes.
Qed.

Lemma hex_char_is_lower_hex d : 0 <= d < 16 -> is_lower_hex (hex_char d) = true.
Proof.
  intros Hd. rewrite <- (Z2Nat.id d) by lia.
  assert (Hn : (Z.to_nat d < 16)%nat) by lia.
  clear Hd. generalize dependent (Z.to_nat d). intros n Hn.
  do 16 (destruct n as [|n]; [reflexivity|]). lia.
Qed.

Lemma fmt_x_format bs :
  Forall (fun b => 0 <= b < 256) bs ->
  String.length (fmt_x bs) = (2 * length bs)%nat
  /\ forallb is_lower_hex (list_ascii_of_string (fmt_x bs)) = true.
Proof.
  induction 1 as [|b bs Hb _ [IHl IHf]]; [split; reflexivity|].
  cbn [fmt_x String.length list_ascii_of_string forallb length]. split; [lia|].
  rewrite IHf, !hex_char_is_lower_hex; [reflexivity| |].
  - apply Z.mod_pos_bound. lia.
  - split; [apply Z.div_pos; lia | apply Z.div_lt_upper_bound; lia].
Qed.

(** X12.  The identifier of a unit is always 16 lower-case hexadecimal
    characters (the first 8 bytes of the SHA-256 of
    [path:name:line]), whatever the path, the name and the line. *)
Theorem generateID_is_16_hex_characters (filePath funcName : string) (startLine : Z) :
  String.length (generateID filePath funcName startLine) = 16%nat
  /\ forallb is_lower_hex (list_ascii_of_string (generateID filePath funcName startLine))
     = true.
Proof.
  unfold generateID. cbv zeta.
  destruct (Sum256_bytes (bytes_of_string (filePath +:+ ":" +:+ funcName +:+ ":"
                                             +:+ fmt_d startLine))) as [Hlen Hbytes].
  destruct (fmt_x_format (firstn 8 (Sha256.Sum256 (bytes_of_string
              (filePath +:+ ":" +:+ funcName +:+ ":" +:+ fmt_d startLine)))))
    as [Hl Hf].
  { apply List.Forall_forall. intros b Hb. apply firstn_In in Hb.
    revert b Hb. now apply List.Forall_forall. }
  split; [|exact Hf].
  rewrite Hl, length_firstn, Hlen. reflexivity.
Qed.

(** ** Persistence *)


(** ** Naming a score, searching by code *)

(** X14.  Every duplicate reported by a detector whose threshold is the
    default (a threshold of zero was given) or any threshold of at least
    0.85 is named "Nearly Identical" or "Very Similar" by
    [GetSimilarityLevel]: the two functions compare against the same
    [float32] constant. *)
Theorem DetectDuplicates_results_are_very_similar {P} `{EmbeddingProvider P} `{SliceSorter}
    (idx : EmbeddingIndex) (p : P) (th : float32) (code filePath funcName : string)
    (w w' : World) (d' : DuplicateDetector P) (results : list SimilarityResult) :
  f_eq th fzero = true \/ f_ge th f32_0_85 = true ->
  DetectDuplicates (NewDuplicateDetector idx p th) code filePath funcName w
  = (Some (Ok results), d', w') ->
  Forall (fun r => GetSimilarityLevel (Similarity r) = "Nearly Identical"%string
                   \/ GetSimilarityLevel (Similarity r) = "Very Similar"%string) results.
Proof.
  intros Hth. unfold DetectDuplicates.
  destruct (GenerateEmbedding _ code w) as [[[v|e] p1] w1]; [|discriminate].
  rewrite FindDuplicates_unfold. intros [= <- _ _].
  apply List.Forall_forall. intros r Hr.
  apply List.filter_In in Hr as [Hr _].
  apply List.filter_In in Hr as [_ Hkeep].
  apply keep_duplicate_true in Hkeep as [_ Hge].
  assert (Hge' : f_ge (Similarity r) f32_0_85 = true).
  { unfold NewDuplicateDetector in Hge. cbn [threshold] in Hge.
    destruct (f_eq th fzero) eqn:Hz; [assumption|].
    destruct Hth as [|Hth]; [discriminate|].
    eapply f_ge_trans; eassumption. }
  unfold GetSimilarityLevel. rewrite Hge'.
  destruct (f_ge (Similarity r) f32_0_95); auto.
Qed.

(** X15.  [GetSimilarityLevel] is monotone: a score that is at least
    another score never gets a weaker level
    (Different < Somewhat Similar < Similar < Very Similar < Nearly
    Identical).  A NaN score is named "Different". *)
Theorem GetSimilarityLevel_monotone (s1 s2 : float32) :
  (f_ge s1 s2 = true ->
   level_rank (GetSimilarityLevel s2) <= level_rank (GetSimilarityLevel s1))
  /\ (is_nan s1 = true -> GetSimilarityLevel s1 = "Different"%string).
Proof.
  split.
  - intros Hge.
    assert (Hup : forall c, f_ge s2 c = true -> f_ge s1 c = true)
      by (intros c Hc; eapply f_ge_trans; eassumption).
    unfold GetSimilarityLevel.
    destruct (f_ge s2 f32_0_95) eqn:H95; [rewrite (Hup _ H95); reflexivity|].
    destruct (f_ge s2 f32_0_85) eqn:H85;
      [rewrite (Hup _ H85); destruct (f_ge s1 f32_0_95); vm_compute; discriminate|].
    destruct (f_ge s2 f32_0_75) eqn:H75;
      [rewrite (Hup _ H75);
       destruct (f_ge s1 f32_0_95), (f_ge s1 f32_0_85); vm_compute; discriminate|].
    destruct (f_ge s2 f32_0_60) eqn:H60;
      [rewrite (Hup _ H60);
       destruct (f_ge s1 f32_0_95), (f_ge s1 f32_0_85), (f_ge s1 f32_0_75);
       vm_compute; discriminate|].
    destruct (f_ge s1 f32_0_95), (f_ge s1 f32_0_85), (f_ge s1 f32_0_75),
      (f_ge s1 f32_0_60); vm_compute; discriminate.
  - destruct s1; try discriminate. reflexivity.
Qed.

(** X16.  [SearchByCode] with [topK >= 0] never panics.  When the
    provider fails, it returns the provider's error wrapped in "failed
    to generate query embedding" and does not search; when the provider
    answers with a vector, it returns the [min(topK, n)] results of
    [Search] for that vector, each an index entry scored against it. *)
Theorem SearchByCode_nonnegative_topK {P} `{EmbeddingProvider P} `{SliceSorter}
    (s : SimilaritySearch) (p : P) (code : string) (topK : Z) (w : World) :
  0 <= topK ->
  let call := GenerateEmbedding p code w in
  exists outcome,
    SearchByCode s p code topK w = (Some outcome, call.1.2, call.2)
    /\ match call.1.1 with
       | Err e => outcome = Err (Wrap "failed to generate query embedding" e)
       | Ok v =>
           exists results,
             outcome = Ok results
             /\ Search s v topK = Some results
             /\ len results = Z.min topK (len (Embeddings (index s)))
             /\ Forall (fun r => In (Entry r) (Embeddings (index s))
                                 /\ r = score v (Entry r)) results
       end.
Proof.
  intros Hk. cbv zeta. unfold SearchByCode.
  destruct (GenerateEmbedding p code w) as [[[v|e] p1] w1]; cbn [fst snd].
  - pose proof (Search_nonneg s v topK Hk) as Hs. rewrite Hs.
    eexists. split; [reflexivity|]. eexists. split; [reflexivity|].
    split; [reflexivity|]. split.
    + unfold len. rewrite length_firstn.
      pose proof (ranking_len s v) as Hl. unfold len in Hl. lia.
    + apply List.Forall_forall. intros r Hr.
      exact (Search_results_scored s v topK _ r Hs Hr).
  - eexists. split; reflexivity.
Qed.

(** ** Metrics of a source text *)

Lemma get_lookup s : forall n, String.get n s = list_ascii_of_string s !! n.
Proof.
  induction s as [|c s IH]; intros [|n]; simpl; auto.
Qed.

Lemma substring_take_drop s : forall n m,
  list_ascii_of_string (String.substring n m s) = take m (drop n (list_ascii_of_string s)).
Proof.
  induction s as [|c s IH]; intros [|n] [|m]; simpl; auto; now rewrite IH.
Qed.

Lemma length_list_ascii s : length (list_ascii_of_string s) = String.length s.
Proof. induction s; simpl; auto. Qed.

Lemma list_ascii_append s t :
  list_ascii_of_string (s +:+ t) = list_ascii_of_string s ++ list_ascii_of_string t.
Proof. induction s as [|c s IH]; simpl; [reflexivity|]. now rewrite IH. Qed.

Lemma list_ascii_inj s t : list_ascii_of_string s = list_ascii_of_string t -> s = t.
Proof.
  intros H. rewrite <- (string_of_list_ascii_of_string s), <- (string_of_list_ascii_of_string t).
  now rewrite H.
Qed.

Lemma rune_at_blank s i :
  match Metrics.rune_at s i with Some r => Metrics.isWhitespace r | None => false end
  = blank_at (list_ascii_of_string s) i.
Proof.
  unfold Metrics.rune_at, blank_at. rewrite get_lookup.
  now destruct (list_ascii_of_string s !! i).
Qed.

Lemma trim_leading_spec s : forall fuel start,
  (String.length s - start <= fuel)%nat ->
  let k := Metrics.trim_leading fuel s start in
  (start <= k)%nat /\ (start <= String.length s -> k <= String.length s)%nat
  /\ (forall i, start <= i < k -> blank_at (list_ascii_of_string s) i = true)%nat
  /\ blank_at (list_ascii_of_string s) k = false.
Proof.
  induction fuel as [|fuel IH]; intros start Hfuel; cbv zeta.
  - simpl. split_and!; try lia.
    unfold blank_at. rewrite lookup_ge_None_2; [reflexivity|]. rewrite length_list_ascii. lia.
  - simpl. pose proof (rune_at_blank s start) as Hb.
    destruct (Metrics.rune_at s start) as [r|] eqn:Hr.
    + assert (Hlt : (start < String.length s)%nat).
      { unfold Metrics.rune_at in Hr. rewrite get_lookup in Hr.
        destruct (list_ascii_of_string s !! start) eqn:Hl; [|discriminate].
        apply lookup_lt_Some in Hl. now rewrite length_list_ascii in Hl. }
      destruct (Metrics.isWhitespace r).
      * destruct (IH (S start)) as (H1 & H2 & H3 & H4); [lia|].
        split_and!; try lia; [|assumption].
        intros i Hi. destruct (decide (i = start)) as [->|]; [now symmetry|].
        apply H3. lia.
      * split_and!; try lia. now symmetry.
    + split_and!; try lia. now symmetry.
Qed.

Lemma trim_trailing_spec s start : forall fuel end_,
  (end_ - start <= fuel)%nat ->
  let e := Metrics.trim_trailing fuel s start end_ in
  (e <= end_)%nat /\ (start <= end_ -> start <= e)%nat
  /\ (forall i, e <= i < end_ -> blank_at (list_ascii_of_string s) i = true)%nat
  /\ (start < e -> blank_at (list_ascii_of_string s) (e - 1) = false)%nat.
Proof.
  induction fuel as [|fuel IH]; intros end_ Hfuel; cbv zeta.
  - simpl. split_and!; lia.
  - simpl. destruct (Nat.ltb_spec start end_) as [Hlt|Hge]; [|split_and!; lia].
    pose proof (rune_at_blank s (end_ - 1)) as Hb.
    destruct (Metrics.rune_at s (end_ - 1)) as [r|] eqn:Hr.
    + destruct (Metrics.isWhitespace r).
      * destruct (IH (end_ - 1)%nat) as (H1 & H2 & H3 & H4); [lia|].
        split_and!; try lia; [|assumption].
        intros i Hi. destruct (decide (i = end_ - 1)%nat) as [->|]; [now symmetry|].
        apply H3. lia.
      * split_and!; try lia. intros _. now symmetry.
    + split_and!; try lia. intros _. now symmetry.
Qed.

Lemma blank_range_forallb (l : list ascii) a b :
  (forall i, a <= i < b -> blank_at l i = true)%nat ->
  forallb blank_byte (take (b - a) (drop a l)) = true.
Proof.
  intros Hblank. apply forallb_forall. intros c Hc.
  apply list_elem_of_In, list_elem_of_lookup in Hc as [i Hi].
  apply lookup_take_Some in Hi as [Hi Hlt].
  rewrite lookup_drop in Hi.
  specialize (Hblank (a + i)%nat ltac:(lia)). unfold blank_at in Hblank.
  now rewrite Hi in Hblank.
Qed.

Lemma forallb_blank_at (l : list ascii) i :
  forallb blank_byte l = true -> (i < length l)%nat -> blank_at l i = true.
Proof.
  intros Hall Hi. unfold blank_at.
  destruct (l !! i) as [c|] eqn:Hc.
  - rewrite forallb_forall in Hall. apply Hall.
    apply list_elem_of_In, list_elem_of_lookup. eauto.
  - apply lookup_ge_None in Hc. lia.
Qed.

(** The two indices [trimWhitespace] cuts at. *)
Lemma trimWhitespace_cut s :
  exists k e : nat,
    Metrics.trimWhitespace s = String.substring k (e - k) s
    /\ (k <= e <= String.length s)%nat
    /\ (forall i, i < k -> blank_at (list_ascii_of_string s) i = true)%nat
    /\ (forall i, e <= i < String.length s -> blank_at (list_ascii_of_string s) i = true)%nat
    /\ blank_at (list_ascii_of_string s) k = false
    /\ (k < e -> blank_at (list_ascii_of_string s) (e - 1) = false)%nat.
Proof.
  unfold Metrics.trimWhitespace. cbv zeta.
  destruct (trim_leading_spec s (String.length s) 0 ltac:(lia)) as (_ & Hk & Hpre & Hat).
  set (k := Metrics.trim_leading (String.length s) s 0) in *.
  destruct (trim_trailing_spec s k (String.length s) (String.length s) ltac:(lia))
    as (He1 & He2 & Hpost & Hlast).
  set (e := Metrics.trim_trailing (String.length s) s k (String.length s)) in *.
  exists k, e. split_and!; try reflexivity; try assumption; try lia.
  intros i Hi. apply Hpre. lia.
Qed.

Lemma trimWhitespace_fixed t :
  blank_at (list_ascii_of_string t) 0 = false ->
  blank_at (list_ascii_of_string t) (String.length t - 1) = false ->
  Metrics.trimWhitespace t = t.
Proof.
  intros Hfirst Hlast.
  destruct (trimWhitespace_cut t) as (k & e & -> & Hke & Hpre & Hpost & _ & _).
  assert (k = 0%nat) as ->.
  { destruct k; [reflexivity|]. rewrite Hpre in Hfirst by lia. discriminate. }
  assert (e = String.length t) as ->.
  { destruct (decide (e = String.length t)) as [|Hne]; [assumption|].
    rewrite Hpost in Hlast by lia. discriminate. }
  apply list_ascii_inj. rewrite substring_take_drop, Nat.sub_0_r. simpl.
  apply take_ge. now rewrite length_list_ascii.
Qed.

Lemma trimWhitespace_empty_iff s :
  Metrics.trimWhitespace s = ""%string <-> all_blank s = true.
Proof.
  destruct (trimWhitespace_cut s) as (k & e & Ht & Hke & Hpre & Hpost & Hat & Hlast).
  set (l := list_ascii_of_string s) in *.
  assert (Hlen : length l = String.length s) by apply length_list_ascii.
  assert (Hlt : list_ascii_of_string (Metrics.trimWhitespace s) = take (e - k) (drop k l))
    by (rewrite Ht; apply substring_take_drop).
  split.
  - intros Hempty. rewrite Hempty in Hlt. simpl in Hlt.
    assert (Hek : e = k \/ (String.length s <= k)%nat).
    { destruct (decide (e = k)); [now left|right].
      symmetry in Hlt. apply (f_equal length) in Hlt.
      rewrite length_take, length_drop in Hlt. simpl in Hlt. lia. }
    unfold all_blank. fold l. apply forallb_forall. intros c Hc.
    apply list_elem_of_In, list_elem_of_lookup in Hc as [i Hi].
    pose proof (lookup_lt_Some _ _ _ Hi) as Hil.
    assert (Hb : blank_at l i = true).
    { destruct (decide (i < k)%nat); [now apply Hpre|]. apply Hpost. lia. }
    unfold blank_at in Hb. now rewrite Hi in Hb.
  - intros Hall. unfold all_blank in Hall. fold l in Hall.
    assert (Hk : k = String.length s).
    { destruct (decide (k = String.length s)); [assumption|].
      rewrite (forallb_blank_at l k Hall) in Hat by lia. discriminate. }
    apply list_ascii_inj. rewrite Hlt. simpl.
    replace (e - k)%nat with 0%nat by lia. reflexivity.
Qed.

(** X17.  [trimWhitespace] removes exactly the leading and the trailing
    blanks (space, tab, carriage return, line feed) of a string: the
    string is a run of blanks, the result, and a run of blanks; the
    result neither starts nor ends with a blank; and trimming the result
    again changes nothing.  The result is empty exactly when the string
    consists of blanks only. *)
Theorem trimWhitespace_strips_the_blanks (s : string) :
  let t := Metrics.trimWhitespace s in
  (exists pre post,
     s = pre +:+ t +:+ post /\ all_blank pre = true /\ all_blank post = true)
  /\ (forall c rest, t = String c rest -> blank_byte c = false)
  /\ (forall front c, t = front +:+ String c "" -> blank_byte c = false)
  /\ Metrics.trimWhitespace t = t
  /\ (t = ""%string <-> all_blank s = true).
Proof.
  cbv zeta.
  destruct (trimWhitespace_cut s) as (k & e & Ht & Hke & Hpre & Hpost & Hat & Hlast).
  set (l := list_ascii_of_string s) in *.
  assert (Hlen : length l = String.length s) by apply length_list_ascii.
  assert (Hlt : list_ascii_of_string (Metrics.trimWhitespace s) = take (e - k) (drop k l))
    by (rewrite Ht; apply substring_take_drop).
  assert (Hfirst : forall c rest, Metrics.trimWhitespace s = String c rest ->
                                  blank_byte c = false).
  { intros c rest Heq. rewrite Heq in Hlt. simpl in Hlt.
    assert (Hc : take (e - k) (drop k l) !! 0%nat = Some c) by now rewrite <- Hlt.
    apply lookup_take_Some in Hc as [Hc _]. rewrite lookup_drop, Nat.add_0_r in Hc.
    unfold blank_at in Hat. now rewrite Hc in Hat. }
  assert (Hend : forall front c, Metrics.trimWhitespace s = front +:+ String c "" ->
                                 blank_byte c = false).
  { intros front c Heq. rewrite Heq, list_ascii_append in Hlt. simpl in Hlt.
    assert (Hn : length (list_ascii_of_string front ++ [c]) = (e - k)%nat).
    { rewrite Hlt, length_take, length_drop. lia. }
    rewrite length_app in Hn. simpl in Hn.
    assert (Hc : take (e - k) (drop k l) !! length (list_ascii_of_string front) = Some c).
    { rewrite <- Hlt. rewrite lookup_app_r by lia. now rewrite Nat.sub_diag. }
    apply lookup_take_Some in Hc as [Hc _]. rewrite lookup_drop in Hc.
    replace (k + length (list_ascii_of_string front))%nat with (e - 1)%nat in Hc by lia.
    specialize (Hlast ltac:(lia)). unfold blank_at in Hlast. now rewrite Hc in Hlast. }
  split_and!.
  - exists (String.substring 0 k s), (String.substring e (String.length s - e) s).
    split_and!.
    + apply list_ascii_inj. rewrite !list_ascii_append, Hlt, !substring_take_drop.
      fold l. rewrite drop_0.
      rewrite <- (take_drop k l) at 1. f_equal.
      rewrite <- (take_drop (e - k) (drop k l)) at 1. f_equal.
      rewrite drop_drop. replace (k + (e - k))%nat with e by lia.
      symmetry. apply take_ge. rewrite length_drop. lia.
    + unfold all_blank. rewrite substring_take_drop. fold l.
      replace k with (k - 0)%nat at 1 by lia.
      apply blank_range_forallb. intros i Hi. apply Hpre. lia.
    + unfold all_blank. rewrite substring_take_drop. fold l.
      apply blank_range_forallb. intros i Hi. apply Hpost. lia.
  - exact Hfirst.
  - exact Hend.
  - apply trimWhitespace_fixed.
    + unfold blank_at.
      destruct (list_ascii_of_string (Metrics.trimWhitespace s)) as [|c rest] eqn:Hl;
        [reflexivity|].
      simpl. apply (Hfirst c (string_of_list_ascii rest)).
      apply list_ascii_inj. simpl. now rewrite list_ascii_of_string_of_list_ascii.
    + unfold blank_at.
      destruct (list_ascii_of_string (Metrics.trimWhitespace s) !! _) as [c|] eqn:Hc;
        [|reflexivity].
      rewrite <- length_list_ascii in Hc.
      destruct (list_ascii_of_string (Metrics.trimWhitespace s)) as [|c0 rest] eqn:Hl
        using rev_ind; [discriminate|].
      rewrite length_app in Hc. simpl in Hc.
      rewrite lookup_app_r in Hc by lia.
      replace (length rest + 1 - 1 - length rest)%nat with 0%nat in Hc by lia.
      simpl in Hc. injection Hc as <-.
      apply (Hend (string_of_list_ascii rest) c0).
      apply list_ascii_inj. rewrite list_ascii_append. simpl.
      now rewrite list_ascii_of_string_of_list_ascii.
  - apply trimWhitespace_empty_iff.
Qed.

Lemma count_line_step m line :
  0 <= Metrics.LinesOfCode m -> 0 <= Metrics.LinesOfComments m -> 0 <= Metrics.BlankLines m ->
  Metrics.LinesOfCode m + Metrics.LinesOfComments m + Metrics.BlankLines m + 1 <= int_max ->
  let m' := Metrics.count_line m line in
  Metrics.LinesOfCode m' + Metrics.LinesOfComments m' + Metrics.BlankLines m'
  = Metrics.LinesOfCode m + Metrics.LinesOfComments m + Metrics.BlankLines m + 1
  /\ Metrics.BlankLines m'
     = Metrics.BlankLines m
       + (if String.eqb (Metrics.trimWhitespace line) "" then 1 else 0)
  /\ 0 <= Metrics.LinesOfCode m' /\ 0 <= Metrics.LinesOfComments m'
  /\ 0 <= Metrics.BlankLines m'
  /\ Metrics.CyclomaticComplexity m' = Metrics.CyclomaticComplexity m
  /\ Metrics.FunctionCount m' = Metrics.FunctionCount m
  /\ Metrics.ClassCount m' = Metrics.ClassCount m
  /\ Metrics.ImportCount m' = Metrics.ImportCount m
  /\ Metrics.MaxFunctionLength m' = Metrics.MaxFunctionLength m
  /\ Metrics.AvgFunctionLength m' = Metrics.AvgFunctionLength m.
Proof.
  intros Hc Hm Hb Hmax. cbv zeta. unfold Metrics.count_line. cbv zeta.
  assert (Hint : int_min < 0) by (vm_compute; reflexivity).
  destruct (String.eqb (Metrics.trimWhitespace line) "");
    [|destruct (Metrics.isComment (Metrics.trimWhitespace line))];
    cbn; rewrite int_add_exact by lia; split_and!; try reflexivity; lia.
Qed.

Lemma count_line_counters (lines : list string) : forall m,
  0 <= Metrics.LinesOfCode m -> 0 <= Metrics.LinesOfComments m -> 0 <= Metrics.BlankLines m ->
  Metrics.LinesOfCode m + Metrics.LinesOfComments m + Metrics.BlankLines m + len lines
    <= int_max ->
  let m' := fold_left Metrics.count_line lines m in
  Metrics.LinesOfCode m' + Metrics.LinesOfComments m' + Metrics.BlankLines m'
  = Metrics.LinesOfCode m + Metrics.LinesOfComments m + Metrics.BlankLines m + len lines
  /\ Metrics.BlankLines m'
     = Metrics.BlankLines m
       + len (List.filter (fun line => String.eqb (Metrics.trimWhitespace line) "") lines)
  /\ 0 <= Metrics.LinesOfCode m' /\ 0 <= Metrics.LinesOfComments m'
  /\ Metrics.CyclomaticComplexity m' = Metrics.CyclomaticComplexity m
  /\ Metrics.FunctionCount m' = Metrics.FunctionCount m
  /\ Metrics.ClassCount m' = Metrics.ClassCount m
  /\ Metrics.ImportCount m' = Metrics.ImportCount m
  /\ Metrics.MaxFunctionLength m' = Metrics.MaxFunctionLength m
  /\ Metrics.AvgFunctionLength m' = Metrics.AvgFunctionLength m.
Proof.
  induction lines as [|line lines IH]; intros m Hc Hm Hb Hmax; cbv zeta.
  - unfold len. simpl. split_and!; try reflexivity; lia.
  - assert (Hlen : len (line :: lines) = 1 + len lines) by (unfold len; simpl length; lia).
    pose proof (len_nonneg lines) as Hnn.
    destruct (count_line_step m line Hc Hm Hb ltac:(lia))
      as (S1 & S2 & S3 & S4 & S5 & S6 & S7 & S8 & S9 & S10 & S11).
    cbn [fold_left]. 
    destruct (IH (Metrics.count_line m line) S3 S4 S5 ltac:(lia))
      as (H1 & H2 & H3 & H4 & H5 & H6 & H7 & H8 & H9 & H10).
    assert (Hf : len (List.filter (fun l0 => String.eqb (Metrics.trimWhitespace l0) "")
                        (line :: lines))
                 = (if String.eqb (Metrics.trimWhitespace line) "" then 1 else 0)
                   + len (List.filter (fun l0 => String.eqb (Metrics.trimWhitespace l0) "")
                            lines)).
    { cbn [List.filter]. destruct (String.eqb (Metrics.trimWhitespace line) "");
        unfold len; simpl length; lia. }
    split_and!; try congruence; lia.
Qed.

Lemma newlines_app l1 l2 : newlines (l1 ++ l2) = newlines l1 + newlines l2.
Proof. unfold newlines, len. rewrite List.filter_app, length_app. lia. Qed.

Lemma newlines_cons b l : newlines (b :: l) = (if b =? 10 then 1 else 0) + newlines l.
Proof.
  unfold newlines, len. cbn [List.filter]. rewrite (Z.eqb_sym 10 b).
  destruct (b =? 10); simpl length; lia.
Qed.

Lemma newlines_none l : Forall (fun b => b <> 10) l -> newlines l = 0.
Proof.
  induction 1 as [|b l Hb _ IH]; [reflexivity|].
  rewrite newlines_cons, IH. destruct (Z.eqb_spec b 10); [contradiction|reflexivity].
Qed.

Lemma land_low_bits b n : 0 <= n -> Z.land b (Z.ones n) = b mod 2 ^ n.
Proof. intros. now apply Z.land_ones. Qed.

(** A line feed is decoded from the byte [0x0A] alone, and no encoding
    of several bytes holds that byte. *)
Lemma DecodeRune_newline b0 rest :
  let '(r, w) := Utf8.DecodeRune (b0 :: rest) in
  (r =? 10) = (b0 =? 10)
  /\ (w = 1%nat
      \/ ((1 < w <= length (b0 :: rest))%nat /\ b0 <> 10
          /\ Forall (fun b => b <> 10) (take (w - 1) rest))).
Proof.
  unfold Utf8.DecodeRune, Utf8.between. cbv zeta.
  change 31 with (Z.ones 5). change 63 with (Z.ones 6).
  change 15 with (Z.ones 4). change 7 with (Z.ones 3).
  rewrite !land_low_bits by lia.
  change (2 ^ 5) with 32. change (2 ^ 6) with 64. change (2 ^ 4) with 16.
  change (2 ^ 3) with 8.
  assert (Herr : (Utf8.RuneError =? 10) = false) by reflexivity.
  destruct (Z.ltb_spec b0 128) as [Hlow|Hhigh]; [split; [reflexivity | now left]|].
  assert (Hb0 : (b0 =? 10) = false) by (apply Z.eqb_neq; lia).
  rewrite Hb0.
  destruct (Z.eqb_spec b0 224), (Z.eqb_spec b0 237), (Z.eqb_spec b0 240),
    (Z.eqb_spec b0 244); try lia;
  repeat match goal with
         | |- context [if ?c then _ else _] =>
             lazymatch c with
             | (_ <=? _) && _ => destruct c eqn:?
             | (_ && _) && _ => destruct c eqn:?
             | _ =? _ => destruct c eqn:?
             end
         | |- context [match ?l with [] => _ | _ :: _ => _ end] =>
             is_var l; destruct l
         end;
    try (split; [exact Herr | now left]);
    repeat match goal with
           | H : _ && _ = true |- _ => apply andb_prop in H as [? ?]
           | H : (_ <=? _) = true |- _ => apply Z.leb_le in H
           | H : (_ =? _) = true |- _ => apply Z.eqb_eq in H
           | H : (_ =? _) = false |- _ => apply Z.eqb_neq in H
           end;
    rewrite ?land_low_bits by lia; change (2 ^ 6) with 64;
    (split; [apply Z.eqb_neq; Z.div_mod_to_equations; lia|]);
    right; (split; [simpl; lia|]); (split; [lia|]);
    cbn [take Nat.sub]; repeat constructor; lia.
Qed.

Lemma open_last_line_cons x l :
  open_last_line (x :: l) = match l with [] => negb (x =? 10) | _ => open_last_line l end.
Proof. unfold open_last_line. destruct l as [|y l]; [reflexivity|]. now rewrite last_cons_cons. Qed.

Lemma open_last_line_app l1 l2 :
  l2 <> [] -> open_last_line (l1 ++ l2) = open_last_line l2.
Proof.
  intros Hne. unfold open_last_line. rewrite last_app.
  destruct (last l2) eqn:Hl; [reflexivity|]. apply last_None in Hl. contradiction.
Qed.

Lemma open_last_line_all l :
  l <> [] -> Forall (fun b => b <> 10) l -> open_last_line l = true.
Proof.
  intros Hne Hall. unfold open_last_line.
  destruct (last l) as [b|] eqn:Hl; [|apply last_None in Hl; contradiction].
  apply last_Some_elem_of in Hl. rewrite List.Forall_forall in Hall.
  apply list_elem_of_In, Hall in Hl. now apply negb_true_iff, Z.eqb_neq.
Qed.

Lemma runes_newlines : forall fuel bs, (length bs <= fuel)%nat ->
  newlines (Utf8.runes fuel bs) = newlines bs
  /\ open_last_line (Utf8.runes fuel bs) = open_last_line bs
  /\ (Utf8.runes fuel bs = [] <-> bs = []).
Proof.
  induction fuel as [|fuel IH]; intros bs Hlen.
  - destruct bs; [|simpl in Hlen; lia]. simpl. tauto.
  - destruct bs as [|b0 rest]; [simpl; tauto|].
    cbn [Utf8.runes]. pose proof (DecodeRune_newline b0 rest) as Hd.
    destruct (Utf8.DecodeRune (b0 :: rest)) as [r w]. destruct Hd as [Hr Hw].
    simpl in Hlen.
    destruct Hw as [->|(Hw & Hb0 & Hall)].
    + change (skipn 1 (b0 :: rest)) with rest.
      destruct (IH rest ltac:(lia)) as (Hn & Ho & He).
      rewrite !newlines_cons, !open_last_line_cons, Hn, Hr, Ho.
      split_and!; [reflexivity | | split; discriminate].
      destruct rest as [|b1 rest'].
      * destruct (Utf8.runes fuel []) eqn:Hrs; [reflexivity|].
        destruct He as [_ He]. now specialize (He eq_refl).
      * destruct (Utf8.runes fuel (b1 :: rest')) eqn:Hrs; [|reflexivity].
        destruct He as [He _]. now specialize (He eq_refl).
    + destruct w as [|w']; [lia|].
      change (skipn (S w') (b0 :: rest)) with (skipn w' rest). simpl in Hw.
      replace (S w' - 1)%nat with w' in Hall by lia.
      destruct (IH (skipn w' rest) ltac:(rewrite length_skipn; lia)) as (Hn & Ho & He).
      assert (Hr10 : (r =? 10) = false) by (rewrite Hr; now apply Z.eqb_neq).
      rewrite newlines_cons, open_last_line_cons, Hn, Hr10. simpl negb.
      assert (Htake : take w' rest <> []).
      { intros Heq. apply (f_equal length) in Heq. rewrite length_take in Heq.
        simpl in Heq. lia. }
      split_and!; [| |split; discriminate].
      * rewrite <- (take_drop w' rest) at 2.
        rewrite newlines_cons, newlines_app, (newlines_none _ Hall).
        destruct (Z.eqb_spec b0 10); [contradiction|]. reflexivity.
      * rewrite <- (take_drop w' rest) at 2.
        destruct (skipn w' rest) as [|t ts] eqn:Htail.
        -- replace (Utf8.runes fuel []) with (@nil Z) by (symmetry; now apply He).
           rewrite ?app_nil_r.
           symmetry. apply open_last_line_all; [discriminate|].
           constructor; assumption.
        -- destruct (Utf8.runes fuel (t :: ts)) eqn:Hrs;
             [destruct He as [He _]; now specialize (He eq_refl)|].
           rewrite Ho.
           symmetry. apply (open_last_line_app (b0 :: take w' rest)). discriminate.
Qed.

Lemma EncodeRune_nonempty r : Utf8.EncodeRune r <> [].
Proof.
  unfold Utf8.EncodeRune.
  repeat match goal with |- context [if ?c then _ else _] => destruct c end; discriminate.
Qed.

Lemma append_rune_nonempty cur r : String.eqb (cur +:+ Utf8.string_of_rune r) "" = false.
Proof.
  apply String.eqb_neq. intros Heq. apply (f_equal list_ascii_of_string) in Heq.
  rewrite list_ascii_append in Heq. simpl in Heq. apply app_eq_nil in Heq as [_ Heq].
  unfold Utf8.string_of_rune, Strings.string_of_bytes in Heq.
  rewrite list_ascii_of_string_of_list_ascii in Heq.
  apply map_eq_nil in Heq. now apply EncodeRune_nonempty in Heq.
Qed.

Lemma splitLines_fold rs : forall lines cur,
  let st := fold_left Metrics.splitLines_step rs (lines, cur) in
  len st.1 = len lines + newlines rs
  /\ String.eqb st.2 "" = match last rs with
                          | Some r => r =? 10
                          | None => String.eqb cur ""
                          end.
Proof.
  induction rs as [|ch rs IH]; intros lines cur; cbv zeta.
  - simpl. unfold newlines, len. simpl. split; [lia | reflexivity].
  - cbn [fold_left]. unfold Metrics.splitLines_step at 2 4.
    rewrite newlines_cons.
    destruct (Z.eqb_spec ch 10) as [->|Hne].
    + destruct (IH (lines ++ [cur]) ""%string) as [H1 H2]. rewrite H1, H2.
      split; [unfold len; rewrite length_app; simpl; lia|].
      destruct rs as [|r2 rs']; [reflexivity|]. rewrite last_cons_cons.
      destruct (last (r2 :: rs')) eqn:Hl; [reflexivity|].
      apply last_None in Hl. discriminate.
    + destruct (IH lines (cur +:+ Utf8.string_of_rune ch)) as [H1 H2]. rewrite H1, H2.
      split; [lia|]. rewrite append_rune_nonempty.
      destruct rs as [|r2 rs'].
      * simpl. symmetry. now apply Z.eqb_neq.
      * rewrite last_cons_cons. destruct (last (r2 :: rs')) eqn:Hl; [reflexivity|].
        apply last_None in Hl. discriminate.
Qed.

Lemma splitLines_len content :
  len (Metrics.splitLines content)
  = newlines (bytes_of_string content)
    + (if open_last_line (bytes_of_string content) then 1 else 0).
Proof.
  unfold Metrics.splitLines, Utf8.range_string.
  assert (Hlen : (length (bytes_of_string content) <= String.length content)%nat).
  { unfold bytes_of_string. now rewrite length_map, length_list_ascii. }
  destruct (runes_newlines _ _ Hlen) as (Hn & Ho & _).
  set (rs := Utf8.runes _ _) in *.
  destruct (splitLines_fold rs [] ""%string) as [H1 H2].
  destruct (fold_left Metrics.splitLines_step rs ([], ""%string)) as [lines cur].
  cbn [fst snd] in H1, H2. change (len (@nil string)) with 0 in H1. rewrite <- Hn, <- Ho.
  unfold open_last_line. rewrite H2.
  destruct (last rs) as [r|]; simpl.
  - destruct (r =? 10); simpl; [lia|]. unfold len in *. rewrite length_app. simpl. lia.
  - lia.
Qed.



Lemma newlines_le_len bs :
  newlines bs + (if open_last_line bs then 1 else 0) <= len bs.
Proof.
  induction bs as [|b bs IH]; [unfold newlines, len; simpl; lia|].
  rewrite newlines_cons, open_last_line_cons.
  assert (Hl : len (b :: bs) = 1 + len bs) by (unfold len; simpl length; lia).
  pose proof (len_nonneg (List.filter (Z.eqb 10) bs)) as Hnn. fold (newlines bs) in Hnn.
  destruct bs as [|b1 bs'].
  - unfold newlines, len in *. simpl in *. destruct (b =? 10); simpl; lia.
  - destruct (b =? 10); lia.
Qed.

(** X18.  [CalculateBasicMetrics] counts every line of a text exactly
    once: code, comment and blank lines add up to the number of line
    feeds, plus one when the text ends in an unterminated line; the
    blank lines are the lines made of blanks only; and the five other
    fields of the result are left at zero. *)
Theorem CalculateBasicMetrics_counts_every_line (content : string) :
  len (bytes_of_string content) <= int_max ->
  let m := Metrics.CalculateBasicMetrics content in
  let bs := bytes_of_string content in
  Metrics.LinesOfCode m + Metrics.LinesOfComments m + Metrics.BlankLines m
  = newlines bs + (if open_last_line bs then 1 else 0)
  /\ Metrics.BlankLines m = len (List.filter all_blank (Metrics.splitLines content))
  /\ 0 <= Metrics.LinesOfCode m /\ 0 <= Metrics.LinesOfComments m
  /\ Metrics.CyclomaticComplexity m = 0 /\ Metrics.FunctionCount m = 0
  /\ Metrics.ClassCount m = 0 /\ Metrics.ImportCount m = 0
  /\ Metrics.MaxFunctionLength m = 0 /\ Metrics.AvgFunctionLength m = fzero.
Proof.
  intros Hmax. cbv zeta. unfold Metrics.CalculateBasicMetrics.
  pose proof (splitLines_len content) as Hlines.
  pose proof (newlines_le_len (bytes_of_string content)) as Hle.
  destruct (count_line_counters (Metrics.splitLines content) Metrics.zero_metrics)
    as (H1 & H2 & H3 & H4 & Hrest); try (cbn; lia).
  cbn in H1, H2, Hrest.
  split_and!; try assumption; try apply Hrest; [lia|].
  rewrite H2, Z.add_0_l. unfold len. do 2 f_equal. apply List.filter_ext. intros line.
  destruct (all_blank line) eqn:Hb.
  - apply String.eqb_eq. now apply trimWhitespace_empty_iff.
  - apply String.eqb_neq. intros He. apply trimWhitespace_empty_iff in He. congruence.
Qed.

Lemma bytes_of_string_append s t :
  bytes_of_string (s +:+ t) = bytes_of_string s ++ bytes_of_string t.
Proof. unfold bytes_of_string. now rewrite list_ascii_append, map_app. Qed.

Lemma bytes_of_string_of_bytes bs :
  Forall (fun b => 0 <= b < 256) bs ->
  bytes_of_string (Strings.string_of_bytes bs) = bs.
Proof.
  unfold bytes_of_string, Strings.string_of_bytes.
  rewrite list_ascii_of_string_of_list_ascii.
  induction 1 as [|b bs Hb _ IH]; [reflexivity|].
  cbn [map]. rewrite IH. f_equal. unfold Strings.ascii_of_byte.
  rewrite nat_ascii_embedding by lia. lia.
Qed.

Lemma EncodeRune_bytes r :
  Forall (fun b => 0 <= b < 256) (Utf8.EncodeRune r)
  /\ (r <> 10 -> Forall (fun b => b <> 10) (Utf8.EncodeRune r)).
Proof.
  unfold Utf8.EncodeRune, Utf8.between.
  repeat match goal with
         | |- context [if ?c then _ else _] => destruct c eqn:?
         end;
    repeat match goal with
           | H : _ || _ = true |- _ => apply orb_prop in H as [H|H]
           | H : _ && _ = true |- _ => apply andb_prop in H as [? ?]
           | H : (_ <=? _) = true |- _ => apply Z.leb_le in H
           end;
    (split; [|intros ?]); repeat constructor; Z.div_mod_to_equations; lia.
Qed.

Lemma splitLines_fold_no_newline rs : forall lines cur,
  Forall (fun line => newlines (bytes_of_string line) = 0) lines ->
  newlines (bytes_of_string cur) = 0 ->
  let st := fold_left Metrics.splitLines_step rs (lines, cur) in
  Forall (fun line => newlines (bytes_of_string line) = 0) st.1
  /\ newlines (bytes_of_string st.2) = 0.
Proof.
  induction rs as [|ch rs IH]; intros lines cur Hlines Hcur; cbv zeta; [now split|].
  cbn [fold_left]. unfold Metrics.splitLines_step at 2 4.
  destruct (Z.eqb_spec ch 10) as [->|Hne].
  - apply IH; [|reflexivity]. apply Forall_app. split; [assumption|]. now constructor.
  - apply IH; [assumption|].
    destruct (EncodeRune_bytes ch) as [Hb Hn].
    rewrite bytes_of_string_append, newlines_app, Hcur.
    unfold Utf8.string_of_rune. rewrite bytes_of_string_of_bytes by assumption.
    rewrite newlines_none; [reflexivity | now apply Hn].
Qed.

(** X19.  [splitLines] cuts a text at its line feeds: the number of
    lines is the number of bytes [0x0A] of the text, plus one when the
    text is not empty and does not end in a line feed; and no line holds
    a line feed.  (A byte that is not well-formed UTF-8 does not change
    the count.) *)
Theorem splitLines_cuts_at_line_feeds (content : string) :
  let lines := Metrics.splitLines content in
  let bs := bytes_of_string content in
  len lines = newlines bs + (if open_last_line bs then 1 else 0)
  /\ Forall (fun line => newlines (bytes_of_string line) = 0) lines.
Proof.
  cbv zeta. split; [apply splitLines_len|].
  unfold Metrics.splitLines.
  destruct (splitLines_fold_no_newline (Utf8.range_string content) [] ""%string)
    as [Hl Hc]; [constructor | reflexivity |].
  destruct (fold_left Metrics.splitLines_step _ _) as [lines cur]. cbn [fst snd] in *.
  destruct (negb (String.eqb cur "")); [|assumption].
  apply Forall_app. split; [assumption|]. now constructor.
Qed.

(** ** The analyzer's top lists *)

Section BubbleSort.

Context {A : Type} (key : A -> Z).

Let less (a b : A) : bool := key a <? key b.

Lemma swap_adjacent_if_at (pre : list A) a b post :
  Sorting.swap_adjacent_if less (pre ++ a :: b :: post) (length pre)
  = pre ++ (if less a b then b :: a :: post else a :: b :: post).
Proof.
  unfold Sorting.swap_adjacent_if.
  rewrite lookup_app_r, Nat.sub_diag by lia. simpl.
  replace (S (length pre)) with (length pre + 1)%nat by lia.
  rewrite lookup_app_r by lia.
  replace (length pre + 1 - length pre)%nat with 1%nat by lia. simpl.
  destruct (less a b); [|reflexivity].
  rewrite insert_app_r_alt by lia.
  replace (length pre + 1 - length pre)%nat with 1%nat by lia. simpl.
  rewrite insert_app_r_alt by lia. now rewrite Nat.sub_diag.
Qed.

Lemma swap_adjacent_if_beyond (l : list A) j :
  (length l <= S j)%nat -> Sorting.swap_adjacent_if less l j = l.
Proof.
  intros Hj. unfold Sorting.swap_adjacent_if.
  destruct (l !! j); [|reflexivity].
  now rewrite (lookup_ge_None_2 l (S j)) by lia.
Qed.

Lemma swaps_beyond (l : list A) m : forall k,
  (length l <= S k)%nat -> fold_left (Sorting.swap_adjacent_if less) (seq k m) l = l.
Proof.
  induction m as [|m IH]; intros k Hk; [reflexivity|].
  simpl. rewrite swap_adjacent_if_beyond by lia. apply IH. lia.
Qed.

Lemma swaps_bubble m : forall (pre l : list A),
  fold_left (Sorting.swap_adjacent_if less) (seq (length pre) m) (pre ++ l)
  = pre ++ bubble less m l.
Proof.
  induction m as [|m IH]; intros pre l; [reflexivity|].
  destruct l as [|a [|b rest]].
  - simpl bubble. apply swaps_beyond. rewrite length_app. simpl. lia.
  - simpl bubble. apply swaps_beyond. rewrite length_app. simpl. lia.
  - cbn [seq fold_left]. rewrite swap_adjacent_if_at. cbn [bubble].
    destruct (less a b).
    + replace (pre ++ b :: a :: rest) with ((pre ++ [b]) ++ a :: rest)
        by now rewrite <- app_assoc.
      replace (S (length pre)) with (length (pre ++ [b]))
        by (rewrite length_app; simpl; lia).
      rewrite IH. now rewrite <- app_assoc.
    + replace (pre ++ a :: b :: rest) with ((pre ++ [a]) ++ b :: rest)
        by now rewrite <- app_assoc.
      replace (S (length pre)) with (length (pre ++ [a]))
        by (rewrite length_app; simpl; lia).
      rewrite IH. now rewrite <- app_assoc.
Qed.

Lemma bubble_pass_bubble (l : list A) i :
  Sorting.bubble_pass less l i = bubble less (length l - i - 1) l.
Proof. unfold Sorting.bubble_pass. apply (swaps_bubble _ [] l). Qed.

Lemma bubble_perm m : forall l : list A, Permutation (bubble less m l) l.
Proof.
  induction m as [|m IH]; intros l; [destruct l; reflexivity|].
  destruct l as [|a [|b rest]]; try reflexivity.
  cbn [bubble]. destruct (less a b).
  - rewrite IH. apply perm_swap.
  - now rewrite IH.
Qed.

Lemma bubble_app m : forall l1 l2 : list A,
  (m < length l1)%nat -> bubble less m (l1 ++ l2) = bubble less m l1 ++ l2.
Proof.
  induction m as [|m IH]; intros l1 l2 Hm.
  - destruct l1; simpl; [simpl in Hm; lia|]. now destruct l1.
  - destruct l1 as [|a [|b rest]]; simpl in Hm; try lia.
    cbn [app bubble]. destruct (less a b); cbn [app]; f_equal.
    + apply (IH (a :: rest) l2). simpl; lia.
    + apply (IH (b :: rest) l2). simpl; lia.
Qed.

(** A pass over the whole of a list leaves a least element last. *)
Lemma bubble_last m : forall l : list A,
  length l = S m ->
  exists init x, bubble less m l = init ++ [x] /\ Forall (fun y => key x <= key y) init.
Proof.
  induction m as [|m IH]; intros l Hl.
  - destruct l as [|a [|]]; try discriminate. exists [], a. split; [reflexivity|constructor].
  - destruct l as [|a [|b rest]]; try discriminate. simpl in Hl.
    cbn [bubble]. unfold less at 1. destruct (Z.ltb_spec (key a) (key b)) as [Hab|Hab].
    + destruct (IH (a :: rest) ltac:(simpl; lia)) as (init & x & Heq & Hmin).
      exists (b :: init), x. rewrite Heq. split; [reflexivity|].
      constructor; [|assumption].
      assert (Ha : In a (init ++ [x])).
      { rewrite <- Heq. apply (Permutation_in a (Permutation_sym (bubble_perm m _))).
        now left. }
      apply in_app_or in Ha as [Ha|[<-|[]]]; [|lia].
      rewrite List.Forall_forall in Hmin. specialize (Hmin a Ha). lia.
    + destruct (IH (b :: rest) ltac:(simpl; lia)) as (init & x & Heq & Hmin).
      exists (a :: init), x. rewrite Heq. split; [reflexivity|].
      constructor; [|assumption].
      assert (Hb : In b (init ++ [x])).
      { rewrite <- Heq. apply (Permutation_in b (Permutation_sym (bubble_perm m _))).
        now left. }
      apply in_app_or in Hb as [Hb|[<-|[]]]; [|lia].
      rewrite List.Forall_forall in Hmin. specialize (Hmin b Hb). lia.
Qed.

(** After [i] passes the last [i] elements are in their final place. *)
Lemma bubble_passes (l : list A) : forall i,
  (i <= length l - 1)%nat ->
  exists front back,
    fold_left (Sorting.bubble_pass less) (seq 0 i) l = front ++ back
    /\ length back = i
    /\ Permutation (front ++ back) l
    /\ StronglySorted (fun a b => key b <= key a) back
    /\ Forall (fun x => Forall (fun y => key y <= key x) back) front.
Proof.
  induction i as [|i IH]; intros Hi.
  - exists l, []. rewrite app_nil_r. split_and!; try reflexivity; [constructor|].
    apply List.Forall_forall. intros x _. constructor.
  - destruct (IH ltac:(lia)) as (front & back & Heq & Hlen & Hperm & Hsorted & Hfb).
    rewrite seq_S, fold_left_app, Heq. cbn [fold_left]. rewrite Nat.add_0_l.
    rewrite bubble_pass_bubble.
    assert (Hl : length (front ++ back) = length l) by now rewrite Hperm.
    rewrite length_app in Hl.
    rewrite length_app. rewrite bubble_app by lia.
    destruct (bubble_last (length front + length back - i - 1) front ltac:(lia))
      as (init & x & Hb & Hmin).
    rewrite Hb. exists init, (x :: back).
    assert (Hpf : Permutation (init ++ [x]) front) by (rewrite <- Hb; apply bubble_perm).
    rewrite List.Forall_forall in Hfb.
    assert (Hx : Forall (fun y => key y <= key x) back).
    { apply Hfb. apply (Permutation_in x Hpf). apply in_or_app. right. now left. }
    split_and!.
    + now rewrite <- app_assoc.
    + simpl. lia.
    + rewrite <- Hperm, <- Hpf, <- app_assoc. reflexivity.
    + constructor; assumption.
    + apply List.Forall_forall. intros y Hy.
      constructor.
      * rewrite List.Forall_forall in Hmin. now apply Hmin.
      * apply Hfb. apply (Permutation_in y Hpf). apply in_or_app. now left.
Qed.

Lemma bubble_sort_sorted (l : list A) :
  Permutation (Sorting.bubble_sort less l) l
  /\ StronglySorted (fun a b => key b <= key a) (Sorting.bubble_sort less l).
Proof.
  unfold Sorting.bubble_sort.
  destruct (bubble_passes l (length l - 1) ltac:(lia))
    as (front & back & Heq & Hlen & Hperm & Hsorted & Hfb).
  rewrite Heq. split; [assumption|].
  assert (Hl : length (front ++ back) = length l) by now rewrite Hperm.
  rewrite length_app in Hl.
  destruct front as [|x [|x2 front]].
  - assumption.
  - simpl. constructor; [assumption|]. now inversion Hfb.
  - simpl in Hl. lia.
Qed.

Lemma bubble_stable (P : A -> bool) m :
  (forall a b, less a b = true -> P a && P b = false) ->
  forall l : list A, List.filter P (bubble less m l) = List.filter P l.
Proof.
  intros Hdiff. induction m as [|m IH]; intros l; [now destruct l|].
  destruct l as [|a [|b rest]]; try reflexivity.
  cbn [bubble]. destruct (less a b) eqn:Hab.
  - specialize (Hdiff a b Hab). cbn [List.filter]. rewrite IH. cbn [List.filter].
    destruct (P a), (P b); try reflexivity. discriminate.
  - cbn [List.filter]. now rewrite IH.
Qed.

Lemma bubble_sort_stable (P : A -> bool) (l : list A) :
  (forall a b, less a b = true -> P a && P b = false) ->
  List.filter P (Sorting.bubble_sort less l) = List.filter P l.
Proof.
  intros Hdiff. unfold Sorting.bubble_sort.
  generalize (seq 0 (length l - 1)). intros passes. revert l.
  induction passes as [|i passes IH]; intros l; [reflexivity|].
  cbn [fold_left]. rewrite IH, bubble_pass_bubble. now apply bubble_stable.
Qed.

(** What [getTopByComplexity] and [getTopByLength] compute, for the
    field [key]. *)
Lemma top_by_key (l : list A) (n : Z) :
  exists sorted,
    Permutation sorted l
    /\ StronglySorted (fun a b => key b <= key a) sorted
    /\ (forall v, List.filter (fun x => key x =? v) sorted
                  = List.filter (fun x => key x =? v) l)
    /\ (let functions := Sorting.bubble_sort less l in
        if len functions >? n then slice_to functions n else Some functions)
       = if n <? 0 then None else Some (firstn (Z.to_nat n) sorted).
Proof.
  exists (Sorting.bubble_sort less l).
  destruct (bubble_sort_sorted l) as [Hperm Hsorted].
  split_and!; [assumption | assumption | |].
  - intros v. apply bubble_sort_stable. intros a b Hab. unfold less in Hab.
    apply Z.ltb_lt in Hab.
    destruct (Z.eqb_spec (key a) v), (Z.eqb_spec (key b) v); try reflexivity. lia.
  - cbv zeta. pose proof (len_nonneg (Sorting.bubble_sort less l)) as Hnn.
    unfold slice_to.
    destruct (Z.gtb_spec (len (Sorting.bubble_sort less l)) n) as [Hgt|Hle].
    + destruct (Z.ltb_spec n 0); [reflexivity|].
      destruct (Z.gtb_spec n (len (Sorting.bubble_sort less l))); [lia|reflexivity].
    + destruct (Z.ltb_spec n 0); [lia|].
      rewrite firstn_all2; [reflexivity|]. unfold len in Hle. lia.
Qed.

End BubbleSort.

(** X20.  [getTopByComplexity] and [getTopByLength] return the first
    [n] functions of the list sorted by decreasing complexity (length):
    the sorted list is a rearrangement of the input in which no function
    is followed by a more complex (longer) one and functions of equal
    complexity (length) keep the order they had; a request for more
    functions than there are returns them all, and a negative [n]
    panics. *)
Theorem getTop_sorts_and_cuts (functions : list Analysis.FunctionInfo) (n : Z) :
  (exists sorted,
     Permutation sorted functions
     /\ StronglySorted (fun a b => Analysis.Complexity b <= Analysis.Complexity a) sorted
     /\ (forall c, List.filter (fun f => Analysis.Complexity f =? c) sorted
                   = List.filter (fun f => Analysis.Complexity f =? c) functions)
     /\ Analyzer.getTopByComplexity functions n
        = if n <? 0 then None else Some (firstn (Z.to_nat n) sorted))
  /\ (exists sorted,
        Permutation sorted functions
        /\ StronglySorted (fun a b => Analysis.LOC b <= Analysis.LOC a) sorted
        /\ (forall c, List.filter (fun f => Analysis.LOC f =? c) sorted
                      = List.filter (fun f => Analysis.LOC f =? c) functions)
        /\ Analyzer.getTopByLength functions n
           = if n <? 0 then None else Some (firstn (Z.to_nat n) sorted)).
Proof.
  split.
  - exact (top_by_key Analysis.Complexity functions n).
  - exact (top_by_key Analysis.LOC functions n).
Qed.

(** ** The analyzer's summary *)

Lemma collect_files_fold analysed : forall r0,
  let result := fold_left Analyzer.collect_file analysed r0 in
  Analyzer.Summary result
  = fold_left Analyzer.collect_issue (all_issues analysed) (Analyzer.Summary r0)
  /\ Analyzer.TopComplexity result = Analyzer.TopComplexity r0 ++ all_functions analysed
  /\ Analyzer.LongestFuncs result = Analyzer.LongestFuncs r0 ++ all_functions analysed
  /\ Analyzer.TotalMetrics result
     = fold_left Analyzer.aggregateMetrics (map (fun entry => Report.Metrics entry.2) analysed)
                 (Analyzer.TotalMetrics r0).
Proof.
  induction analysed as [|[relPath analysis] analysed IH]; intros r0; cbv zeta.
  - unfold all_functions. simpl. now rewrite !app_nil_r.
  - cbn [fold_left]. destruct (IH (Analyzer.collect_file r0 (relPath, analysis)))
      as (H1 & H2 & H3 & H4).
    rewrite H1, H2, H3, H4. unfold all_issues, all_functions.
    cbn [flat_map map Analyzer.collect_file Analyzer.Summary Analyzer.TopComplexity
           Analyzer.LongestFuncs Analyzer.TotalMetrics snd fold_left].
    rewrite fold_left_app, <- !app_assoc. auto.
Qed.

Lemma increment_lookup (m : gmap string Z) (k k' : string) (count : string -> Z) :
  (forall key, m !! key = counter (count key)) ->
  0 <= count k < int_max ->
  Analyzer.increment m k !! k'
  = counter (count k' + (if String.eqb k k' then 1 else 0)).
Proof.
  intros Hm Hk. unfold Analyzer.increment.
  destruct (String.eqb_spec k k') as [<-|Hne].
  - rewrite lookup_insert_eq, Hm. unfold counter.
    assert (Hmin : int_min < 0) by reflexivity.
    destruct (Z.eqb_spec (count k) 0) as [->|]; simpl.
    + reflexivity.
    + rewrite int_add_exact by lia.
      destruct (Z.eqb_spec (count k + 1) 0); [lia|reflexivity].
  - rewrite lookup_insert_ne by assumption. now rewrite Hm, Z.add_0_r.
Qed.

Lemma filter_len_snoc {A} (P : A -> bool) (l : list A) (x : A) :
  len (List.filter P (l ++ [x])) = len (List.filter P l) + (if P x then 1 else 0).
Proof.
  unfold len. rewrite List.filter_app, length_app. simpl.
  destruct (P x); simpl; lia.
Qed.

Lemma filter_len_le {A} (P : A -> bool) (l : list A) : 0 <= len (List.filter P l) <= len l.
Proof.
  unfold len. pose proof (List.filter_length_le P l). lia.
Qed.

Lemma collect_issues_counts issues : forall summary seen,
  len (seen ++ issues) <= int_max ->
  Analyzer.TotalIssues summary = len seen ->
  (forall ty, Analyzer.ByType summary !! ty = counter (issues_of_type ty seen)) ->
  (forall sev, Analyzer.BySeverity summary !! sev = counter (issues_of_severity sev seen)) ->
  let summary' := fold_left Analyzer.collect_issue issues summary in
  Analyzer.TotalIssues summary' = len (seen ++ issues)
  /\ (forall ty, Analyzer.ByType summary' !! ty = counter (issues_of_type ty (seen ++ issues)))
  /\ (forall sev, Analyzer.BySeverity summary' !! sev
                  = counter (issues_of_severity sev (seen ++ issues))).
Proof.
  induction issues as [|issue issues IH]; intros summary seen Hmax Htotal Hty Hsev; cbv zeta.
  - rewrite app_nil_r. auto.
  - cbn [fold_left].
    replace (seen ++ issue :: issues) with ((seen ++ [issue]) ++ issues) in *
      by now rewrite <- app_assoc.
    assert (Hlen : len (seen ++ [issue]) = len seen + 1)
      by (unfold len; rewrite length_app; simpl; lia).
    assert (Hbound : len seen < int_max).
    { pose proof (len_nonneg issues). unfold len in *. rewrite !length_app in Hmax.
      simpl in Hmax. lia. }
    assert (Hmin : int_min < 0) by reflexivity.
    pose proof (len_nonneg seen) as Hnn.
    apply IH; [assumption | | |]; cbn [Analyzer.collect_issue Analyzer.TotalIssues
                                         Analyzer.ByType Analyzer.BySeverity].
    + rewrite Htotal, Hlen. apply int_add_exact. lia.
    + intros ty. unfold issues_of_type at 1. rewrite filter_len_snoc.
      apply (increment_lookup _ _ _ (fun key => issues_of_type key seen)); [assumption|].
      pose proof (filter_len_le (fun i => String.eqb (Report.Type_ i) (Report.Type_ issue))
                                seen). unfold issues_of_type. lia.
    + intros sev. unfold issues_of_severity at 1. rewrite filter_len_snoc.
      apply (increment_lookup _ _ _ (fun key => issues_of_severity key seen)); [assumption|].
      pose proof (filter_len_le
                    (fun i => String.eqb (Report.Severity i) (Report.Severity issue)) seen).
      unfold issues_of_severity. lia.
Qed.

Lemma AnalyzeRepository_of_Some analysed :
  exists top longest,
    Analyzer.getTopByComplexity (all_functions analysed) 10 = Some top
    /\ Analyzer.getTopByLength (all_functions analysed) 10 = Some longest
    /\ Analyzer.AnalyzeRepository_of analysed
       = Some (let result := fold_left Analyzer.collect_file analysed Analyzer.empty_result in
               {| Analyzer.Files := Analyzer.Files result;
                  Analyzer.TotalMetrics := Analyzer.TotalMetrics result;
                  Analyzer.Summary := Analyzer.Summary result;
                  Analyzer.TopComplexity := top;
                  Analyzer.LongestFuncs := longest |}).
Proof.
  unfold Analyzer.AnalyzeRepository_of. cbv zeta.
  destruct (collect_files_fold analysed Analyzer.empty_result) as (_ & H2 & H3 & _).
  rewrite H2, H3. simpl app.
  destruct (top_by_key Analysis.Complexity (all_functions analysed) 10)
    as (s1 & _ & _ & _ & Hc).
  destruct (top_by_key Analysis.LOC (all_functions analysed) 10) as (s2 & _ & _ & _ & Hl).
  change (Analyzer.getTopByComplexity (all_functions analysed) 10
          = Some (firstn (Z.to_nat 10) s1)) in Hc.
  change (Analyzer.getTopByLength (all_functions analysed) 10
          = Some (firstn (Z.to_nat 10) s2)) in Hl.
  rewrite Hc, Hl. eauto.
Qed.

(** X21.  The issue summary of [AnalyzeRepository] is consistent with
    the issues of the analysed files: [TotalIssues] is their number, and
    the counter of a type (a severity) in [ByType] ([BySeverity]) is the
    number of issues of that type (severity), a type without issue
    having no entry. *)
Theorem AnalyzeRepository_issue_summary (analysed : list (string * Report.FileAnalysis)) :
  len (all_issues analysed) <= int_max ->
  exists result,
    Analyzer.AnalyzeRepository_of analysed = Some result
    /\ Analyzer.TotalIssues (Analyzer.Summary result) = len (all_issues analysed)
    /\ (forall ty, Analyzer.ByType (Analyzer.Summary result) !! ty
                   = counter (issues_of_type ty (all_issues analysed)))
    /\ (forall sev, Analyzer.BySeverity (Analyzer.Summary result) !! sev
                    = counter (issues_of_severity sev (all_issues analysed))).
Proof.
  intros Hmax.
  destruct (AnalyzeRepository_of_Some analysed) as (top & longest & _ & _ & ->).
  eexists. split; [reflexivity|]. cbv zeta. cbn [Analyzer.Summary].
  destruct (collect_files_fold analysed Analyzer.empty_result) as (-> & _).
  apply (collect_issues_counts (all_issues analysed) _ []); auto.
Qed.

Lemma aggregate_fold files : forall total,
  let total' := fold_left Analyzer.aggregateMetrics files total in
  Metrics.AvgFunctionLength total' = Metrics.AvgFunctionLength total
  /\ Metrics.MaxFunctionLength total <= Metrics.MaxFunctionLength total'
  /\ Forall (fun file => Metrics.MaxFunctionLength file <= Metrics.MaxFunctionLength total')
            files
  /\ (Metrics.MaxFunctionLength total' = Metrics.MaxFunctionLength total
      \/ Exists (fun file => Metrics.MaxFunctionLength file = Metrics.MaxFunctionLength total')
                files).
Proof.
  induction files as [|file files IH]; intros total; cbv zeta.
  - simpl. split_and!; auto; lia.
  - cbn [fold_left]. destruct (IH (Analyzer.aggregateMetrics total file))
      as (H1 & H2 & H3 & H4).
    cbn [Analyzer.aggregateMetrics Metrics.AvgFunctionLength Metrics.MaxFunctionLength]
      in H1, H2, H4.
    destruct (Z.gtb_spec (Metrics.MaxFunctionLength file) (Metrics.MaxFunctionLength total)).
    + split_and!; [assumption | lia | constructor; [lia | assumption] |].
      right. destruct H4 as [H4|H4]; [left; now symmetry | now right].
    + split_and!; [assumption | lia | constructor; [lia | assumption] |].
      destruct H4 as [H4|H4]; [now left | right; now right].
Qed.

(** X22.  [AnalyzeRepository] never panics.  Its two top lists hold at
    most ten functions: the first ten of all functions of the analysed
    files, sorted by decreasing complexity (length).  Of the totals,
    [MaxFunctionLength] is the largest of the files' values (or 0), and
    [AvgFunctionLength] is never aggregated: the repository-wide average
    is 0 whatever the files. *)
Theorem AnalyzeRepository_tops_and_totals (analysed : list (string * Report.FileAnalysis)) :
  exists result by_complexity by_length,
    Analyzer.AnalyzeRepository_of analysed = Some result
    /\ Permutation by_complexity (all_functions analysed)
    /\ StronglySorted (fun a b => Analysis.Complexity b <= Analysis.Complexity a)
                      by_complexity
    /\ Analyzer.TopComplexity result = firstn 10 by_complexity
    /\ Permutation by_length (all_functions analysed)
    /\ StronglySorted (fun a b => Analysis.LOC b <= Analysis.LOC a) by_length
    /\ Analyzer.LongestFuncs result = firstn 10 by_length
    /\ Metrics.AvgFunctionLength (Analyzer.TotalMetrics result) = fzero
    /\ Forall (fun entry => Metrics.MaxFunctionLength (Report.Metrics entry.2)
                            <= Metrics.MaxFunctionLength (Analyzer.TotalMetrics result))
              analysed
    /\ (Metrics.MaxFunctionLength (Analyzer.TotalMetrics result) = 0
        \/ Exists (fun entry => Metrics.MaxFunctionLength (Report.Metrics entry.2)
                                = Metrics.MaxFunctionLength (Analyzer.TotalMetrics result))
                  analysed).
Proof.
  destruct (AnalyzeRepository_of_Some analysed) as (top & longest & Hc & Hl & ->).
  destruct (top_by_key Analysis.Complexity (all_functions analysed) 10)
    as (s1 & Hp1 & Hs1 & _ & Hc1).
  destruct (top_by_key Analysis.LOC (all_functions analysed) 10)
    as (s2 & Hp2 & Hs2 & _ & Hl2).
  change (Analyzer.getTopByComplexity (all_functions analysed) 10
          = Some (firstn (Z.to_nat 10) s1)) in Hc1.
  change (Analyzer.getTopByLength (all_functions analysed) 10
          = Some (firstn (Z.to_nat 10) s2)) in Hl2.
  rewrite Hc in Hc1. rewrite Hl in Hl2. injection Hc1 as ->. injection Hl2 as ->.
  eexists. exists s1, s2. split; [reflexivity|]. cbv zeta.
  cbn [Analyzer.TopComplexity Analyzer.LongestFuncs Analyzer.TotalMetrics].
  destruct (collect_files_fold analysed Analyzer.empty_result) as (_ & _ & _ & ->).
  destruct (aggregate_fold (map (fun entry => Report.Metrics entry.2) analysed)
                           (Analyzer.TotalMetrics Analyzer.empty_result))
    as (Havg & _ & Hall & Hmax).
  split_and!; try assumption; try reflexivity.
  - rewrite List.Forall_map in Hall. exact Hall.
  - destruct Hmax as [Hmax|Hmax]; [now left|right].
    rewrite List.Exists_map in Hmax. exact Hmax.
Qed.

(** ** [ParseFile] *)

Lemma visit_fold nodes : forall a0,
  let a := fold_left GoParser.visit nodes a0 in
  Report.Functions a = Report.Functions a0 ++ map Analysis.extractFunction (func_decls nodes)
  /\ Report.Issues a
     = Report.Issues a0
       ++ flat_map (fun fd => function_issues (Analysis.extractFunction fd)) (func_decls nodes)
  /\ Report.Classes a = Report.Classes a0 ++ map GoParser.extractStruct (struct_specs nodes)
  /\ Report.Imports a = Report.Imports a0
  /\ Report.FilePath a = Report.FilePath a0
  /\ Report.Language a = Report.Language a0.
Proof.
  induction nodes as [|n nodes IH]; intros a0; cbv zeta.
  - simpl. now rewrite !app_nil_r.
  - cbn [fold_left]. destruct (IH (GoParser.visit a0 n)) as (H1 & H2 & H3 & H4 & H5 & H6).
    rewrite H1, H2, H3, H4, H5, H6. clear.
    destruct n as [fd|spec|]; cbn [GoParser.visit func_decls struct_specs flat_map app map].
    + unfold function_issues.
      destruct (Analysis.Complexity (Analysis.extractFunction fd) >? 10),
        (Analysis.LOC (Analysis.extractFunction fd) >? 50);
        cbn [Report.with_Functions Report.with_Issues Report.Functions Report.Issues
               Report.Classes Report.Imports Report.FilePath Report.Language app];
        rewrite <- ?app_assoc; split_and!; reflexivity.
    + cbn [Report.with_Classes Report.Functions Report.Issues
             Report.Classes Report.Imports Report.FilePath Report.Language app].
      rewrite <- ?app_assoc, ?app_nil_r. split_and!; reflexivity.
    + rewrite ?app_nil_r. split_and!; reflexivity.
Qed.

Lemma imports_fold imps : forall a0,
  let a := fold_left GoParser.add_import imps a0 in
  len (Report.Imports a) = len (Report.Imports a0) + len imps
  /\ Report.Functions a = Report.Functions a0
  /\ Report.Issues a = Report.Issues a0
  /\ Report.Classes a = Report.Classes a0
  /\ Report.FilePath a = Report.FilePath a0
  /\ Report.Language a = Report.Language a0.
Proof.
  induction imps as [|imp imps IH]; intros a0; cbv zeta.
  - unfold len. simpl. split_and!; auto; lia.
  - cbn [fold_left]. destruct (IH (GoParser.add_import a0 imp)) as (H1 & H2 & H3 & H4 & H5 & H6).
    rewrite H1, H2, H3, H4, H5, H6. cbn. unfold len. rewrite length_app. simpl.
    split_and!; auto; lia.
Qed.

Lemma extractFunction_exact (fd : Analysis.FuncDecl) :
  countable_decl fd ->
  Analysis.Complexity (Analysis.extractFunction fd)
  = 1 + Analysis.decision_points (Analysis.FuncDecl_node fd)
  /\ Analysis.LOC (Analysis.extractFunction fd)
     = Analysis.EndPosLine fd - Analysis.PosLine fd + 1.
Proof.
  intros (Hfit & Hstart & Hend). split.
  - cbn [Analysis.extractFunction Analysis.Complexity]. unfold Analysis.calculateComplexity.
    apply Inspect_counts_decision_points; lia.
  - cbn [Analysis.extractFunction Analysis.LOC]. unfold int_min, int_max in *.
    rewrite int_sub_exact by (unfold int_min, int_max; lia).
    apply int_add_exact. unfold int_min, int_max. lia.
Qed.

Lemma function_issues_expected (fd : Analysis.FuncDecl) :
  countable_decl fd ->
  function_issues (Analysis.extractFunction fd) = expected_issues fd.
Proof.
  intros Hfd. destruct (extractFunction_exact fd Hfd) as [Hc Hl].
  unfold function_issues, expected_issues. rewrite Hc, Hl. f_equal.
  - destruct (Z.gtb_spec (1 + Analysis.decision_points (Analysis.FuncDecl_node fd)) 10),
      (Z.leb_spec 10 (Analysis.decision_points (Analysis.FuncDecl_node fd)));
      try reflexivity; lia.
  - destruct (Z.gtb_spec (Analysis.EndPosLine fd - Analysis.PosLine fd + 1) 50),
      (Z.leb_spec 50 (Analysis.EndPosLine fd - Analysis.PosLine fd));
      try reflexivity; lia.
Qed.

Lemma analyse_fields filePath content file :
  let a := GoParser.analyse filePath content file in
  Report.Functions a = map Analysis.extractFunction (func_decls (GoParser.FileNodes file))
  /\ Report.Issues a
     = flat_map (fun fd => function_issues (Analysis.extractFunction fd))
                (func_decls (GoParser.FileNodes file))
  /\ Report.Classes a = map GoParser.extractStruct (struct_specs (GoParser.FileNodes file))
  /\ len (Report.Imports a) = len (GoParser.FileImports file)
  /\ Report.FilePath a = filePath
  /\ Report.Language a = "Go"%string
  /\ Report.Metrics a
     = GoParser.calculateMetrics content
         (fold_left GoParser.visit (GoParser.FileNodes file)
            (fold_left GoParser.add_import (GoParser.FileImports file)
               {| Report.FilePath := filePath; Report.Language := "Go";
                  Report.Metrics := Metrics.zero_metrics;
                  Report.Functions := []; Report.Classes := []; Report.Imports := [];
                  Report.Issues := [] |})).
Proof.
  cbv zeta. unfold GoParser.analyse. cbv zeta.
  set (a0 := {| Report.FilePath := filePath |}).
  destruct (imports_fold (GoParser.FileImports file) a0) as (I1 & I2 & I3 & I4 & I5 & I6).
  destruct (visit_fold (GoParser.FileNodes file)
              (fold_left GoParser.add_import (GoParser.FileImports file) a0))
    as (V1 & V2 & V3 & V4 & V5 & V6).
  cbn [Report.with_Metrics Report.Functions Report.Issues Report.Classes Report.Imports
         Report.FilePath Report.Language Report.Metrics].
  rewrite V1, V2, V3, V4, V5, V6, I1, I2, I3, I4, I5, I6.
  split_and!; reflexivity.
Qed.

(** X23.  [ParseFile] flags exactly the complex and the long functions.
    When the file is read and parsed, the functions of the report are
    the function declarations of the file in source order, and its
    issues are, function by function, a complexity warning when the
    declaration has ten decision points or more, followed by a length
    warning when the declaration ends fifty lines or more after its
    first line; nothing else is reported. *)
Theorem ParseFile_flags_complex_and_long_functions `{GoParser.GoSyntax}
    (filePath content : string) (file : GoParser.File) (w : World) :
  disk w !! filePath = Some content ->
  GoParser.parser_ParseFile filePath content = Ok file ->
  Forall countable_decl (func_decls (GoParser.FileNodes file)) ->
  exists analysis,
    GoParser.ParseFile filePath w = Ok analysis
    /\ Report.Functions analysis
       = map Analysis.extractFunction (func_decls (GoParser.FileNodes file))
    /\ Report.Issues analysis
       = flat_map expected_issues (func_decls (GoParser.FileNodes file))
    /\ Forall (fun issue => Report.Severity issue = Report.SeverityWarning)
              (Report.Issues analysis).
Proof.
  intros Hread Hparse Hdecls. unfold GoParser.ParseFile, os_ReadFile.
  rewrite Hread, Hparse. eexists. split; [reflexivity|].
  destruct (analyse_fields filePath content file) as (HF & HI & _).
  assert (Hissues : Report.Issues (GoParser.analyse filePath content file)
                    = flat_map expected_issues (func_decls (GoParser.FileNodes file))).
  { rewrite HI. clear HI HF.
    induction Hdecls as [|fd fds Hfd _ IH]; [reflexivity|].
    cbn [flat_map]. now rewrite IH, function_issues_expected. }
  split; [exact HF|]. split; [exact Hissues|].
  rewrite Hissues. apply List.Forall_forall. intros issue Hin.
  apply in_flat_map in Hin as (fd & _ & Hin). unfold expected_issues in Hin.
  apply in_app_or in Hin as [Hin|Hin].
  - destruct (10 <=? _); [|contradiction]. destruct Hin as [<-|[]]. reflexivity.
  - destruct (50 <=? _); [|contradiction]. destruct Hin as [<-|[]]. reflexivity.
Qed.

Lemma count_line_keeps lines : forall m,
  Metrics.MaxFunctionLength (fold_left Metrics.count_line lines m)
  = Metrics.MaxFunctionLength m
  /\ Metrics.AvgFunctionLength (fold_left Metrics.count_line lines m)
     = Metrics.AvgFunctionLength m.
Proof.
  induction lines as [|line lines IH]; intros m; [now split|].
  cbn [fold_left]. destruct (IH (Metrics.count_line m line)) as [-> ->].
  unfold Metrics.count_line. cbv zeta.
  destruct (String.eqb _ _); [|destruct (Metrics.isComment _)]; now split.
Qed.

Lemma longest_and_total_fold fns : forall mx tot,
  let st := fold_left GoParser.longest_and_total fns (mx, tot) in
  mx <= st.1
  /\ Forall (fun fn => Analysis.LOC fn <= st.1) fns
  /\ (st.1 = mx \/ Exists (fun fn => Analysis.LOC fn = st.1) fns).
Proof.
  induction fns as [|fn fns IH]; intros mx tot; cbv zeta.
  - simpl. split_and!; [lia | constructor | now left].
  - cbn [fold_left GoParser.longest_and_total].
    destruct (IH (if Analysis.LOC fn >? mx then Analysis.LOC fn else mx)
                 (int_add tot (Analysis.LOC fn))) as (H1 & H2 & H3).
    destruct (Z.gtb_spec (Analysis.LOC fn) mx).
    + split_and!; [lia | constructor; [lia|assumption] |].
      right. destruct H3 as [H3|H3]; [left; now symmetry | now right].
    + split_and!; [lia | constructor; [lia|assumption] |].
      destruct H3 as [H3|H3]; [now left | right; now right].
Qed.

Lemma complexity_fold fns : forall total,
  0 <= total ->
  Forall (fun fn => 0 <= Analysis.Complexity fn) fns ->
  total + sumZ (map Analysis.Complexity fns) <= int_max ->
  fold_left (fun total fn => int_add total (Analysis.Complexity fn)) fns total
  = total + sumZ (map Analysis.Complexity fns).
Proof.
  induction fns as [|fn fns IH]; intros total Ht Hall Hmax; [simpl; lia|].
  inversion Hall as [|? ? Hfn Hfns]; subst. cbn [map sumZ] in *.
  assert (Hs : 0 <= sumZ (map Analysis.Complexity fns)).
  { clear - Hfns. induction Hfns; simpl; lia. }
  assert (Hmin : int_min < 0) by reflexivity.
  cbn [fold_left]. rewrite int_add_exact by lia.
  rewrite IH; [lia | lia | assumption | lia].
Qed.

(** X24.  The metrics of a parsed file count what the file declares:
    [FunctionCount], [ClassCount] and [ImportCount] are the numbers of
    function declarations, struct types and imports;
    [CyclomaticComplexity] is the number of functions plus the number of
    decision points of the file; [MaxFunctionLength] is the length of a
    longest function (0 without functions); and the line counters are
    those of [CalculateBasicMetrics] on the content. *)
Theorem ParseFile_metrics `{GoParser.GoSyntax}
    (filePath content : string) (file : GoParser.File) (w : World) :
  let decls := func_decls (GoParser.FileNodes file) in
  let points := map (fun fd => Analysis.decision_points (Analysis.FuncDecl_node fd)) decls in
  disk w !! filePath = Some content ->
  GoParser.parser_ParseFile filePath content = Ok file ->
  Forall countable_decl decls ->
  len decls + sumZ points <= int_max ->
  exists analysis,
    GoParser.ParseFile filePath w = Ok analysis
    /\ Metrics.FunctionCount (Report.Metrics analysis) = len decls
    /\ Metrics.ClassCount (Report.Metrics analysis)
       = len (struct_specs (GoParser.FileNodes file))
    /\ Metrics.ImportCount (Report.Metrics analysis) = len (GoParser.FileImports file)
    /\ Metrics.CyclomaticComplexity (Report.Metrics analysis) = len decls + sumZ points
    /\ Forall (fun fd => Analysis.EndPosLine fd - Analysis.PosLine fd + 1
                         <= Metrics.MaxFunctionLength (Report.Metrics analysis)) decls
    /\ (Metrics.MaxFunctionLength (Report.Metrics analysis) = 0
        \/ Exists (fun fd => Analysis.EndPosLine fd - Analysis.PosLine fd + 1
                             = Metrics.MaxFunctionLength (Report.Metrics analysis)) decls)
    /\ Metrics.LinesOfCode (Report.Metrics analysis)
       = Metrics.LinesOfCode (Metrics.CalculateBasicMetrics content)
    /\ Metrics.LinesOfComments (Report.Metrics analysis)
       = Metrics.LinesOfComments (Metrics.CalculateBasicMetrics content)
    /\ Metrics.BlankLines (Report.Metrics analysis)
       = Metrics.BlankLines (Metrics.CalculateBasicMetrics content).
Proof.
  intros decls points Hread Hparse Hdecls Hmax.
  unfold GoParser.ParseFile, os_ReadFile. rewrite Hread, Hparse.
  eexists. split; [reflexivity|].
  destruct (analyse_fields filePath content file) as (_ & _ & _ & _ & _ & _ & ->).
  set (a0 := {| Report.FilePath := filePath |}).
  destruct (imports_fold (GoParser.FileImports file) a0) as (I1 & I2 & _ & I4 & _).
  destruct (visit_fold (GoParser.FileNodes file)
              (fold_left GoParser.add_import (GoParser.FileImports file) a0))
    as (V1 & _ & V3 & V4 & _).
  set (a := fold_left GoParser.visit _ _) in *.
  rewrite I2 in V1. rewrite I4 in V3. simpl app in V1, V3. fold decls in V1.
  assert (HI : len (Report.Imports a) = len (GoParser.FileImports file)).
  { rewrite V4, I1. unfold a0, len. simpl. lia. }
  assert (Hexact : Forall (fun fd =>
            Analysis.Complexity (Analysis.extractFunction fd)
            = 1 + Analysis.decision_points (Analysis.FuncDecl_node fd)
            /\ Analysis.LOC (Analysis.extractFunction fd)
               = Analysis.EndPosLine fd - Analysis.PosLine fd + 1) decls).
  { eapply List.Forall_impl; [|exact Hdecls]. intros fd. apply extractFunction_exact. }
  assert (Hsum : sumZ (map Analysis.Complexity (Report.Functions a)) = len decls + sumZ points
                 /\ Forall (fun fn => 0 <= Analysis.Complexity fn) (Report.Functions a)).
  { rewrite V1. subst points. clear - Hexact Hdecls.
    induction Hexact as [|fd fds [Hc _] _ IH]; [split; [reflexivity|constructor]|].
    inversion Hdecls as [|? ? Hfd Hfds]; subst. destruct (IH Hfds) as [IH1 IH2].
    cbn [map sumZ]. rewrite IH1, Hc. unfold len. simpl length.
    pose proof (decision_points_nonneg (Analysis.FuncDecl_node fd)).
    split; [|constructor; [lia|assumption]].
    lia. }
  destruct Hsum as [Hsum Hnonneg].
  unfold GoParser.calculateMetrics. cbv zeta.
  destruct (count_line_keeps (Metrics.splitLines content) Metrics.zero_metrics)
    as [Hkeep _].
  change (fold_left Metrics.count_line (Metrics.splitLines content) Metrics.zero_metrics)
    with (Metrics.CalculateBasicMetrics content) in Hkeep.
  cbn [Metrics.MaxFunctionLength Metrics.zero_metrics] in Hkeep.
  destruct (longest_and_total_fold (Report.Functions a)
              (Metrics.MaxFunctionLength (Metrics.CalculateBasicMetrics content)) 0)
    as (L1 & L2 & L3).
  assert (Hmaxlen :
    let mx := (if len (Report.Functions a) >? 0
               then (fold_left GoParser.longest_and_total (Report.Functions a)
                       (Metrics.MaxFunctionLength (Metrics.CalculateBasicMetrics content), 0)).1
               else Metrics.MaxFunctionLength (Metrics.CalculateBasicMetrics content)) in
    Forall (fun fd => Analysis.EndPosLine fd - Analysis.PosLine fd + 1 <= mx) decls
    /\ (mx = 0 \/ Exists (fun fd => Analysis.EndPosLine fd - Analysis.PosLine fd + 1 = mx)
                         decls)).
  { cbv zeta. destruct (Z.gtb_spec (len (Report.Functions a)) 0) as [Hpos|Hzero].
    - split.
      + apply List.Forall_forall. intros fd Hin.
        rewrite List.Forall_forall in L2, Hexact.
        assert (Hfn : In (Analysis.extractFunction fd) (Report.Functions a))
          by (rewrite V1; now apply in_map).
        specialize (L2 _ Hfn). destruct (Hexact fd Hin) as [_ Hl]. lia.
      + destruct L3 as [L3|L3]; [left; rewrite L3; exact Hkeep|right].
        apply List.Exists_exists in L3 as (fn & Hin & Heq).
        rewrite V1 in Hin. apply in_map_iff in Hin as (fd & <- & Hfd).
        apply List.Exists_exists. exists fd. split; [assumption|].
        rewrite List.Forall_forall in Hexact. destruct (Hexact fd Hfd) as [_ Hl]. lia.
    - assert (Hnil : decls = []).
      { rewrite V1 in Hzero. unfold len in Hzero. rewrite length_map in Hzero.
        destruct decls; [reflexivity | simpl in Hzero; lia]. }
      rewrite Hnil, Hkeep. split; [constructor | now left]. }
  cbv zeta in Hmaxlen. destruct Hmaxlen as [M1 M2].
  assert (Hcount : len (Report.Functions a) = len decls)
    by (rewrite V1; unfold len; now rewrite length_map).
  assert (Hclasses : len (Report.Classes a) = len (struct_specs (GoParser.FileNodes file)))
    by (rewrite V3; unfold len; now rewrite length_map).
  destruct (len (Report.Functions a) >? 0) eqn:Hpos.
  - destruct (fold_left GoParser.longest_and_total _ _) as [maxLength totalLOC].
    cbn [fst] in M1, M2.
    cbn [Report.with_Metrics Report.Metrics Metrics.FunctionCount Metrics.ClassCount
           Metrics.ImportCount Metrics.CyclomaticComplexity Metrics.MaxFunctionLength
           Metrics.LinesOfCode Metrics.LinesOfComments Metrics.BlankLines].
    rewrite complexity_fold by (try assumption; lia).
    split_and!; try reflexivity; try assumption; lia.
  - cbn [Report.with_Metrics Report.Metrics Metrics.FunctionCount Metrics.ClassCount
           Metrics.ImportCount Metrics.CyclomaticComplexity Metrics.MaxFunctionLength
           Metrics.LinesOfCode Metrics.LinesOfComments Metrics.BlankLines].
    rewrite complexity_fold by (try assumption; lia).
    split_and!; try reflexivity; try assumption; lia.
Qed.

(** ** The detectors *)

Lemma confidence_cases (generic long complex many : bool) :
  let st := Detectors.indicate many "Too many parameters" Detectors.f64_0_2
              (Detectors.indicate complex "Very high complexity" Detectors.f64_0_3
                 (Detectors.indicate long "Excessively long function" Detectors.f64_0_3
                    (Detectors.indicate generic "Generic function name" Detectors.f64_0_2
                       ([], fzero)))) in
  f_gt st.2 Detectors.f64_0_5
  = ((long && complex) || (3 <=? len (List.filter id [generic; long; complex; many])))
  /\ len st.1 = len (List.filter id [generic; long; complex; many]).
Proof.
  destruct generic, long, complex, many; vm_compute; split; reflexivity.
Qed.

Lemma detect_in_function_cases `{Strings.Unicode} analysis patterns fn :
  exists p,
    Detectors.detect_in_function analysis patterns fn
    = patterns ++ (if suspicious fn then [p] else [])
    /\ Detectors.File p = Report.FilePath analysis
    /\ Detectors.StartLine p = Analysis.StartLine fn
    /\ Detectors.EndLine p = Analysis.EndLine fn
    /\ len (Detectors.Indicators p) = len (List.filter id (ai_indicators fn))
    /\ f_gt (Detectors.Confidence p) Detectors.f64_0_5 = suspicious fn.
Proof.
  unfold Detectors.detect_in_function, suspicious, ai_indicators. cbv zeta.
  destruct (confidence_cases (Detectors.isGenericName (Analysis.Name fn))
              (Analysis.LOC fn >? 100) (Analysis.Complexity fn >? 20)
              (len (Analysis.Parameters fn) >? 5)) as [Hgt Hlen].
  cbv zeta in Hgt, Hlen.
  set (st := Detectors.indicate _ _ _ _) in *.
  exists {| Detectors.File := Report.FilePath analysis;
            Detectors.StartLine := Analysis.StartLine fn;
            Detectors.EndLine := Analysis.EndLine fn;
            Detectors.Pattern := "Potentially AI-generated boilerplate";
            Detectors.Confidence := st.2;
            Detectors.Indicators := st.1 |}.
  cbn [Detectors.File Detectors.StartLine Detectors.EndLine Detectors.Indicators
         Detectors.Confidence].
  rewrite <- Hgt. split_and!; try reflexivity; try assumption.
  destruct (f_gt st.2 Detectors.f64_0_5); [reflexivity | now rewrite app_nil_r].
Qed.

Lemma DetectAIPatterns_fold `{Strings.Unicode} analysis fns : forall patterns,
  exists new,
    fold_left (Detectors.detect_in_function analysis) fns patterns = patterns ++ new
    /\ map (fun p => (Detectors.StartLine p, Detectors.EndLine p)) new
       = map (fun fn => (Analysis.StartLine fn, Analysis.EndLine fn))
             (List.filter suspicious fns)
    /\ map (fun p => len (Detectors.Indicators p)) new
       = map (fun fn => len (List.filter id (ai_indicators fn))) (List.filter suspicious fns)
    /\ Forall (fun p => Detectors.File p = Report.FilePath analysis
                        /\ f_gt (Detectors.Confidence p) Detectors.f64_0_5 = true) new.
Proof.
  induction fns as [|fn fns IH]; intros patterns.
  - exists []. rewrite app_nil_r. split_and!; try reflexivity. constructor.
  - cbn [fold_left List.filter].
    destruct (detect_in_function_cases analysis patterns fn)
      as (p & -> & Hfile & Hstart & Hend & Hlen & Hconf).
    destruct (IH (patterns ++ (if suspicious fn then [p] else [])))
      as (new & -> & Hlines & Hcount & Hall).
    destruct (suspicious fn).
    + exists (p :: new). rewrite <- app_assoc. cbn [app map].
      rewrite Hlines, Hcount, Hstart, Hend, Hlen. split_and!; try reflexivity.
      constructor; [split; assumption | assumption].
    + exists new. rewrite app_nil_r. split_and!; try reflexivity; assumption.
Qed.

(** X25.  [DetectAIPatterns] reports exactly the functions that are
    both longer than 100 lines and more complex than 20, and those on
    which at least three of its four indicators hold (generic name, more
    than 100 lines, complexity above 20, more than 5 parameters), in the
    order of the file; any other pair of indicators adds up to a
    confidence of at most 0.5, which is not above the limit.  Each pattern names the file, the lines of its function
    and as many indicators as hold. *)
Theorem DetectAIPatterns_reports `{Strings.Unicode} (analysis : Report.FileAnalysis) :
  let reported := List.filter suspicious (Report.Functions analysis) in
  map (fun p => (Detectors.StartLine p, Detectors.EndLine p))
      (Detectors.DetectAIPatterns analysis)
  = map (fun fn => (Analysis.StartLine fn, Analysis.EndLine fn)) reported
  /\ map (fun p => len (Detectors.Indicators p)) (Detectors.DetectAIPatterns analysis)
     = map (fun fn => len (List.filter id (ai_indicators fn))) reported
  /\ Forall (fun p => Detectors.File p = Report.FilePath analysis
                      /\ f_gt (Detectors.Confidence p) Detectors.f64_0_5 = true)
            (Detectors.DetectAIPatterns analysis).
Proof.
  cbv zeta. unfold Detectors.DetectAIPatterns.
  destruct (DetectAIPatterns_fold analysis (Report.Functions analysis) [])
    as (new & -> & H1 & H2 & H3).
  simpl app. auto.
Qed.

Lemma byte_of_ascii_of_byte b : 0 <= b < 256 -> Strings.byte_of (Strings.ascii_of_byte b) = b.
Proof.
  intros Hb. unfold Strings.byte_of, Strings.ascii_of_byte.
  rewrite nat_ascii_embedding by lia. lia.
Qed.

Lemma upper_byte_fixed c : Strings.upper_byte c = c <-> Strings.is_lower c = false.
Proof.
  unfold Strings.upper_byte. destruct (Strings.is_lower c) eqn:Hl; [|tauto].
  split; [|discriminate]. intros Heq. exfalso.
  unfold Strings.is_lower in Hl. apply andb_prop in Hl as [H1 H2].
  apply Z.leb_le in H1, H2. apply (f_equal Strings.byte_of) in Heq.
  rewrite byte_of_ascii_of_byte in Heq by lia. lia.
Qed.

Lemma map_upper_fixed s :
  String.eqb (Strings.map_bytes Strings.upper_byte s) s = negb (has_lower s).
Proof.
  induction s as [|c s IH]; [reflexivity|].
  cbn [Strings.map_bytes has_lower String.eqb].
  destruct (Strings.is_lower c) eqn:Hl; cbn [orb negb].
  - destruct (Ascii.eqb_spec (Strings.upper_byte c) c) as [Heq|]; [|reflexivity].
    apply upper_byte_fixed in Heq. congruence.
  - apply upper_byte_fixed in Hl. rewrite Hl, Ascii.eqb_refl. exact IH.
Qed.

Lemma hasInvalidNaming_ascii `{Strings.Unicode} name :
  Strings.is_ascii name = true ->
  Detectors.hasInvalidNaming name = short_or_capitals name.
Proof.
  intros Hascii. unfold Detectors.hasInvalidNaming, short_or_capitals, Strings.ToUpper.
  rewrite Hascii, map_upper_fixed.
  destruct (Z.ltb_spec (Z.of_nat (String.length name)) 2); [reflexivity|].
  destruct (Z.gtb_spec (Z.of_nat (String.length name)) 1); [|lia].
  simpl. now destruct (has_lower name).
Qed.

(** X26.  On names written in ASCII, [CheckStyle] reports exactly the
    functions whose name has fewer than two bytes or no lower-case
    letter (so [F], [ID] and [HTTP2] are reported, [f1] and [Id] are
    not), one issue of type naming and severity info each, at the first
    line of the function and in the order of the file. *)
Theorem CheckStyle_reports_short_and_capital_names `{Strings.Unicode}
    (analysis : Report.FileAnalysis) :
  Forall (fun fn => Strings.is_ascii (Analysis.Name fn) = true) (Report.Functions analysis) ->
  Detectors.CheckStyle analysis
  = map Detectors.naming_issue
        (List.filter (fun fn => short_or_capitals (Analysis.Name fn))
                     (Report.Functions analysis)).
Proof.
  unfold Detectors.CheckStyle. intros Hascii.
  assert (Hfold : forall issues,
            fold_left (fun issues fn =>
                         if Detectors.hasInvalidNaming (Analysis.Name fn)
                         then issues ++ [Detectors.naming_issue fn] else issues)
                      (Report.Functions analysis) issues
            = issues ++ map Detectors.naming_issue
                          (List.filter (fun fn => short_or_capitals (Analysis.Name fn))
                                       (Report.Functions analysis))).
  { induction Hascii as [|fn fns Hfn _ IH]; intros issues; [now rewrite app_nil_r|].
    cbn [fold_left List.filter]. rewrite IH, (hasInvalidNaming_ascii _ Hfn).
    destruct (short_or_capitals (Analysis.Name fn)); [|reflexivity].
    now rewrite <- app_assoc. }
  apply (Hfold []).
Qed.

(** ** Runs of the further properties *)

(** X2, witness: a query of zeros against two entries. *)
Lemma Search_zero_query_scores_zero_witness :
  let s := Runs.index_of [Runs.entry "B" Runs.v10; Runs.entry "C" Runs.v01] in
  let q := [fzero; S754_zero true] in
  Forall (fun x => is_zero x = true) q
  /\ exists results,
       @Search insertion_SliceSorter s q 2 = Some results
       /\ length results = 2%nat
       /\ Forall (fun r => Similarity r = fzero) results.
Proof.
  cbv zeta. split; [repeat constructor|].
  exists (default [] (@Search insertion_SliceSorter
                        (Runs.index_of [Runs.entry "B" Runs.v10; Runs.entry "C" Runs.v01])
                        [fzero; S754_zero true] 2)).
  split; [reflexivity|]. split; [reflexivity|].
  apply (@Search_zero_query_scores_zero insertion_SliceSorter
           (Runs.index_of [Runs.entry "B" Runs.v10; Runs.entry "C" Runs.v01])
           [fzero; S754_zero true] 2);
    [repeat constructor | reflexivity].
Defined.

(** X4, witness: the one result of a search for one neighbour among two
    entries, and the entry left out. *)
Lemma Search_results_from_index_witness :
  let s := Runs.index_of [Runs.entry "C" Runs.v01; Runs.entry "B" Runs.v10] in
  exists results rest,
    @Search insertion_SliceSorter s Runs.v10 1 = Some results
    /\ map (fun r => ID (Entry r)) results = ["B"]%string
    /\ Permutation (results ++ rest) (map (score Runs.v10) (Embeddings (index s))).
Proof.
  cbv zeta.
  destruct (@Search_results_from_index insertion_SliceSorter
              (Runs.index_of [Runs.entry "C" Runs.v01; Runs.entry "B" Runs.v10])
              Runs.v10 1
              [score Runs.v10 (Runs.entry "B" Runs.v10)] eq_refl) as [rest Hperm].
  exists [score Runs.v10 (Runs.entry "B" Runs.v10)], rest.
  split; [reflexivity|]. split; [reflexivity | exact Hperm].
Defined.

(** X5, witness: the thresholds 0.85 and 1. *)
Lemma FindDuplicates_threshold_monotone_witness :
  let s := Runs.index_of [Runs.entry "C" Runs.v01; Runs.entry "B" Runs.v10] in
  f_ge f32_one f32_0_85 = true
  /\ exists at_lo at_hi,
       @FindDuplicates insertion_SliceSorter s Runs.v10 f32_0_85 "" = Some at_lo
       /\ @FindDuplicates insertion_SliceSorter s Runs.v10 f32_one "" = Some at_hi
       /\ forall r, In r at_hi -> In r at_lo.
Proof.
  cbv zeta. split; [reflexivity|].
  apply (@FindDuplicates_threshold_monotone insertion_SliceSorter). reflexivity.
Defined.

(** X6, witness: Local is down and Remote answers with [0, 1]. *)
Lemma Hybrid_success_names_its_backend_witness :
  let call := Hybrid_GenerateEmbedding Runs.hybrid_both "func f"
                (Runs.world_of Runs.ollama_down) in
  call.1 = (Ok Runs.v01, set_useOllama Runs.hybrid_both false)
  /\ Runs.v01 <> []
  /\ exists oa before, openai Runs.hybrid_both = Some oa
                       /\ sent call.2 = before ++ [openai_request oa "func f"].
Proof.
  cbv zeta. split; [reflexivity|].
  destruct (Hybrid_success_names_its_backend Runs.hybrid_both
              (set_useOllama Runs.hybrid_both false) "func f"
              (Runs.world_of Runs.ollama_down)
              (Hybrid_GenerateEmbedding Runs.hybrid_both "func f"
                 (Runs.world_of Runs.ollama_down)).2
              Runs.v01 eq_refl) as (Hne & _ & Hremote).
  split; [exact Hne|]. exact (Hremote eq_refl).
Defined.

(** X7, witness: two calls while Ollama is up. *)
Lemma Hybrid_session_still_local_witness :
  let session := Hybrid_calls MoreRuns.hybrid_local_only ["func f"; "func g"]%string
                   (Runs.world_of Runs.ollama_up) in
  useOllama session.1.2 = true
  /\ session.1.2 = MoreRuns.hybrid_local_only
  /\ map request_backend (sent session.2) = ["Ollama"; "Ollama"]%string
  /\ map is_ok session.1.1 = [true; true].
Proof.
  cbv zeta. split; [reflexivity|].
  destruct (Hybrid_session_still_local MoreRuns.hybrid_local_only
              (Hybrid_calls MoreRuns.hybrid_local_only ["func f"; "func g"]%string
                 (Runs.world_of Runs.ollama_up)).1.2
              ["func f"; "func g"]%string
              (Runs.world_of Runs.ollama_up)
              (Hybrid_calls MoreRuns.hybrid_local_only ["func f"; "func g"]%string
                 (Runs.world_of Runs.ollama_up)).2
              (Hybrid_calls MoreRuns.hybrid_local_only ["func f"; "func g"]%string
                 (Runs.world_of Runs.ollama_up)).1.1
              eq_refl eq_refl) as (Hp & Hsent & Hok).
  split; [exact Hp|]. split; [now rewrite Hsent | exact Hok].
Defined.

(** X11, witness: a repository with one function and a saved index of
    one entry; nothing answers on the network. *)
Lemma runContextBuild_without_backend_saves_empty_index_witness :
  let codec := Runs.table_codec [] in
  let w' := @Cmd.runContextBuild_embeddings codec false true "/repo" Runs.one_file ""
              MoreRuns.offline_world in
  disk MoreRuns.offline_world !! Runs.index_path
  = Some "{version: 1.0, provider: Ollama, entries: 1}"%string
  /\ sent w' = [ollama_tags_request]
  /\ disk w' !! Runs.index_path = Some "{version: 1.0, provider: None, entries: 0}"%string.
Proof.
  cbv zeta. split; [reflexivity|].
  destruct (@runContextBuild_without_backend_saves_empty_index (Runs.table_codec [])
              false true "/repo" Runs.one_file MoreRuns.offline_world
              "{version: 1.0, provider: None, entries: 0}")
    as [Hsent Hdisk]; [discriminate | reflexivity | reflexivity | reflexivity |].
  split; [exact Hsent|]. rewrite Hdisk. apply lookup_insert_eq.
Defined.


(** X14, witness: the detector of the two [init] functions, asked about
    a function of another file. *)
Lemma DetectDuplicates_results_are_very_similar_witness :
  let found := @DetectDuplicates _ _ insertion_SliceSorter
                 (NewDuplicateDetector Runs.two_inits_index Runs.local_provider fzero)
                 "func main" "b.go" "main" (Runs.world_of Runs.ollama_up) in
  exists results,
    found.1.1 = Some (Ok results)
    /\ length results = 2%nat
    /\ Forall (fun r => GetSimilarityLevel (Similarity r) = "Nearly Identical"%string
                        \/ GetSimilarityLevel (Similarity r) = "Very Similar"%string)
               results.
Proof.
  cbv zeta.
  set (found := @DetectDuplicates _ _ insertion_SliceSorter
                  (NewDuplicateDetector Runs.two_inits_index Runs.local_provider fzero)
                  "func main" "b.go" "main" (Runs.world_of Runs.ollama_up)).
  exists (match found.1.1 with Some (Ok results) => results | _ => [] end).
  split; [reflexivity|]. split; [reflexivity|].
  apply (@DetectDuplicates_results_are_very_similar _ _ insertion_SliceSorter
           Runs.two_inits_index Runs.local_provider fzero "func main" "b.go" "main"
           (Runs.world_of Runs.ollama_up) found.2 found.1.2);
    [left; reflexivity | reflexivity].
Defined.

(** X16, witness: a search by code for one neighbour among the two
    [init] functions. *)
Lemma SearchByCode_nonnegative_topK_witness :
  let s := NewSimilaritySearch Runs.two_inits_index in
  exists results,
    (@SearchByCode _ _ insertion_SliceSorter s Runs.local_provider "func main" 1
       (Runs.world_of Runs.ollama_up)).1.1 = Some (Ok results)
    /\ len results = 1.
Proof.
  cbv zeta.
  destruct (@SearchByCode_nonnegative_topK _ _ insertion_SliceSorter
              (NewSimilaritySearch Runs.two_inits_index) Runs.local_provider
              "func main" 1 (Runs.world_of Runs.ollama_up))
    as (outcome & Hcall & Hout); [lia|].
  cbv zeta in Hout.
  change (GenerateEmbedding Runs.local_provider "func main" (Runs.world_of Runs.ollama_up)).1.1
    with (@Ok (list float32) Runs.v10) in Hout.
  destruct Hout as (results & -> & _ & Hlen & _).
  exists results. rewrite Hcall. split; [reflexivity | exact Hlen].
Defined.

(** X18, witness: a comment, an empty line, a lone [#] and an
    unterminated line of code. *)
Lemma CalculateBasicMetrics_counts_every_line_witness :
  let content := ("// c" +:+ String "010" "" +:+ String "010" "" +:+ "#"
                  +:+ String "010" "" +:+ " x := 1")%string in
  let m := Metrics.CalculateBasicMetrics content in
  newlines (bytes_of_string content) = 3
  /\ Metrics.LinesOfCode m + Metrics.LinesOfComments m + Metrics.BlankLines m = 4
  /\ Metrics.BlankLines m = 1.
Proof.
  cbv zeta.
  destruct (CalculateBasicMetrics_counts_every_line
              ("// c" +:+ String "010" "" +:+ String "010" "" +:+ "#"
               +:+ String "010" "" +:+ " x := 1")%string)
    as (Hsum & Hblank & _); [vm_compute; discriminate|].
  split; [reflexivity|]. split; [exact Hsum | exact Hblank].
Defined.

(** X21, witness: the report of [main.go], which holds a complexity and
    a length warning. *)
Lemma AnalyzeRepository_issue_summary_witness :
  exists result,
    Analyzer.AnalyzeRepository_of [("main.go"%string, MoreRuns.main_go_report)] = Some result
    /\ Analyzer.TotalIssues (Analyzer.Summary result) = 2
    /\ Analyzer.ByType (Analyzer.Summary result) !! "complexity"%string = Some 1
    /\ Analyzer.ByType (Analyzer.Summary result) !! "naming"%string = None
    /\ Analyzer.BySeverity (Analyzer.Summary result) !! "warning"%string = Some 2.
Proof.
  destruct (AnalyzeRepository_issue_summary [("main.go"%string, MoreRuns.main_go_report)])
    as (result & Hrun & Htotal & Hty & Hsev); [vm_compute; discriminate|].
  exists result. split; [exact Hrun|]. split; [exact Htotal|].
  split; [exact (Hty "complexity"%string)|].
  split; [exact (Hty "naming"%string) | exact (Hsev "warning"%string)].
Defined.

(** X23, witness: [main.go] is read and parsed; [Process] is flagged
    twice, [f] is not. *)
Lemma ParseFile_flags_complex_and_long_functions_witness :
  exists analysis,
    @GoParser.ParseFile MoreRuns.one_text_parser "main.go" MoreRuns.source_world = Ok analysis
    /\ map Analysis.Name (Report.Functions analysis) = ["f"; "Process"]%string
    /\ map (fun issue => (Report.Type_ issue, Report.Line issue)) (Report.Issues analysis)
       = [("complexity", 30); ("function_length", 30)]%string.
Proof.
  destruct (@ParseFile_flags_complex_and_long_functions MoreRuns.one_text_parser
              "main.go" "package main" MoreRuns.main_go MoreRuns.source_world)
    as (analysis & Hrun & Hfns & Hissues & _);
    [reflexivity | reflexivity | repeat constructor; vm_compute; discriminate |].
  exists analysis. split; [exact Hrun|].
  rewrite Hfns, Hissues. split; reflexivity.
Defined.

(** X24, witness: the metrics of [main.go]. *)
Lemma ParseFile_metrics_witness :
  exists analysis,
    @GoParser.ParseFile MoreRuns.one_text_parser "main.go" MoreRuns.source_world = Ok analysis
    /\ Metrics.FunctionCount (Report.Metrics analysis) = 2
    /\ Metrics.ClassCount (Report.Metrics analysis) = 1
    /\ Metrics.ImportCount (Report.Metrics analysis) = 1
    /\ Metrics.CyclomaticComplexity (Report.Metrics analysis) = 15.
Proof.
  destruct (@ParseFile_metrics MoreRuns.one_text_parser
              "main.go" "package main" MoreRuns.main_go MoreRuns.source_world)
    as (analysis & Hrun & Hf & Hc & Hi & Hcc & _);
    [reflexivity | reflexivity | repeat constructor; vm_compute; discriminate
     | vm_compute; discriminate |].
  exists analysis. split; [exact Hrun|].
  split; [exact Hf|]. split; [exact Hc|]. split; [exact Hi | exact Hcc].
Defined.

(** X26, witness: of [ID], [F], [Id] and [parse], the first two are
    reported. *)
Lemma CheckStyle_reports_short_and_capital_names_witness :
  map Report.Message (@Detectors.CheckStyle MoreRuns.bytewise_case MoreRuns.four_names)
  = [ "Function 'ID' may not follow naming conventions";
      "Function 'F' may not follow naming conventions" ]%string.
Proof.
  rewrite (@CheckStyle_reports_short_and_capital_names MoreRuns.bytewise_case
             MoreRuns.four_names); [reflexivity|].
  repeat constructor.
Defined.
